(** * keypoint_moseq.fitting: the fitting loop, results extraction and
      hyperparameter editing

    A shallow embedding of [src/keypoint_moseq/fitting.py].  Python
    integers are [Z], dictionaries that are iterated are ordered
    association lists, files are finite maps, and every function that can
    raise or that mutates an object runs in a small state-and-exception
    monad, so that the state reached when an exception escapes is part of
    the result. *)

From Stdlib Require Import ZArith Lia.
From Stdlib Require Import Floats.SpecFloat.
From stdpp Require Import base option list strings gmap pretty.

Local Open Scope string_scope.
Local Open Scope list_scope.
Local Open Scope Z_scope.

(** ** Python runtime *)

Module Py.

(** The exception classes that [fitting.py] raises, catches or lets
    through. [StopResampling] is the module's own class. *)
Inductive exn : Type :=
| AssertionError
| KeyError
| TypeError
| ValueError
| OverflowError
| KeyboardInterrupt
| StopResampling
| Fault (what : string).

(** How a call ends: it returns a value or an exception escapes. *)
Inductive res (A : Type) : Type :=
| Ret (a : A)
| Raise (e : exn).
Arguments Ret {A} a.
Arguments Raise {A} e.

(** Computations over a mutable state [S]. The state is returned in both
    cases: mutations made before a [raise] stay visible. *)
Definition Eff (S A : Type) : Type := S -> res A * S.

#[global] Instance eff_ret {S} : MRet (Eff S) :=
  fun A a s => (Ret a, s).

#[global] Instance eff_bind {S} : MBind (Eff S) :=
  fun A B f m s =>
    match m s with
    | (Ret a, s') => f a s'
    | (Raise e, s') => (Raise e, s')
    end.

Definition raise {S A} (e : exn) : Eff S A := fun s => (Raise e, s).
Definition get {S} : Eff S S := fun s => (Ret s, s).
Definition modify {S} (f : S -> S) : Eff S unit := fun s => (Ret tt, f s).

(** [for x in xs: body(x)], left when an exception escapes the body. *)
Fixpoint for_each {S A} (xs : list A) (body : A -> Eff S unit) : Eff S unit :=
  match xs with
  | [] => mret tt
  | x :: rest => body x ;; for_each rest body
  end.

(** *** Dictionaries

    A [dict] keeps insertion order; its keys are pairwise different. *)
Definition dict (V : Type) : Type := list (string * V).

Fixpoint dict_get {V} (k : string) (d : dict V) : option V :=
  match d with
  | [] => None
  | (k', v) :: rest => if String.eqb k k' then Some v else dict_get k rest
  end.

(** [k in d] *)
Definition dict_in {V} (k : string) (d : dict V) : bool :=
  match dict_get k d with Some _ => true | None => false end.

(** [d[k] = v]: overwrite in place, or append a new key. *)
Fixpoint dict_set {V} (k : string) (v : V) (d : dict V) : dict V :=
  match d with
  | [] => [(k, v)]
  | (k', v') :: rest =>
      if String.eqb k k' then (k, v) :: rest else (k', v') :: dict_set k v rest
  end.

Definition dict_keys {V} (d : dict V) : list string := map fst d.

(** [l.remove(x)]: drop the first occurrence; [None] stands for the
    [ValueError] raised when there is none. *)
Fixpoint list_remove (x : string) (l : list string) : option (list string) :=
  match l with
  | [] => None
  | y :: rest =>
      if String.eqb x y then Some rest
      else match list_remove x rest with
           | Some rest' => Some (y :: rest')
           | None => None
           end
  end.

(** *** Sequences *)

(** A slice bound as Python normalises it for a sequence of length [n]:
    a negative bound counts from the end, and both are clamped. *)
Definition slice_bound (i n : Z) : Z :=
  if i <? 0 then Z.max (i + n) 0 else Z.min i n.

(** [a[lo:hi]] *)
Definition slice {A} (lo hi : Z) (a : list A) : list A :=
  let n := Z.of_nat (length a) in
  let lo' := slice_bound lo n in
  let hi' := slice_bound hi n in
  take (Z.to_nat (hi' - lo')) (drop (Z.to_nat lo') a).

(** [a[lo:]] *)
Definition slice_from {A} (lo : Z) (a : list A) : list A :=
  drop (Z.to_nat (slice_bound lo (Z.of_nat (length a)))) a.

(** [np.pad(a, (before, 0), mode='edge')] on a one-dimensional array:
    [before] copies of the first element in front. A negative width is
    refused, and so is a non-zero width on an empty array, which has no
    edge to repeat. *)
Definition np_pad_edge_left {A} (before : Z) (a : list A) : res (list A) :=
  if before <? 0 then Raise ValueError
  else match a with
       | [] => if before =? 0 then Ret [] else Raise ValueError
       | first :: _ => Ret (replicate (Z.to_nat before) first ++ a)
       end.

(** [os.path.join(a, b)] on POSIX paths. *)
Definition os_path_join (a b : string) : string :=
  if String.prefix "/" b then b
  else if String.eqb a "" then b
  else if String.eqb (String.substring (String.length a - 1)%nat 1 a) "/" then a +:+ b
  else a +:+ "/" +:+ b.

End Py.

Import Py.

(** ** Values *)

(** What the code asks of the Python objects stored as hyperparameters
    and passed as new values: [type(o)], [isinstance(o, T)],
    [np.isscalar(o)] and the call [T(o)] of a type on an object, which can
    raise. Every object is an instance of its own type. *)
Class ObjectModel : Type := {
  PyObj : Type;
  PyType : Type;
  type_of : PyObj -> PyType;
  isinstance : PyObj -> PyType -> bool;
  np_isscalar : PyObj -> bool;
  construct : PyType -> PyObj -> res PyObj;
  isinstance_type_of : forall o, isinstance o (type_of o) = true
}.

(** The parts of the model and of the data that the code only passes on:
    the fitted parameters, the formatted data, the entries of the three
    real-valued state arrays, and the remaining entries of the model
    dictionary (noise prior, seed). *)
Class Payloads : Type := {
  Params : Type;
  Data : Type;
  Latent : Type;
  Centroid : Type;
  Heading : Type;
  Extra : Type
}.

Section Model.
Context `{ObjectModel} `{Payloads}.

(** [model['states']]: batched arrays, one row per recording. *)
Record states_t : Type := {
  x : list (list Latent);
  z : list (list Z);
  v : list (list Centroid);
  h : list (list Heading)
}.

(** [model['hypparams']]: groups of named hyperparameters. *)
Definition hypparams_t : Type := dict (dict PyObj).

(** The model dictionary. A field is [None] when its key is absent. *)
Record model : Type := {
  states : option states_t;
  params : option Params;
  hypparams : option hypparams_t;
  extra : Extra
}.

Definition set_hypparams (hp : hypparams_t) (m : model) : model :=
  {| states := states m; params := params m; hypparams := Some hp;
     extra := extra m |}.

(** [m['hypparams'][group][k]], when it exists. *)
Definition hypparam_at (group k : string) (m : model) : option PyObj :=
  hp ← hypparams m; g ← dict_get group hp; dict_get k g.

(** [(keys, bounds)] *)
Definition metadata_t : Type := list string * list (Z * Z).

(** The texts handed to [warnings.warn] and [print], by what they say. *)
Inductive message : Type :=
| NoProgressPlots
| CpuBoundParallel
| Interrupted
| NaNsEncountered (leaves : list string)
| OutputsSavedTo (savedir : string)
| SavedResultsTo (path : string)
| NotAScalar (k : string)
| WillBeCast (val : PyObj) (k : string) (given current : PyType)
| NotFound (keys : list string).

Inductive output : Type :=
| Warn (m : message)
| Print (m : message).

Definition warnings_of (out : list output) : list message :=
  omap (fun o => match o with Warn m => Some m | Print _ => None end) out.

(** What line 381 emits for a new value [val] of [k] over the old value
    [old]. *)
Definition cast_advisory (k : string) (val old : PyObj) : list output :=
  if isinstance val (type_of old) then []
  else [Warn (WillBeCast val k (type_of val) (type_of old))].

(** ** [update_hypparams] *)

(** The model dictionary is edited in place, [not_updated] is the local
    list, and the output stream collects warnings and prints. *)
Record ustate : Type := {
  model_dict : model;
  not_updated : list string;
  emitted : list output
}.

Definition emit (o : output) : Eff ustate unit :=
  modify (fun s => {| model_dict := model_dict s;
                      not_updated := not_updated s;
                      emitted := emitted s ++ [o] |}).

(** [model_dict['hypparams'][group][k] = new] *)
Definition store_hypparam (group k : string) (new : PyObj) : Eff ustate unit :=
  fun s =>
    match hypparams (model_dict s) with
    | None => (Raise KeyError, s)
    | Some hp =>
        match dict_get group hp with
        | None => (Raise KeyError, s)
        | Some g =>
            (Ret tt,
             {| model_dict :=
                  set_hypparams (dict_set group (dict_set k new g) hp)
                                (model_dict s);
                not_updated := not_updated s;
                emitted := emitted s |})
        end
    end.

(** [not_updated.remove(k)] *)
Definition remove_not_updated (k : string) : Eff ustate unit :=
  fun s =>
    match list_remove k (not_updated s) with
    | None => (Raise ValueError, s)
    | Some l =>
        (Ret tt, {| model_dict := model_dict s; not_updated := l;
                    emitted := emitted s |})
    end.

(** [model_dict['hypparams'][group]] *)
Definition load_group (group : string) : Eff ustate (dict PyObj) :=
  fun s =>
    match hypparams (model_dict s) with
    | None => (Raise KeyError, s)
    | Some hp =>
        match dict_get group hp with
        | None => (Raise KeyError, s)
        | Some g => (Ret g, s)
        end
    end.

(** The body of the inner loop, for one [(k, v)] of [kwargs]. *)
Definition update_in_group (group : string) (kv : string * PyObj)
  : Eff ustate unit :=
  g ← load_group group;
  match dict_get kv.1 g with
  | None => mret tt
  | Some old_value =>
      if negb (np_isscalar old_value) then emit (Print (NotAScalar kv.1))
      else
        (if negb (isinstance kv.2 (type_of old_value))
         then emit (Warn (WillBeCast kv.2 kv.1 (type_of kv.2)
                                     (type_of old_value)))
         else mret tt) ;;
        new ← (fun s => (construct (type_of old_value) kv.2, s));
        store_hypparam group kv.1 new ;;
        remove_not_updated kv.1
  end.

Definition update_groups (groups : list string) (kwargs : dict PyObj)
  : Eff ustate unit :=
  for_each groups (fun group => for_each kwargs (update_in_group group)).

Definition update_hypparams_body (kwargs : dict PyObj) : Eff ustate model :=
  s ← get;
  match hypparams (model_dict s) with
  | None => raise AssertionError
  | Some hp =>
      modify (fun s => {| model_dict := model_dict s;
                          not_updated := dict_keys kwargs;
                          emitted := emitted s |}) ;;
      update_groups (dict_keys hp) kwargs ;;
      s' ← get;
      (if bool_decide (0 < length (not_updated s'))%nat
       then emit (Warn (NotFound (not_updated s')))
       else mret tt) ;;
      s'' ← get;
      mret (model_dict s'')
  end.

(** The call: what it returns or raises, the model dictionary object as
    the call leaves it, and what was emitted. *)
Definition update_hypparams (md : model) (kwargs : dict PyObj)
  : res model * model * list output :=
  let '(r, s) :=
    update_hypparams_body kwargs
      {| model_dict := md; not_updated := []; emitted := [] |} in
  (r, model_dict s, emitted s).

End Model.

(** ** The parallel-message-passing flag *)

(** [parallel_message_passing] is [None], a [bool], or a string. *)
Inductive pmp_flag : Type :=
| PmpNone
| PmpBool (b : bool)
| PmpStr (s : string).

(** Truth value of a flag in an [if]. *)
Definition pmp_truthy (p : pmp_flag) : bool :=
  match p with
  | PmpNone => false
  | PmpBool b => b
  | PmpStr s => negb (String.eqb s "")
  end.

(** [p == 'force'] *)
Definition pmp_is_force (p : pmp_flag) : bool :=
  match p with
  | PmpStr s => String.eqb s "force"
  | _ => false
  end.

(** [p is None] *)
Definition pmp_is_none (p : pmp_flag) : bool :=
  match p with
  | PmpNone => true
  | _ => false
  end.

(** ** Files *)

Section Files.
Context `{ObjectModel} `{Payloads}.

(** One entry of the results: the four arrays of a recording. *)
Record results_record : Type := {
  syllable : list Z;
  latent_state : list Latent;
  centroid : list Centroid;
  heading : list Heading
}.

(** An HDF5 container: the paths [model_snapshots/<key>], [metadata],
    [data], and one group per recording of a results file. *)
Record h5file : Type := {
  model_snapshots : gmap string model;
  metadata : option metadata_t;
  data : option Data;
  recordings : gmap string results_record
}.

Definition h5_empty : h5file :=
  {| model_snapshots := ∅; metadata := None; data := None; recordings := ∅ |}.

(** Writing [new] over [old]: every path of [new] is added or
    overwritten, every other path of [old] is kept. *)
Definition h5_merge (new old : h5file) : h5file :=
  {| model_snapshots := model_snapshots new ∪ model_snapshots old;
     metadata := match metadata new with Some m => Some m | None => metadata old end;
     data := match data new with Some d => Some d | None => data old end;
     recordings := recordings new ∪ recordings old |}.

(** Modelled from the spec: [save_hdf5] of [keypoint_moseq/io.py], which
    is not among the sources. The container at [filepath] is created when
    missing, and the write adds or overwrites the paths of [save_dict]
    without destroying sibling data. *)
Definition save_hdf5 (filepath : string) (save_dict : h5file)
    (fs : gmap string h5file) : gmap string h5file :=
  <[filepath := h5_merge save_dict (default h5_empty (fs !! filepath))]> fs.

(** The three shapes of argument that [fitting.py] passes to [save_hdf5]:
    a whole checkpoint, one model under the data path
    [model_snapshots/<key>], and a results dictionary. *)
Definition checkpoint_dict (key : string) (m : model) (md : metadata_t)
    (d : Data) : h5file :=
  {| model_snapshots := {[ key := m ]}; metadata := Some md; data := Some d;
     recordings := ∅ |}.

Definition snapshot_at (key : string) (m : model) : h5file :=
  {| model_snapshots := {[ key := m ]}; metadata := None; data := None;
     recordings := ∅ |}.

Definition results_file (results : dict results_record) : h5file :=
  {| model_snapshots := ∅; metadata := None; data := None;
     recordings := list_to_map (reverse results) |}.

(** The snapshots stored in the container at [path], none when there is
    no such container. *)
Definition snapshots_at (path : string) (fs : gmap string h5file)
  : gmap string model :=
  model_snapshots (default h5_empty (fs !! path)).

End Files.

(** ** External collaborators *)

(** The keyword options of [resample_model]; [states_only] is [None] when
    the caller does not pass it. *)
Record resample_options : Type := {
  ar_only : bool;
  states_only : option bool;
  verbose : bool;
  parallel_message_passing : pmp_flag
}.

(** What [jax_moseq], [jax], the clock and the plotting module provide.
    [World] is everything outside the program that their calls read or
    change: the device, and the user who may interrupt a call.
    [check_for_nans] and [device_put_as_scalar] are taken as functions of
    the model: they have no effect, and no interruption is considered
    while they run. *)
Class Collaborators `{ObjectModel} `{Payloads} : Type := {
  World : Type;
  default_backend : string;
  timestamp : World -> string;
  resample_model : Data -> model -> resample_options -> Eff World model;
  check_for_nans : model -> bool * list string;
  device_put_as_scalar : model -> model;
  init_model : Data -> Params -> hypparams_t -> bool -> Eff World model;
  plot_progress :
    model -> Data -> string -> Z -> option string -> string -> Eff World unit
}.

Section Fitting.
Context `{Collaborators}.

(** A call of a collaborator or of [save_hdf5], with its arguments. *)
Inductive event : Type :=
| CallInit (d : Data) (pr : Params) (hp : hypparams_t) (verbose : bool)
| CallResample (d : Data) (m : model) (opts : resample_options)
| CallSave (filepath : string) (save_dict : h5file)
| CallPlot (m : model) (iteration : Z).

(** The state that the functions of [fitting.py] act on: the outside
    world, the files, what has been warned and printed, and the journal
    of the calls made so far. *)
Record host : Type := {
  world : World;
  files : gmap string h5file;
  stream : list output;
  journal : list event
}.

Definition say (o : output) : Eff host unit :=
  modify (fun s => {| world := world s; files := files s;
                      stream := stream s ++ [o]; journal := journal s |}).

Definition note (e : event) : Eff host unit :=
  modify (fun s => {| world := world s; files := files s;
                      stream := stream s; journal := journal s ++ [e] |}).

Definition write_file (filepath : string) (save_dict : h5file) : Eff host unit :=
  note (CallSave filepath save_dict) ;;
  modify (fun s => {| world := world s;
                      files := save_hdf5 filepath save_dict (files s);
                      stream := stream s; journal := journal s |}).

(** A call of a collaborator: it acts on the world only. [files] are the
    HDF5 containers, which [save_hdf5] alone writes; what a collaborator
    saves itself, such as the figures of [plot_progress], belongs to the
    world. *)
Definition call {A} (c : Eff World A) : Eff host A :=
  fun s =>
    let '(r, w) := c (world s) in
    (r, {| world := w; files := files s; stream := stream s;
           journal := journal s |}).

(** [try: c  except StopResampling: break], with [None] for the break. *)
Definition or_break {A} (c : Eff host A) : Eff host (option A) :=
  fun s =>
    match c s with
    | (Ret a, s') => (Ret (Some a), s')
    | (Raise StopResampling, s') => (Ret None, s')
    | (Raise e, s') => (Raise e, s')
    end.

(** [for i in xs: m = body(i, m)], where the body may break. *)
Fixpoint for_break {A M} (xs : list A) (body : A -> M -> Eff host (option M))
    (m : M) : Eff host M :=
  match xs with
  | [] => mret m
  | i :: rest =>
      r ← body i m;
      match r with
      | None => mret m
      | Some m' => for_break rest body m'
      end
  end.

(** The iterations [xs] run to the end when each of them returns a new
    state: none breaks and none raises. [adopt_all] is then the state and
    the host that they lead to. *)
Fixpoint adopt_all {A M} (xs : list A) (body : A -> M -> Eff host (option M))
    (m : M) (s : host) : option (M * host) :=
  match xs with
  | [] => Some (m, s)
  | i :: rest =>
      match body i m s with
      | (Ret (Some m'), s') => adopt_all rest body m' s'
      | _ => None
      end
  end.

(** [range(lo, hi)] *)
Definition range (lo hi : Z) : list Z := seqZ lo (hi - lo).

(** ** [_wrapped_resample]

    [check_for_nans] also returns a [nan_info] that is not used. *)
Definition _wrapped_resample (d : Data) (m : model) (opts : resample_options)
  : Eff host model :=
  fun s =>
    match (note (CallResample d m opts) ;; call (resample_model d m opts)) s with
    | (Raise KeyboardInterrupt, s') =>
        (say (Print Interrupted) ;; raise StopResampling) s'
    | (Raise e, s') => (Raise e, s')
    | (Ret m', s') =>
        let '(any_nans, messages) := check_for_nans m' in
        if any_nans
        then (say (Warn (NaNsEncountered messages)) ;; raise StopResampling) s'
        else (Ret m', s')
    end.

(** ** [_set_parallel_flag] *)

Definition _set_parallel_flag (backend : string) (p : pmp_flag)
  : pmp_flag * list output :=
  if pmp_is_force p then (PmpBool true, [])
  else if pmp_is_none p
  then (PmpBool (negb (String.eqb backend "cpu")), [])
  else if pmp_truthy p && String.eqb backend "cpu"
  then (p, [Warn CpuBoundParallel])
  else (p, []).

Definition set_parallel_flag (p : pmp_flag) : Eff host pmp_flag :=
  let '(p', advisories) := _set_parallel_flag default_backend p in
  for_each advisories say ;; mret p'.

(** ** [fit_model] *)

Record fit_args : Type := {
  fit_model_arg : model;
  fit_data : Data;
  fit_metadata : metadata_t;
  project_dir : option string;
  name : option string;
  num_iters : Z;
  start_iter : Z;
  fit_verbose : bool;
  fit_ar_only : bool;
  save_every_n_iters : Z;
  generate_progress_plots : bool;
  fit_parallel_message_passing : pmp_flag
}.

(** The local variables that the loop reads, as lines 137 to 160 leave
    them. [checkpoint_path] is bound only when [save_every_n_iters > 0].
    Directories are not modelled: [os.makedirs] leaves the files as they
    are. *)
Record fit_locals : Type := {
  run_name : string;
  checkpoint_path : option string;
  plots : bool;
  flag : pmp_flag;
  on_device : model
}.

(** [os.path.join(project_dir, name)] raises on a [None] directory. *)
Definition join_project (dir : option string) (nm : string) : Eff host string :=
  match dir with
  | None => raise TypeError
  | Some d => mret (os_path_join d nm)
  end.

Definition fit_prepare (a : fit_args) : Eff host fit_locals :=
  plots' ←
    (if generate_progress_plots a && (save_every_n_iters a =? 0)
     then say (Warn NoProgressPlots) ;; mret false
     else mret (generate_progress_plots a));
  s ← get;
  let nm := match name a with
            | None => timestamp (world s)
            | Some n => n
            end in
  path ←
    (if 0 <? save_every_n_iters a
     then
       savedir ← join_project (project_dir a) nm;
       say (Print (OutputsSavedTo savedir)) ;;
       let checkpoint := os_path_join savedir "checkpoint.h5" in
       s1 ← get;
       (if bool_decide (is_Some (files s1 !! checkpoint))
        then mret tt
        else write_file checkpoint
               (checkpoint_dict (pretty (start_iter a)) (fit_model_arg a)
                                (fit_metadata a) (fit_data a))) ;;
       mret (Some checkpoint)
     else mret None);
  p ← set_parallel_flag (fit_parallel_message_passing a);
  mret {| run_name := nm; checkpoint_path := path; plots := plots';
          flag := p; on_device := device_put_as_scalar (fit_model_arg a) |}.

Definition fit_options (a : fit_args) (l : fit_locals) : resample_options :=
  {| ar_only := fit_ar_only a; states_only := None;
     verbose := fit_verbose a; parallel_message_passing := flag l |}.

(** Lines 170 to 174: the checkpoint of an iteration, and its plot. *)
Definition fit_checkpoint (a : fit_args) (l : fit_locals) (iteration : Z)
    (m : model) : Eff host unit :=
  if (0 <? save_every_n_iters a) && (start_iter a <? iteration) then
    if (iteration mod save_every_n_iters a =? 0) || (iteration =? num_iters a)
    then
      match checkpoint_path l with
      | None => raise (Fault "UnboundLocalError")
      | Some path =>
          write_file path (snapshot_at (pretty iteration) m) ;;
          if plots l
          then note (CallPlot m iteration) ;;
               call (plot_progress m (fit_data a) path iteration
                                   (project_dir a) (run_name l))
          else mret tt
      end
    else mret tt
  else mret tt.

(** The body of the loop. *)
Definition fit_iteration (a : fit_args) (l : fit_locals) (iteration : Z)
    (m : model) : Eff host (option model) :=
  r ← or_break (_wrapped_resample (fit_data a) m (fit_options a l));
  match r with
  | None => mret None
  | Some m' => fit_checkpoint a l iteration m' ;; mret (Some m')
  end.

Definition fit_model (a : fit_args) : Eff host (model * string) :=
  l ← fit_prepare a;
  m ← for_break (range (start_iter a) (num_iters a + 1))
                (fit_iteration a l) (on_device l);
  mret (m, run_name l).

(** The tests of lines 170 and 171 together: iteration [i] is followed
    by a checkpoint. *)
Definition checkpoint_due (a : fit_args) (i : Z) : bool :=
  (0 <? save_every_n_iters a) && (start_iter a <? i)
  && ((i mod save_every_n_iters a =? 0) || (i =? num_iters a)).

(** The name of the run and the path of its checkpoint file, as lines 144
    to 152 compute them. *)
Definition run_name_of (a : fit_args) (s : host) : string :=
  match name a with
  | None => timestamp (world s)
  | Some n => n
  end.

Definition checkpoint_path_of (a : fit_args) (s : host) : option string :=
  match project_dir a with
  | None => None
  | Some d =>
      Some (os_path_join (os_path_join d (run_name_of a s)) "checkpoint.h5")
  end.

(** A run of [fit_model] that is not stopped early: the lines before the
    loop return, and every iteration from [start_iter] to [num_iters]
    adopts a new state. *)
Definition fit_completes (a : fit_args) (s : host) : bool :=
  match fit_prepare a s with
  | (Ret l, s1) =>
      bool_decide (is_Some (adopt_all (range (start_iter a) (num_iters a + 1))
                                      (fit_iteration a l) (on_device l) s1))
  | (Raise _, _) => false
  end.

(** The run reaches iteration [k] with every earlier iteration adopted:
    the locals of the run, the last adopted state and the host at the
    head of iteration [k]. *)
Definition fit_reaches (a : fit_args) (s : host) (k : Z)
  : option (fit_locals * host * model * host) :=
  match fit_prepare a s with
  | (Ret l, s1) =>
      match adopt_all (range (start_iter a) k) (fit_iteration a l)
                      (on_device l) s1 with
      | Some (m, s2) => Some (l, s1, m, s2)
      | None => None
      end
  | (Raise _, _) => None
  end.

End Fitting.

(** ** [extract_results] and [apply_model] *)

Section Results.
Context `{Collaborators}.

(** [a.shape[1]] of a batched array whose rows have one length. *)
Definition shape1 {A} (a : list (list A)) : Z :=
  match a with
  | [] => 0
  | row :: _ => Z.of_nat (length row)
  end.

(** Modelled from the spec: [unbatch] of [jax_moseq.utils], which is not
    among the sources. For the row of each recording, with its bounds
    [(start, end)], the entry of the recording is
    [batched_array[r, start:end]]. *)
Definition unbatch {A} (batched_array : list (list A)) (keys : list string)
    (bounds : list (Z * Z)) : dict (list A) :=
  zip_with (fun key rb => (key, slice rb.2.1 rb.2.2 rb.1))
           keys (zip batched_array bounds).

(** [bounds + np.array([0, nlags])] *)
Definition shift_bounds (bounds : list (Z * Z)) (nlags : Z) : list (Z * Z) :=
  map (fun b => (b.1 + 0, b.2 + nlags)) bounds.

(** [{k: f(a) for k, a in d.items()}], where [f] can raise. *)
Fixpoint dict_map_res {A B} (f : A -> res B) (d : dict A) : res (dict B) :=
  match d with
  | [] => Ret []
  | (k, a) :: rest =>
      match f a with
      | Raise e => Raise e
      | Ret b =>
          match dict_map_res f rest with
          | Raise e => Raise e
          | Ret rest' => Ret ((k, b) :: rest')
          end
      end
  end.

(** [d[k]] *)
Definition dict_item {V} (k : string) (d : dict V) : res V :=
  match dict_get k d with
  | Some a => Ret a
  | None => Raise KeyError
  end.

Definition lift_res {S A} (r : res A) : Eff S A := fun s => (r, s).

(** Line 237: drop the first [nlags] labels, then repeat the first one
    left [nlags] times in front. *)
Definition pad_syllables (nlags : Z) (zs : list Z) : res (list Z) :=
  np_pad_edge_left nlags (slice_from nlags zs).

(** Lines 231 to 250: the results dictionary of a model. *)
Definition results_of (st : states_t) (md : metadata_t)
  : res (dict results_record) :=
  let '(keys, bounds) := md in
  let nlags := shape1 (x st) - shape1 (z st) in
  match dict_map_res (pad_syllables nlags)
                     (unbatch (z st) keys (shift_bounds bounds nlags)) with
  | Raise e => Raise e
  | Ret syllables =>
      let latent := unbatch (x st) keys bounds in
      let centroids := unbatch (v st) keys bounds in
      let headings := unbatch (h st) keys bounds in
      dict_map_res
        (fun recording_name =>
           match dict_item recording_name syllables,
                 dict_item recording_name latent,
                 dict_item recording_name centroids,
                 dict_item recording_name headings with
           | Ret s, Ret l, Ret c, Ret hd =>
               Ret {| syllable := s; latent_state := l; centroid := c;
                      heading := hd |}
           | Raise e, _, _, _ | _, Raise e, _, _
           | _, _, Raise e, _ | _, _, _, Raise e => Raise e
           end)
        (map (fun kv => (kv.1, kv.1)) syllables)
  end.

(** Modelled from the spec: [_get_path] of [keypoint_moseq/io.py], which
    is not among the sources. The destination is the given path, or else
    [<project_dir>/<name>/<filename>]; saving without a destination is a
    precondition violation. *)
Definition _get_path (path dir nm : option string) (filename : string)
  : res string :=
  match path, dir, nm with
  | Some p, _, _ => Ret p
  | None, Some d, Some n => Ret (os_path_join (os_path_join d n) filename)
  | None, _, _ => Raise AssertionError
  end.

Definition extract_results (m : model) (md : metadata_t)
    (dir nm : option string) (save_results : bool) (path : option string)
  : Eff host (dict results_record) :=
  path' ←
    (if save_results
     then p ← lift_res (_get_path path dir nm "results.h5"); mret (Some p)
     else mret path);
  st ← lift_res (match states m with Some st => Ret st | None => Raise KeyError end);
  results_dict ← lift_res (results_of st md);
  (if save_results
   then match path' with
        | None => raise TypeError
        | Some p =>
            write_file p (results_file results_dict) ;;
            say (Print (SavedResultsTo p))
        end
   else mret tt) ;;
  mret results_dict.

Record apply_args : Type := {
  apply_model_arg : model;
  apply_data : Data;
  apply_metadata : metadata_t;
  apply_project_dir : option string;
  apply_name : option string;
  apply_num_iters : Z;
  apply_ar_only : bool;
  apply_save_results : bool;
  apply_verbose : bool;
  results_path : option string;
  apply_parallel_message_passing : pmp_flag
}.

Definition apply_options (a : apply_args) (p : pmp_flag) : resample_options :=
  {| ar_only := apply_ar_only a; states_only := Some true;
     verbose := apply_verbose a; parallel_message_passing := p |}.

(** The body of the loop of [apply_model]. *)
Definition apply_iteration (a : apply_args) (p : pmp_flag) (iteration : Z)
    (m : model) : Eff host (option model) :=
  or_break (_wrapped_resample (apply_data a) m (apply_options a p)).

(** Lines 317 to 328: the flag, the destination and the fresh model. *)
Definition apply_prepare (a : apply_args)
  : Eff host (pmp_flag * option string * model) :=
  p ← set_parallel_flag (apply_parallel_message_passing a);
  dest ←
    (if apply_save_results a
     then match results_path a with
          | Some r => mret (Some r)
          | None =>
              match apply_project_dir a, apply_name a with
              | Some d, Some n =>
                  mret (Some (os_path_join (os_path_join d n) "results.h5"))
              | _, _ => raise AssertionError
              end
          end
     else mret (results_path a));
  pr ← lift_res (match params (apply_model_arg a) with
                 | Some pr => Ret pr | None => Raise KeyError end);
  hp ← lift_res (match hypparams (apply_model_arg a) with
                 | Some hp => Ret hp | None => Raise KeyError end);
  note (CallInit (apply_data a) pr hp (apply_verbose a)) ;;
  m ← call (init_model (apply_data a) pr hp (apply_verbose a));
  mret (p, dest, m).

Definition apply_model (a : apply_args) : Eff host (dict results_record) :=
  '(p, dest, m0) ← apply_prepare a;
  m ← for_break (range 0 (apply_num_iters a)) (apply_iteration a p) m0;
  extract_results m (apply_metadata a) (apply_project_dir a) (apply_name a)
                  (apply_save_results a) dest.

(** What a call made by [apply_model] may be: the initialisation from
    the data and the parameters and hyperparameters of the given model, a
    resampling of the states only, or a write that holds no snapshot, no
    metadata and no data. *)
Definition inference_event (a : apply_args) (e : event) : Prop :=
  match e with
  | CallInit d pr hp vb =>
      d = apply_data a ∧ params (apply_model_arg a) = Some pr
      ∧ hypparams (apply_model_arg a) = Some hp ∧ vb = apply_verbose a
  | CallResample d _ opts =>
      d = apply_data a ∧ states_only opts = Some true
  | CallSave _ save_dict =>
      model_snapshots save_dict = ∅ ∧ metadata save_dict = None
      ∧ data save_dict = None
  | CallPlot _ _ => False
  end.

(** What a part of [apply_model] does to the host: it may add calls of
    inference to the journal, and it leaves the snapshots of every file
    as they are. *)
Definition inference_only (a : apply_args) (s s' : host) : Prop :=
  (exists new, journal s' = journal s ++ new ∧ Forall (inference_event a) new)
  ∧ forall path, snapshots_at path (files s') = snapshots_at path (files s).

End Results.

(** ** The inference that [apply_model] is to run

    The reference that [apply_model] is compared with. It follows the
    words of the specification and is written on the collaborators
    themselves, sharing nothing with the loop of [apply_model]: from a
    fresh state, one resampling of the latent states per iteration, each
    on the state that the one before returned, until the iterations are
    done or one of them stops early. *)

Section Inference.
Context `{Collaborators}.

(** Lines 319 to 324: where the results are to go. *)
Definition apply_destination (a : apply_args) : res (option string) :=
  if apply_save_results a
  then match results_path a with
       | Some r => Ret (Some r)
       | None =>
           match apply_project_dir a, apply_name a with
           | Some d, Some n =>
               Ret (Some (os_path_join (os_path_join d n) "results.h5"))
           | _, _ => Raise AssertionError
           end
       end
  else Ret (results_path a).

(** How a run of resampling calls ends: the exception that escaped, if
    one did, the state adopted last, the world, the calls made, and what
    was warned and printed. *)
Record inference_trace : Type := {
  run_failure : option exn;
  run_state : model;
  run_world : World;
  run_calls : list event;
  run_stream : list output
}.

(** [n] iterations from the state [m] in the world [w]. An iteration
    calls [resample_model] on the current state. The state it returns is
    adopted when [check_for_nans] finds nothing in it. The run stops
    early, with a message, at an interruption by the user and at a state
    with NaNs, and it stops early at [StopResampling]; any other
    exception escapes. *)
Fixpoint spec_inference_run (d : Data) (opts : resample_options) (n : nat)
    (m : model) (w : World) : inference_trace :=
  match n with
  | O => {| run_failure := None; run_state := m; run_world := w;
            run_calls := []; run_stream := [] |}
  | S n' =>
      let stopped (e : option exn) (w' : World) (said : list output) :=
        {| run_failure := e; run_state := m; run_world := w';
           run_calls := [CallResample d m opts]; run_stream := said |} in
      match resample_model d m opts w with
      | (Ret m', w') =>
          if (check_for_nans m').1
          then stopped None w' [Warn (NaNsEncountered (check_for_nans m').2)]
          else
            let rest := spec_inference_run d opts n' m' w' in
            {| run_failure := run_failure rest; run_state := run_state rest;
               run_world := run_world rest;
               run_calls := CallResample d m opts :: run_calls rest;
               run_stream := run_stream rest |}
      | (Raise KeyboardInterrupt, w') => stopped None w' [Print Interrupted]
      | (Raise StopResampling, w') => stopped None w' []
      | (Raise e, w') => stopped (Some e) w' []
      end
  end.

End Inference.

(** ** What a run can be asked afterwards *)

Section Observations.
Context `{Collaborators}.

(** The names of the groups and, group by group, the names of their
    hyperparameters. *)
Definition hypparams_shape (hp : hypparams_t) : list (string * list string) :=
  map (fun g => (g.1, dict_keys g.2)) hp.

(** The options of the resampling calls of a journal, in order. *)
Definition resample_options_of (j : list event) : list resample_options :=
  omap (fun e => match e with
                 | CallResample _ _ opts => Some opts
                 | _ => None
                 end) j.

(** The writes of a journal: the file and what was written. *)
Definition saves_of (j : list event) : list (string * h5file) :=
  omap (fun e => match e with
                 | CallSave filepath save_dict => Some (filepath, save_dict)
                 | _ => None
                 end) j.

(** The iterations whose progress was plotted. *)
Definition plots_of (j : list event) : list Z :=
  omap (fun e => match e with
                 | CallPlot _ iteration => Some iteration
                 | _ => None
                 end) j.

(** What line 378 prints for the key [k], once for every group of [gs]
    that holds it. *)
Definition not_a_scalar_notices (k : string) (m : model) (gs : list string)
  : list output :=
  flat_map (fun G => match hypparam_at G k m with
                     | Some _ => [Print (NotAScalar k)]
                     | None => []
                     end) gs.

(** The advisories of the casts are the warnings of line 381. *)
Definition is_cast_advisory (o : output) : Prop :=
  match o with
  | Warn (WillBeCast _ _ _ _) => True
  | _ => False
  end.

(** The group [G] exists in the model dictionary. *)
Definition has_group (G : string) (m : model) : Prop :=
  exists hp, hypparams m = Some hp ∧ G ∈ dict_keys hp.

(** For a call with several keys: [home k] is the group of the key [k]
    and [cast k] the value that its entry is to take. The entry of [k] is
    ready to be updated in [s] with [val], and it has been updated. *)
Definition ready (home : string -> string) (cast : string -> PyObj)
    (k : string) (val : PyObj) (s : ustate) : Prop :=
  exists old,
    hypparam_at (home k) k (model_dict s) = Some old
    ∧ np_isscalar old = true
    ∧ construct (type_of old) val = Ret (cast k)
    ∧ k ∈ not_updated s.

Definition updated (home : string -> string) (cast : string -> PyObj)
    (k : string) (s : ustate) : Prop :=
  hypparam_at (home k) k (model_dict s) = Some (cast k) ∧ k ∉ not_updated s.

(** The states, the parameters and the other entries of two model
    dictionaries are the same: they differ in ['hypparams'] at most. *)
Definition same_but_hypparams (m m' : model) : Prop :=
  states m' = states m ∧ params m' = params m ∧ extra m' = extra m.

End Observations.

(** ** Python scalars

    The built-in objects that hyperparameters and their new values are
    made of: [int], [bool] (a subclass of [int]), [float] (binary64),
    [None] and lists of integers. *)

Module Scalars.

Inductive pyval : Type :=
| VInt (n : Z)
| VBool (b : bool)
| VFloat (f : spec_float)
| VNone
| VList (items : list Z).

Inductive pytype : Type :=
| TInt
| TBool
| TFloat
| TNoneType
| TList.

Definition type_of (o : pyval) : pytype :=
  match o with
  | VInt _ => TInt
  | VBool _ => TBool
  | VFloat _ => TFloat
  | VNone => TNoneType
  | VList _ => TList
  end.

Definition pytype_eqb (a b : pytype) : bool :=
  match a, b with
  | TInt, TInt | TBool, TBool | TFloat, TFloat
  | TNoneType, TNoneType | TList, TList => true
  | _, _ => false
  end.

(** [isinstance(o, T)]: the type of [o] is [T] or a subclass of it, and
    [bool] is the one subclass here. *)
Definition isinstance (o : pyval) (T : pytype) : bool :=
  match o, T with
  | VBool _, TInt => true
  | _, _ => pytype_eqb (type_of o) T
  end.

(** [np.isscalar(o)] *)
Definition np_isscalar (o : pyval) : bool :=
  match o with
  | VInt _ | VBool _ | VFloat _ => true
  | VNone | VList _ => false
  end.

(** [float(n)] of an integer: the nearest binary64, ties to even, and
    [OverflowError] beyond the largest one. *)
Definition float_of_int (n : Z) : res pyval :=
  match binary_normalize 53 1024 n 0 false with
  | S754_infinity _ => Raise OverflowError
  | f => Ret (VFloat f)
  end.

(** [int(f)] of a float: truncation towards zero. *)
Definition int_of_float (f : spec_float) : res pyval :=
  match f with
  | S754_zero _ => Ret (VInt 0)
  | S754_infinity _ => Raise OverflowError
  | S754_nan => Raise ValueError
  | S754_finite s m e =>
      let magnitude := Z.shiftl (Zpos m) e in
      Ret (VInt (if s then - magnitude else magnitude))
  end.

Definition float_is_zero (f : spec_float) : bool :=
  match f with
  | S754_zero _ => true
  | _ => false
  end.

(** [T(o)] *)
Definition construct (T : pytype) (o : pyval) : res pyval :=
  match T, o with
  | TInt, VInt n => Ret (VInt n)
  | TInt, VBool b => Ret (VInt (if b then 1 else 0))
  | TInt, VFloat f => int_of_float f
  | TBool, VInt n => Ret (VBool (negb (n =? 0)))
  | TBool, VBool b => Ret (VBool b)
  | TBool, VFloat f => Ret (VBool (negb (float_is_zero f)))
  | TBool, VNone => Ret (VBool false)
  | TBool, VList items => Ret (VBool (negb (bool_decide (items = []))))
  | TFloat, VInt n => float_of_int n
  | TFloat, VBool b => float_of_int (if b then 1 else 0)
  | TFloat, VFloat f => Ret (VFloat f)
  | TList, VList items => Ret (VList items)
  | _, _ => Raise TypeError
  end.

Lemma isinstance_own_type (o : pyval) : isinstance o (type_of o) = true.
Proof. destruct o; reflexivity. Qed.

Definition objects : ObjectModel :=
  Build_ObjectModel pyval pytype type_of isinstance np_isscalar construct
                    isinstance_own_type.

(** The floats [5.0] and [10.0]. *)
Definition five : spec_float := S754_finite false 5629499534213120 (-50).
Definition ten : spec_float := S754_finite false 5629499534213120 (-49).

End Scalars.

(** ** A scripted run

    Collaborators for running the loop on given inputs: the world is the
    number of resampling calls made so far, a model carries the number of
    resampling steps that produced it and whether it holds a non-finite
    value, and the script says at which call the user interrupts and at
    which call the resampled state diverges. *)

Module Script.

Definition payloads : Payloads :=
  {| Params := unit; Data := unit; Latent := Z; Centroid := Z; Heading := Z;
     Extra := Z * bool |}.

Section Scripted.
Context (O : ObjectModel).
Variables (interrupt_at nan_at : option Z).

Definition resample (d : @Data payloads) (m : @model O payloads)
    (opts : resample_options) : Eff Z (@model O payloads) :=
  fun calls =>
    if bool_decide (interrupt_at = Some calls)
    then (Raise KeyboardInterrupt, calls + 1)
    else
      (Ret {| states := states m; params := params m;
              hypparams := hypparams m;
              extra := ((extra m).1 + 1, bool_decide (nan_at = Some calls)) |},
       calls + 1).

Definition fresh (d : @Data payloads) (pr : @Params payloads)
    (hp : @hypparams_t O) (verbose : bool) : Eff Z (@model O payloads) :=
  fun calls =>
    (Ret {| states := Some {| x := []; z := []; v := []; h := [] |};
            params := Some pr; hypparams := Some hp; extra := (0, false) |},
     calls).

Definition collaborators : @Collaborators O payloads :=
  {| World := Z;
     default_backend := "cpu";
     timestamp := fun _ => "2026_01_01-00_00_00";
     resample_model := resample;
     check_for_nans := fun m => ((extra m).2, if (extra m).2 then ["x"] else []);
     device_put_as_scalar := fun m => m;
     init_model := fresh;
     plot_progress := fun _ _ _ _ _ _ => mret tt |}.

End Scripted.

End Script.

(** ** Inputs of the examples *)

Module Examples.
Import Scalars.

#[local] Existing Instance Scalars.objects.
#[local] Existing Instance Script.payloads.

(** Hyperparameters in two groups: three scalars and a list. *)
Definition hp_two_groups : hypparams_t :=
  [("trans_hypparams", [("kappa", VFloat ten); ("num_states", VInt 100)]);
   ("ar_hypparams", [("nlags", VInt 3); ("S_0", VList [1; 1])])].

(** Hyperparameters that hold the scalar [kappa] in two groups. *)
Definition hp_kappa_twice : hypparams_t :=
  [("trans_hypparams", [("kappa", VFloat ten)]);
   ("obs_hypparams", [("kappa", VFloat five)])].

Definition model_with (hp : option hypparams_t) : model :=
  {| states := None; params := Some tt; hypparams := hp;
     extra := (0, false) |}.

(** One recording with bounds [(10, 50)]: rows of 65 latent states,
    centroids and headings, and of 60 labels, so that [nlags = 5]. *)
Definition states_65_60 : states_t :=
  {| x := [seqZ 0 65]; z := [seqZ 100 60]; v := [seqZ 200 65];
     h := [seqZ 300 65] |}.

Definition model_65_60 : model :=
  {| states := Some states_65_60; params := Some tt; hypparams := Some [];
     extra := (0, false) |}.

Definition one_recording : metadata_t := (["rec"], [(10, 50)]).

(** The collaborators of a scripted run, and a host with no file. *)
Definition script (interrupt_at nan_at : option Z) : Collaborators :=
  Script.collaborators Scalars.objects interrupt_at nan_at.

Definition empty_host (interrupt_at nan_at : option Z)
  : @host _ _ (script interrupt_at nan_at) :=
  @Build_host _ _ (script interrupt_at nan_at) 0 ∅ [] [].

(** [fit_model(model, data, metadata, 'proj', 'run', num_iters=20,
    start_iter=0, save_every_n_iters=5)] *)
Definition fit_20_by_5 : fit_args :=
  {| fit_model_arg := model_with (Some hp_two_groups); fit_data := tt;
     fit_metadata := one_recording; project_dir := Some "proj";
     name := Some "run"; num_iters := 20; start_iter := 0;
     fit_verbose := false; fit_ar_only := false; save_every_n_iters := 5;
     generate_progress_plots := true;
     fit_parallel_message_passing := PmpNone |}.

(** The model after [n] resampling steps of a scripted run. *)
Definition resampled (n : Z) : model :=
  {| states := None; params := Some tt; hypparams := Some hp_two_groups;
     extra := (n, false) |}.

(** [apply_model(model, data, metadata, num_iters=5, save_results=False)] *)
Definition apply_5 : apply_args :=
  {| apply_model_arg := model_with (Some hp_two_groups); apply_data := tt;
     apply_metadata := ([], []); apply_project_dir := None;
     apply_name := None; apply_num_iters := 5; apply_ar_only := false;
     apply_save_results := false; apply_verbose := false;
     results_path := None; apply_parallel_message_passing := PmpNone |}.

End Examples.

(** ** A scripted run with faults

    Collaborators whose resampling call fails at a given call, with an
    exception that is not the interruption of the user, and whose plot
    fails at a given iteration. *)

Module Faulty.

Section Scripted.
Context (O : ObjectModel).
Variables (fault_at plot_fails_at : option Z).

Definition resample (d : @Data Script.payloads) (m : @model O Script.payloads)
    (opts : resample_options) : Eff Z (@model O Script.payloads) :=
  fun calls =>
    if bool_decide (fault_at = Some calls)
    then (Raise (Fault "XlaRuntimeError"), calls + 1)
    else
      (Ret {| states := states m; params := params m;
              hypparams := hypparams m;
              extra := ((extra m).1 + 1, false) |},
       calls + 1).

Definition plot (m : @model O Script.payloads) (d : @Data Script.payloads)
    (checkpoint_path : string) (iteration : Z) (dir : option string)
    (nm : string) : Eff Z unit :=
  fun calls =>
    if bool_decide (plot_fails_at = Some iteration)
    then (Raise (Fault "OSError"), calls)
    else (Ret tt, calls).

Definition collaborators : @Collaborators O Script.payloads :=
  {| World := Z;
     default_backend := "cpu";
     timestamp := fun _ => "2026_01_01-00_00_00";
     resample_model := resample;
     check_for_nans := fun m => ((extra m).2, if (extra m).2 then ["x"] else []);
     device_put_as_scalar := fun m => m;
     init_model := Script.fresh O;
     plot_progress := plot |}.

End Scripted.

End Faulty.

(** ** Further inputs *)

Module Cases.
Import Scalars Examples.

#[local] Existing Instance Scalars.objects.
#[local] Existing Instance Script.payloads.

(** The group that holds each key of [hp_two_groups], and the values
    that [kappa=5, nlags=5.0] leave in them. *)
Definition home_of (k : string) : string :=
  if String.eqb k "kappa" then "trans_hypparams" else "ar_hypparams".

Definition cast_of (k : string) : pyval :=
  if String.eqb k "kappa" then VFloat five else VInt 5.

Definition faulty (fault_at plot_fails_at : option Z) : Collaborators :=
  Faulty.collaborators Scalars.objects fault_at plot_fails_at.

Definition faulty_host (fault_at plot_fails_at : option Z)
  : @host _ _ (faulty fault_at plot_fails_at) :=
  @Build_host _ _ (faulty fault_at plot_fails_at) 0 ∅ [] [].

(** [fit_model(..., num_iters=20, save_every_n_iters=0)] *)
Definition fit_20_unsaved : fit_args :=
  {| fit_model_arg := model_with (Some hp_two_groups); fit_data := tt;
     fit_metadata := one_recording; project_dir := Some "proj";
     name := Some "run"; num_iters := 20; start_iter := 0;
     fit_verbose := false; fit_ar_only := false; save_every_n_iters := 0;
     generate_progress_plots := true;
     fit_parallel_message_passing := PmpNone |}.

(** [fit_model(model, data, metadata, name='run', num_iters=20,
    save_every_n_iters=5)], with no project directory. *)
Definition fit_20_no_project : fit_args :=
  {| fit_model_arg := model_with (Some hp_two_groups); fit_data := tt;
     fit_metadata := one_recording; project_dir := None;
     name := Some "run"; num_iters := 20; start_iter := 0;
     fit_verbose := false; fit_ar_only := false; save_every_n_iters := 5;
     generate_progress_plots := true;
     fit_parallel_message_passing := PmpNone |}.

(** A fit that is continued from iteration 10, and a host whose
    checkpoint file holds the snapshots of the iterations 0, 5 and 10. *)
Definition fit_from_10 : fit_args :=
  {| fit_model_arg := resampled 10; fit_data := tt;
     fit_metadata := one_recording; project_dir := Some "proj";
     name := Some "run"; num_iters := 20; start_iter := 10;
     fit_verbose := false; fit_ar_only := false; save_every_n_iters := 5;
     generate_progress_plots := false;
     fit_parallel_message_passing := PmpNone |}.

Definition checkpoint_to_10 : h5file :=
  {| model_snapshots :=
       <["0" := resampled 0]> (<["5" := resampled 5]>
         (<["10" := resampled 10]> ∅));
     metadata := Some one_recording; data := Some tt; recordings := ∅ |}.

Definition host_after_10 : @host _ _ (script None None) :=
  @Build_host _ _ (script None None) 10
    (<["proj/run/checkpoint.h5" := checkpoint_to_10]> ∅) [] [].

(** [apply_model(model, data, metadata, save_results=True)], with no
    destination. *)
Definition apply_5_nowhere : apply_args :=
  {| apply_model_arg := model_with (Some hp_two_groups); apply_data := tt;
     apply_metadata := ([], []); apply_project_dir := Some "proj";
     apply_name := None; apply_num_iters := 5; apply_ar_only := false;
     apply_save_results := true; apply_verbose := false;
     results_path := None; apply_parallel_message_passing := PmpNone |}.

(** [apply_model] on a model dictionary without ['hypparams']. *)
Definition apply_5_bare : apply_args :=
  {| apply_model_arg := model_with None; apply_data := tt;
     apply_metadata := ([], []); apply_project_dir := None;
     apply_name := None; apply_num_iters := 5; apply_ar_only := false;
     apply_save_results := false; apply_verbose := false;
     results_path := None; apply_parallel_message_passing := PmpNone |}.

(** The recording of [one_recording], empty. *)
Definition empty_recording : metadata_t := (["rec"], [(0, 0)]).

End Cases.

(** ** A scripted inference

    Collaborators whose states change: [init_model] gives the rows of
    [states_65_60], and every resampling adds one to each latent state
    and to each label. The script says at which call the user interrupts
    and at which call the resampled state diverges. *)

Module Evolving.
Import Scalars Examples.

#[local] Existing Instance Scalars.objects.
#[local] Existing Instance Script.payloads.

Definition advance (st : states_t) : states_t :=
  {| x := map (map Z.succ) (x st); z := map (map Z.succ) (z st);
     v := v st; h := h st |}.

Section Scripted.
Variables (interrupt_at nan_at : option Z).

Definition resample (d : Data) (m : model) (opts : resample_options)
  : Eff Z model :=
  fun calls =>
    if bool_decide (interrupt_at = Some calls)
    then (Raise KeyboardInterrupt, calls + 1)
    else
      (Ret {| states := advance <$> states m; params := params m;
              hypparams := hypparams m;
              extra := ((extra m).1 + 1, bool_decide (nan_at = Some calls)) |},
       calls + 1).

Definition fresh (d : Data) (pr : Params) (hp : hypparams_t) (verbose : bool)
  : Eff Z model :=
  fun calls =>
    (Ret {| states := Some states_65_60; params := Some pr;
            hypparams := Some hp; extra := (0, false) |},
     calls).

Definition collaborators : Collaborators :=
  {| World := Z;
     default_backend := "cpu";
     timestamp := fun _ => "2026_01_01-00_00_00";
     resample_model := resample;
     check_for_nans := fun m => ((extra m).2, if (extra m).2 then ["x"] else []);
     device_put_as_scalar := fun m => m;
     init_model := fresh;
     plot_progress := fun _ _ _ _ _ _ => mret tt |}.

Definition start : @host _ _ collaborators :=
  @Build_host _ _ collaborators 0 ∅ [] [].

End Scripted.

(** [apply_model(model, data, metadata, num_iters=5, save_results=False)]
    for the recording of [one_recording]. *)
Definition apply_5_recording : apply_args :=
  {| apply_model_arg := model_with (Some hp_two_groups); apply_data := tt;
     apply_metadata := one_recording; apply_project_dir := None;
     apply_name := None; apply_num_iters := 5; apply_ar_only := false;
     apply_save_results := false; apply_verbose := false;
     results_path := None; apply_parallel_message_passing := PmpNone |}.

(** The results for the recording after [n] resampling steps. *)
Definition results_after (n : Z) : dict results_record :=
  [("rec", {| syllable := replicate 5 (115 + n) ++ seqZ (115 + n) 40;
              latent_state := seqZ (10 + n) 40;
              centroid := seqZ 210 40; heading := seqZ 310 40 |})].

End Evolving.

(** * Properties *)

(** ** Dictionaries and lists *)

Section DictFacts.
Context {V : Type}.
Implicit Types (d : dict V) (k : string).

Lemma dict_get_set_eq k (x : V) d : dict_get k (dict_set k x d) = Some x.
Proof.
  induction d as [|[k' x'] d IH]; simpl.
  - by rewrite String.eqb_refl.
  - destruct (String.eqb_spec k k') as [->|Hne]; simpl.
    + by rewrite String.eqb_refl.
    + destruct (String.eqb_spec k k'); [done|apply IH].
Qed.

Lemma dict_get_set_ne k k' (x : V) d :
  k ≠ k' -> dict_get k' (dict_set k x d) = dict_get k' d.
Proof.
  intros Hne. induction d as [|[k0 x0] d IH]; simpl.
  - destruct (String.eqb_spec k' k); [congruence|done].
  - destruct (String.eqb_spec k k0) as [->|Hk]; simpl.
    + destruct (String.eqb_spec k' k0); [congruence|done].
    + destruct (String.eqb_spec k' k0); [done|apply IH].
Qed.

Lemma dict_get_Some_keys k d x : dict_get k d = Some x -> k ∈ dict_keys d.
Proof.
  induction d as [|[k' x'] d IH]; simpl; [done|].
  destruct (String.eqb_spec k k') as [->|Hne]; intros Hx.
  - apply list_elem_of_here.
  - apply list_elem_of_further, IH, Hx.
Qed.

Lemma dict_get_None_keys k d : dict_get k d = None <-> k ∉ dict_keys d.
Proof.
  induction d as [|[k' x'] d IH]; simpl.
  - split; [intros _; apply not_elem_of_nil|done].
  - destruct (String.eqb_spec k k') as [->|Hne].
    + split; [done|]. intros Hn. exfalso. apply Hn, list_elem_of_here.
    + rewrite IH, not_elem_of_cons. tauto.
Qed.

End DictFacts.

Lemma list_remove_None x l : list_remove x l = None <-> x ∉ l.
Proof.
  induction l as [|y l IH]; simpl.
  - split; [intros _; apply not_elem_of_nil|done].
  - destruct (String.eqb_spec x y) as [->|Hne].
    + split; [done|]. intros Hn. exfalso. apply Hn, list_elem_of_here.
    + rewrite not_elem_of_cons. destruct (list_remove x l); split;
        [done| |tauto|done].
      intros [_ Hn]. apply IH in Hn. done.
Qed.

Lemma list_remove_elem x l l' y :
  list_remove x l = Some l' -> y ∈ l' -> y ∈ l.
Proof.
  revert l'. induction l as [|z l IH]; simpl; intros l'; [done|].
  destruct (String.eqb_spec x z) as [->|Hne].
  - intros [= <-] Hy. by apply list_elem_of_further.
  - destruct (list_remove x l) as [r|]; [|done].
    intros [= <-] Hy. apply elem_of_cons in Hy as [->|Hy].
    + apply list_elem_of_here.
    + apply list_elem_of_further. by apply (IH r).
Qed.

Lemma list_remove_NoDup x l l' :
  NoDup l -> list_remove x l = Some l' -> NoDup l' ∧ x ∉ l'.
Proof.
  revert l'. induction l as [|z l IH]; simpl; intros l' Hnd; [done|].
  apply NoDup_cons in Hnd as [Hz Hnd].
  destruct (String.eqb_spec x z) as [->|Hne].
  - intros [= <-]. done.
  - destruct (list_remove x l) as [r|] eqn:Hr; [|done].
    intros [= <-]. destruct (IH r Hnd eq_refl) as [Hr1 Hr2]. split.
    + apply NoDup_cons. split; [|done].
      intros Hin. apply Hz. by apply (list_remove_elem x l r).
    + rewrite not_elem_of_cons. done.
Qed.

(** ** [update_hypparams] *)

Section HypparamsFacts.
Context `{ObjectModel} `{Payloads}.
Implicit Types (s : ustate) (kwargs : dict PyObj) (hp : hypparams_t).

Lemma eff_bind_unfold {S A B} (m : Eff S A) (f : A -> Eff S B) (s : S) :
  (m ≫= f) s =
  match m s with
  | (Ret a, s') => f a s'
  | (Raise e, s') => (Raise e, s')
  end.
Proof. reflexivity. Qed.

(** One pass of the inner loop body, case by case. *)
Lemma update_in_group_unfold group k val s hp g :
  hypparams (model_dict s) = Some hp ->
  dict_get group hp = Some g ->
  update_in_group group (k, val) s =
  match dict_get k g with
  | None => (Ret tt, s)
  | Some old =>
      if np_isscalar old then
        let out := emitted s ++ cast_advisory k val old in
        match construct (type_of old) val with
        | Raise e =>
            (Raise e, {| model_dict := model_dict s;
                         not_updated := not_updated s; emitted := out |})
        | Ret new =>
            let md := set_hypparams (dict_set group (dict_set k new g) hp)
                                    (model_dict s) in
            match list_remove k (not_updated s) with
            | None =>
                (Raise ValueError,
                 {| model_dict := md; not_updated := not_updated s;
                    emitted := out |})
            | Some l =>
                (Ret tt, {| model_dict := md; not_updated := l;
                            emitted := out |})
            end
        end
      else
        (Ret tt, {| model_dict := model_dict s; not_updated := not_updated s;
                    emitted := emitted s ++ [Print (NotAScalar k)] |})
  end.
Proof.
  intros Hhp Hg. destruct s as [md nu out]. simpl in *.
  unfold update_in_group, load_group, store_hypparam, remove_not_updated,
    emit, modify, cast_advisory, mbind, eff_bind, mret, eff_ret. simpl.
  rewrite Hhp, Hg. simpl.
  destruct (dict_get k g) as [old|]; [|done].
  destruct (np_isscalar old); simpl; [|done].
  destruct (isinstance val (type_of old)); simpl; rewrite ?app_nil_r;
    (destruct (construct (type_of old) val) as [new|e]; simpl; [|done]);
    rewrite ?Hhp; simpl; rewrite ?Hg; simpl;
    destruct (list_remove k nu); done.
Qed.

Lemma for_each_fixed {S A} (xs : list A) (body : A -> Eff S unit) (s : S) :
  (forall a, a ∈ xs -> body a s = (Ret tt, s)) ->
  for_each xs body s = (Ret tt, s).
Proof.
  induction xs as [|a xs IH]; intros Hfix; simpl; [done|].
  rewrite eff_bind_unfold, Hfix by apply list_elem_of_here.
  apply IH. intros b Hb. apply Hfix. by apply list_elem_of_further.
Qed.

Lemma for_each_app {S A} (xs ys : list A) (body : A -> Eff S unit) (s : S) :
  for_each (xs ++ ys) body s =
  match for_each xs body s with
  | (Ret _, s') => for_each ys body s'
  | (Raise e, s') => (Raise e, s')
  end.
Proof.
  revert s. induction xs as [|a xs IH]; intros s; simpl; [done|].
  rewrite !eff_bind_unfold. destruct (body a s) as [[[]|e] s']; [|done].
  apply IH.
Qed.

Lemma dict_keys_get {V} (k : string) (d : dict V) :
  k ∈ dict_keys d -> exists a, dict_get k d = Some a.
Proof.
  intros Hin. destruct (dict_get k d) as [a|] eqn:Hget; [by exists a|].
  by apply dict_get_None_keys in Hget.
Qed.

(** A group that holds none of the requested keys is passed over. *)
Lemma pass_over_group group kwargs s hp g :
  hypparams (model_dict s) = Some hp ->
  dict_get group hp = Some g ->
  (forall k, k ∈ dict_keys kwargs -> dict_get k g = None) ->
  for_each kwargs (update_in_group group) s = (Ret tt, s).
Proof.
  intros Hhp Hg Hnone. apply for_each_fixed. intros [k val] Hin.
  rewrite (update_in_group_unfold _ _ _ _ hp g) by done.
  rewrite Hnone; [done|].
  apply list_elem_of_fmap. exists (k, val). done.
Qed.

(** C9. Without a ['hypparams'] entry in the model dictionary the call
    fails at once, on the assertion of line 369: nothing is updated and
    nothing is emitted. *)
Theorem update_hypparams_missing_container (md : model) kwargs :
  hypparams md = None ->
  update_hypparams md kwargs = (Raise AssertionError, md, []).
Proof.
  intros Hnone. unfold update_hypparams, update_hypparams_body.
  rewrite eff_bind_unfold. simpl. by rewrite Hnone.
Qed.

(** C8. When no requested key occurs in any group, and there is at least
    one requested key, the call returns the model dictionary as it was and
    emits exactly one advisory, which lists the requested keys. *)
Theorem update_hypparams_unmatched (md : model) hp kwargs :
  hypparams md = Some hp ->
  kwargs ≠ [] ->
  (forall group g k,
     dict_get group hp = Some g -> k ∈ dict_keys kwargs ->
     dict_get k g = None) ->
  update_hypparams md kwargs
  = (Ret md, md, [Warn (NotFound (dict_keys kwargs))]).
Proof.
  intros Hhp Hne Hnone. unfold update_hypparams, update_hypparams_body.
  rewrite eff_bind_unfold. simpl. rewrite Hhp.
  rewrite !eff_bind_unfold. simpl.
  set (s1 := {| model_dict := md; not_updated := dict_keys kwargs;
                emitted := [] |}).
  assert (update_groups (dict_keys hp) kwargs s1 = (Ret tt, s1)) as Hloop.
  { apply for_each_fixed. intros group Hgroup.
    destruct (dict_keys_get _ _ Hgroup) as [g Hg].
    apply (pass_over_group _ _ _ hp g); [done|done|].
    intros k Hk. by apply (Hnone group). }
  rewrite eff_bind_unfold, Hloop. rewrite !eff_bind_unfold. simpl.
  destruct kwargs as [|[k0 v0] rest]; [done|]. reflexivity.
Qed.

(** C7. When [k] is a scalar entry of exactly one group and the call of
    the old value's type on the new value returns, the entry is
    overwritten with the value so built, and the one possible advisory is
    that of the cast. It is emitted exactly when the new value is not an
    instance of the old value's type, and then the two types differ. *)
Theorem update_hypparams_casts (md : model) hp group g k old val new :
  hypparams md = Some hp ->
  NoDup (dict_keys hp) ->
  dict_get group hp = Some g ->
  dict_get k g = Some old ->
  np_isscalar old = true ->
  construct (type_of old) val = Ret new ->
  (forall group' g',
     group' ≠ group -> dict_get group' hp = Some g' -> dict_get k g' = None) ->
  let md' := set_hypparams (dict_set group (dict_set k new g) hp) md in
  update_hypparams md [(k, val)] = (Ret md', md', cast_advisory k val old)
  ∧ hypparam_at group k md' = Some new
  ∧ (cast_advisory k val old ≠ [] <-> isinstance val (type_of old) = false)
  ∧ (cast_advisory k val old ≠ [] -> type_of val ≠ type_of old).
Proof.
  intros Hhp Hnd Hg Hk Hscalar Hnew Hothers md'.
  split; [|split; [|split]].
  - pose proof (dict_get_Some_keys _ _ _ Hg) as Hin.
    apply list_elem_of_split in Hin as (l1 & l2 & Hsplit).
    assert ((group ∉ l1) ∧ (group ∉ l2)) as [Hl1 Hl2].
    { rewrite Hsplit in Hnd. apply NoDup_app in Hnd as (_ & Hdisj & Hnd2).
      apply NoDup_cons in Hnd2 as [Hl2 _]. split; [|done].
      intros Hin. apply (Hdisj _ Hin), list_elem_of_here. }
    unfold update_hypparams, update_hypparams_body.
    rewrite eff_bind_unfold. simpl. rewrite Hhp.
    rewrite eff_bind_unfold. simpl.
    set (s1 := {| model_dict := md; not_updated := [k]; emitted := [] |}).
    set (s2 := {| model_dict := md'; not_updated := [];
                  emitted := cast_advisory k val old |}).
    assert (forall l s hp0,
              hypparams (model_dict s) = Some hp0 ->
              (forall G, G ≠ group -> dict_get G hp0 = dict_get G hp) ->
              group ∉ l -> l ⊆ dict_keys hp ->
              update_groups l [(k, val)] s = (Ret tt, s)) as Hpass.
    { intros l s hp0 Hhp0 Hsame Hnot Hsub. apply for_each_fixed.
      intros G HG. assert (G ≠ group) as Hne by (intros ->; done).
      destruct (dict_keys_get G hp (Hsub _ HG)) as [g' Hg'].
      apply (pass_over_group _ _ _ hp0 g'); [done|by rewrite Hsame|].
      intros k' Hk'. apply list_elem_of_singleton in Hk' as ->.
      by apply (Hothers G). }
    assert (update_groups (dict_keys hp) [(k, val)] s1 = (Ret tt, s2)) as Hrun.
    { unfold update_groups. rewrite Hsplit, for_each_app.
      fold (update_groups l1 [(k, val)]).
      rewrite (Hpass l1 s1 hp); [|done|done|done|].
      2:{ rewrite Hsplit. intros G HG. apply elem_of_app. by left. }
      simpl. rewrite !eff_bind_unfold.
      rewrite (update_in_group_unfold _ _ _ _ hp g) by done.
      rewrite Hk, Hscalar, Hnew. simpl. rewrite String.eqb_refl.
      fold s2. fold (update_groups l2 [(k, val)]).
      apply (Hpass l2 s2 (dict_set group (dict_set k new g) hp)); [done| |done|].
      - intros G HG. by apply dict_get_set_ne.
      - rewrite Hsplit. intros G HG. apply elem_of_app. right.
        by apply list_elem_of_further. }
    rewrite eff_bind_unfold, Hrun. reflexivity.
  - unfold md', hypparam_at. simpl. rewrite dict_get_set_eq. simpl.
    apply dict_get_set_eq.
  - unfold cast_advisory. destruct (isinstance val (type_of old)); split; done.
  - unfold cast_advisory.
    destruct (isinstance val (type_of old)) eqn:Hinst; [done|].
    intros _ Heq. rewrite <- Heq, isinstance_type_of in Hinst. done.
Qed.

(** What one pass of the inner loop body leaves alone: every other entry
    of the hyperparameters, and the list [not_updated] but for removals. *)
Lemma update_in_group_frame group k val s r s' :
  update_in_group group (k, val) s = (r, s') ->
  (forall G K, G ≠ group ∨ K ≠ k ->
     hypparam_at G K (model_dict s') = hypparam_at G K (model_dict s))
  ∧ (forall y, y ∈ not_updated s' -> y ∈ not_updated s)
  ∧ (NoDup (not_updated s) -> NoDup (not_updated s')).
Proof.
  destruct (hypparams (model_dict s)) as [hp|] eqn:Hhp;
    [destruct (dict_get group hp) as [g|] eqn:Hg|].
  - rewrite (update_in_group_unfold _ _ _ _ hp g) by done.
    destruct (dict_get k g) as [old|] eqn:Hk; [|by intros [= <- <-]].
    destruct (np_isscalar old); [|by intros [= <- <-]].
    destruct (construct (type_of old) val) as [new|e]; simpl;
      [|by intros [= <- <-]].
    assert (forall G K, G ≠ group ∨ K ≠ k ->
              hypparam_at G K
                (set_hypparams (dict_set group (dict_set k new g) hp)
                               (model_dict s))
              = hypparam_at G K (model_dict s)) as Hframe.
    { intros G K Hne. unfold hypparam_at. simpl. rewrite Hhp. simpl.
      destruct (decide (G = group)) as [->|HG].
      - rewrite dict_get_set_eq, Hg. simpl. apply dict_get_set_ne.
        destruct Hne; [done|congruence].
      - rewrite dict_get_set_ne by congruence. done. }
    destruct (list_remove k (not_updated s)) as [l|] eqn:Hrm;
      intros [= <- <-]; simpl; (split; [exact Hframe|split]).
    + intros y. by apply list_remove_elem with (x := k).
    + intros Hnd. by apply (list_remove_NoDup k _ l) in Hnd as [? _].
    + done.
    + done.
  - unfold update_in_group, load_group, mbind, eff_bind. rewrite Hhp, Hg.
    by intros [= <- <-].
  - unfold update_in_group, load_group, mbind, eff_bind. rewrite Hhp.
    by intros [= <- <-].
Qed.

(** At a scalar entry, the pass returns only by removing the key from
    [not_updated], where it then no longer is. *)
Lemma update_in_group_at_scalar group k val s r s' old :
  update_in_group group (k, val) s = (r, s') ->
  hypparam_at group k (model_dict s) = Some old ->
  np_isscalar old = true ->
  (k ∉ not_updated s -> exists e, r = Raise e)
  ∧ (r = Ret tt -> NoDup (not_updated s) -> k ∉ not_updated s').
Proof.
  unfold hypparam_at. intros Hrun Hat Hscalar.
  destruct (hypparams (model_dict s)) as [hp|] eqn:Hhp; [|done].
  simpl in Hat. destruct (dict_get group hp) as [g|] eqn:Hg; [|done].
  simpl in Hat.
  rewrite (update_in_group_unfold _ _ _ _ hp g) in Hrun by done.
  rewrite Hat, Hscalar in Hrun.
  destruct (construct (type_of old) val) as [new|e]; simpl in Hrun.
  - destruct (list_remove k (not_updated s)) as [l|] eqn:Hrm;
      injection Hrun as <- <-; simpl.
    + split.
      * intros Hnot. apply list_remove_None in Hnot. congruence.
      * intros _ Hnd. by apply (list_remove_NoDup k _ l) in Hnd as [_ ?].
    + split; [by eexists|done].
  - injection Hrun as <- <-. split; [by eexists|done].
Qed.

(** The inner loop over all of [kwargs], in one group. *)
Lemma inner_frame group kwargs s r s' :
  for_each kwargs (update_in_group group) s = (r, s') ->
  (forall G K, G ≠ group ->
     hypparam_at G K (model_dict s') = hypparam_at G K (model_dict s))
  ∧ (forall y, y ∈ not_updated s' -> y ∈ not_updated s)
  ∧ (NoDup (not_updated s) -> NoDup (not_updated s')).
Proof.
  revert s. induction kwargs as [|[k val] kwargs IH]; intros s; simpl.
  - by intros [= <- <-].
  - rewrite eff_bind_unfold.
    destruct (update_in_group group (k, val) s) as [[[]|e] s1] eqn:Hstep;
      apply update_in_group_frame in Hstep as (Hf & Hsub & Hnd).
    + intros Hrest. apply IH in Hrest as (Hf' & Hsub' & Hnd').
      split; [|split].
      * intros G K HG. rewrite Hf' by done. apply Hf. by left.
      * intros y Hy. by apply Hsub, Hsub'.
      * intros Hs. by apply Hnd', Hnd.
    + intros [= <- <-]. split; [|done]. intros G K HG. apply Hf. by left.
Qed.

Lemma inner_raises group kwargs s K old :
  K ∈ dict_keys kwargs ->
  NoDup (dict_keys kwargs) ->
  hypparam_at group K (model_dict s) = Some old ->
  np_isscalar old = true ->
  K ∉ not_updated s ->
  exists e s', for_each kwargs (update_in_group group) s = (Raise e, s').
Proof.
  revert s. induction kwargs as [|[k val] kwargs IH]; intros s; simpl.
  - intros Hin. by apply elem_of_nil in Hin.
  - intros Hin Hnd Hat Hscalar Hnot. apply NoDup_cons in Hnd as [Hk Hnd].
    rewrite eff_bind_unfold.
    destruct (update_in_group group (k, val) s) as [r s1] eqn:Hstep.
    destruct (decide (K = k)) as [->|Hne].
    + destruct (update_in_group_at_scalar _ _ _ _ _ _ old Hstep)
        as [Hraise _]; [done|done|].
      destruct (Hraise Hnot) as [e ->]. by exists e, s1.
    + destruct r as [[]|e]; [|by exists e, s1].
      apply update_in_group_frame in Hstep as (Hf & Hsub & _).
      apply IH; [|done| |done|].
      * apply elem_of_cons in Hin as [?|?]; done.
      * rewrite Hf; [done|by right].
      * intros Hin'. by apply Hnot, Hsub.
Qed.

Lemma inner_removes group kwargs s s' K old :
  for_each kwargs (update_in_group group) s = (Ret tt, s') ->
  K ∈ dict_keys kwargs ->
  NoDup (dict_keys kwargs) ->
  NoDup (not_updated s) ->
  hypparam_at group K (model_dict s) = Some old ->
  np_isscalar old = true ->
  K ∉ not_updated s'.
Proof.
  revert s. induction kwargs as [|[k val] kwargs IH]; intros s; simpl.
  - intros _ Hin. by apply elem_of_nil in Hin.
  - rewrite eff_bind_unfold. intros Hrun Hin Hnd Hnu Hat Hscalar.
    apply NoDup_cons in Hnd as [Hk Hnd].
    destruct (update_in_group group (k, val) s) as [[[]|e] s1] eqn:Hstep;
      [|done].
    destruct (decide (K = k)) as [->|Hne].
    + destruct (update_in_group_at_scalar _ _ _ _ _ _ old Hstep)
        as [_ Hgone]; [done|done|].
      apply inner_frame in Hrun as (_ & Hsub & _).
      intros Hin'. apply (Hgone eq_refl Hnu). by apply Hsub.
    + apply update_in_group_frame in Hstep as (Hf & _ & Hnd1).
      apply (IH s1); [done| |done|by apply Hnd1| |done].
      * apply elem_of_cons in Hin as [?|?]; done.
      * rewrite Hf; [done|by right].
Qed.

(** The outer loop: once [K] has left [not_updated], a later group that
    holds [K] as a scalar makes the call raise. *)
Lemma outer_raises groups kwargs s G K old :
  G ∈ groups ->
  K ∈ dict_keys kwargs ->
  NoDup (dict_keys kwargs) ->
  hypparam_at G K (model_dict s) = Some old ->
  np_isscalar old = true ->
  K ∉ not_updated s ->
  exists e s', update_groups groups kwargs s = (Raise e, s').
Proof.
  unfold update_groups. revert s.
  induction groups as [|g groups IH]; intros s HG HK Hnd Hat Hscalar Hnot.
  - by apply elem_of_nil in HG.
  - simpl. rewrite eff_bind_unfold.
    destruct (decide (G = g)) as [->|Hne].
    + destruct (inner_raises g kwargs s K old) as (e & s1 & ->); try done.
      by exists e, s1.
    + destruct (for_each kwargs (update_in_group g) s) as [[[]|e] s1] eqn:Hin;
        [|by exists e, s1].
      apply inner_frame in Hin as (Hf & Hsub & _).
      apply IH; [|done|done| |done|].
      * apply elem_of_cons in HG as [?|?]; done.
      * by rewrite Hf.
      * intros Hin'. by apply Hnot, Hsub.
Qed.

Lemma outer_raises_twice groups kwargs s G1 G2 K old1 old2 :
  G1 ≠ G2 -> G1 ∈ groups -> G2 ∈ groups ->
  K ∈ dict_keys kwargs ->
  NoDup (dict_keys kwargs) ->
  NoDup (not_updated s) ->
  hypparam_at G1 K (model_dict s) = Some old1 -> np_isscalar old1 = true ->
  hypparam_at G2 K (model_dict s) = Some old2 -> np_isscalar old2 = true ->
  exists e s', update_groups groups kwargs s = (Raise e, s').
Proof.
  intros Hne. revert s.
  induction groups as [|g groups IH];
    intros s HG1 HG2 HK Hnd Hnu Hat1 Hs1 Hat2 Hs2.
  - by apply elem_of_nil in HG1.
  - unfold update_groups. simpl. rewrite eff_bind_unfold.
    destruct (for_each kwargs (update_in_group g) s) as [[[]|e] s1] eqn:Hin;
      [|by exists e, s1].
    pose proof (inner_frame _ _ _ _ _ Hin) as (Hf & Hsub & Hnd1).
    fold (update_groups groups kwargs).
    destruct (decide (g = G1)) as [->|Hg1];
      [|destruct (decide (g = G2)) as [->|Hg2]].
    + apply (outer_raises groups kwargs s1 G2 K old2); try done.
      * apply elem_of_cons in HG2 as [?|?]; [congruence|done].
      * rewrite Hf; [done|congruence].
      * by apply (inner_removes G1 kwargs s s1 K old1).
    + apply (outer_raises groups kwargs s1 G1 K old1); try done.
      * apply elem_of_cons in HG1 as [?|?]; [congruence|done].
      * by rewrite Hf.
      * by apply (inner_removes G2 kwargs s s1 K old2).
    + apply IH; try done.
      * apply elem_of_cons in HG1 as [?|?]; [congruence|done].
      * apply elem_of_cons in HG2 as [?|?]; [congruence|done].
      * by apply Hnd1.
      * rewrite Hf; [done|congruence].
      * rewrite Hf; [done|congruence].
Qed.

(** C10. When a requested key is a scalar entry of two different groups,
    the call raises: it does not return. So a call that returns has
    found every requested key as a scalar in at most one group. *)
Theorem update_hypparams_two_groups (md : model) kwargs G1 G2 K old1 old2 :
  NoDup (dict_keys kwargs) ->
  K ∈ dict_keys kwargs ->
  G1 ≠ G2 ->
  hypparam_at G1 K md = Some old1 -> np_isscalar old1 = true ->
  hypparam_at G2 K md = Some old2 -> np_isscalar old2 = true ->
  exists e, (update_hypparams md kwargs).1.1 = Raise e.
Proof.
  intros Hnd HK Hne Hat1 Hs1 Hat2 Hs2.
  unfold update_hypparams, update_hypparams_body.
  rewrite eff_bind_unfold. simpl.
  destruct (hypparams md) as [hp|] eqn:Hhp; [|by eexists].
  rewrite eff_bind_unfold. simpl.
  set (s1 := {| model_dict := md; not_updated := dict_keys kwargs;
                emitted := [] |}).
  assert (forall G old, hypparam_at G K md = Some old -> G ∈ dict_keys hp)
    as Hgroups.
  { intros G old. unfold hypparam_at. rewrite Hhp. simpl.
    destruct (dict_get G hp) as [g|] eqn:Hg; [|done].
    intros _. by apply dict_get_Some_keys in Hg. }
  destruct (outer_raises_twice (dict_keys hp) kwargs s1 G1 G2 K old1 old2)
    as (e & s2 & Hrun); try done; [by eapply Hgroups..|].
  rewrite eff_bind_unfold, Hrun. by exists e.
Qed.

End HypparamsFacts.

(** ** [_set_parallel_flag] *)

Section FlagFacts.
Context `{Collaborators}.

(** C5. The resolved flag and the advisories are a function of the
    requested flag and of the backend. ['force'] gives [True] and no
    advisory on every backend; [None] gives [True] exactly off the CPU
    backend, and no advisory; [True] on the CPU backend stays [True] with
    one advisory; and whenever an advisory is emitted the request was not
    ['force'], it was truthy, it is returned as it is, and the backend is
    the CPU. *)
Theorem set_parallel_flag_resolution (backend : string) :
  _set_parallel_flag backend (PmpStr "force") = (PmpBool true, [])
  ∧ (exists b, _set_parallel_flag backend PmpNone = (PmpBool b, [])
               ∧ (b = true <-> backend ≠ "cpu"))
  ∧ _set_parallel_flag "cpu" (PmpBool true)
    = (PmpBool true, [Warn CpuBoundParallel])
  ∧ (forall p, (_set_parallel_flag backend p).2 ≠ [] ->
       pmp_is_force p = false ∧ pmp_is_none p = false
       ∧ pmp_truthy p = true ∧ backend = "cpu"
       ∧ _set_parallel_flag backend p = (p, [Warn CpuBoundParallel])).
Proof.
  split; [done|split; [|split; [done|]]].
  - exists (negb (String.eqb backend "cpu")). split; [done|].
    destruct (String.eqb_spec backend "cpu") as [->|Hne]; simpl; split;
      done.
  - intros p. unfold _set_parallel_flag.
    destruct (pmp_is_force p); [done|].
    destruct (pmp_is_none p); [done|].
    destruct (pmp_truthy p); [|done]. simpl.
    destruct (String.eqb_spec backend "cpu") as [->|Hne]; done.
Qed.

End FlagFacts.

(** ** [fit_model] *)

Section FitFacts.
Context `{Collaborators}.
Implicit Types (a : fit_args) (l : fit_locals) (s : host) (m : model).

Lemma for_break_adopted {A M} (xs ys : list A)
    (body : A -> M -> Eff host (option M)) (m m' : M) s s' :
  adopt_all xs body m s = Some (m', s') ->
  for_break (xs ++ ys) body m s = for_break ys body m' s'.
Proof.
  revert m s. induction xs as [|i xs IH]; intros m s; simpl.
  - by intros [= -> ->].
  - rewrite eff_bind_unfold.
    destruct (body i m s) as [[[m1|]|e] s1]; [|done..]. apply IH.
Qed.

Lemma adopt_all_app {A M} (xs ys : list A)
    (body : A -> M -> Eff host (option M)) (m : M) s :
  adopt_all (xs ++ ys) body m s =
  match adopt_all xs body m s with
  | Some (m', s') => adopt_all ys body m' s'
  | None => None
  end.
Proof.
  revert m s. induction xs as [|i xs IH]; intros m s; simpl; [done|].
  destruct (body i m s) as [[[m1|]|e] s1]; [|done..]. apply IH.
Qed.

Lemma range_split (lo k hi : Z) :
  lo <= k < hi -> range lo hi = range lo k ++ k :: range (k + 1) hi.
Proof.
  intros Hk. unfold range.
  replace (hi - lo) with ((k - lo) + (hi - k)) by lia.
  rewrite seqZ_app by lia. f_equal.
  replace (lo + (k - lo)) with k by lia.
  rewrite (seqZ_cons k) by lia. f_equal. f_equal; lia.
Qed.

Lemma elem_of_range (lo hi i : Z) : i ∈ range lo hi <-> lo <= i < hi.
Proof. unfold range. rewrite elem_of_seqZ. lia. Qed.

(** [_wrapped_resample], case by case on what the resampling does. *)
Lemma wrapped_resample_unfold (d : Data) m (opts : resample_options) s :
  _wrapped_resample d m opts s =
  let j := journal s ++ [CallResample d m opts] in
  match resample_model d m opts (world s) with
  | (Ret m', w) =>
      if (check_for_nans m').1
      then (Raise StopResampling,
            {| world := w; files := files s;
               stream := stream s ++ [Warn (NaNsEncountered (check_for_nans m').2)];
               journal := j |})
      else (Ret m', {| world := w; files := files s; stream := stream s;
                       journal := j |})
  | (Raise KeyboardInterrupt, w) =>
      (Raise StopResampling,
       {| world := w; files := files s;
          stream := stream s ++ [Print Interrupted]; journal := j |})
  | (Raise e, w) =>
      (Raise e, {| world := w; files := files s; stream := stream s;
                   journal := j |})
  end.
Proof.
  unfold _wrapped_resample, note, call, say, modify, raise, mbind, eff_bind.
  simpl. destruct (resample_model d m opts (world s)) as [[m'|e] w]; simpl.
  - destruct (check_for_nans m') as [[] msgs]; done.
  - destruct e; done.
Qed.

(** The checkpoint of an iteration changes the files by one write when
    it is due, and not at all otherwise; it says nothing. *)
Lemma fit_checkpoint_effect a l i m s r s' :
  fit_checkpoint a l i m s = (r, s') ->
  stream s' = stream s
  ∧ match checkpoint_path l with
    | Some cp =>
        files s' = if checkpoint_due a i
                   then save_hdf5 cp (snapshot_at (pretty i) m) (files s)
                   else files s
    | None => files s' = files s
    end
  ∧ (checkpoint_due a i = false -> r = Ret tt ∧ journal s' = journal s).
Proof.
  unfold fit_checkpoint, checkpoint_due.
  destruct ((0 <? save_every_n_iters a) && (start_iter a <? i)); simpl.
  2:{ intros [= <- <-]. by destruct (checkpoint_path l). }
  destruct ((i mod save_every_n_iters a =? 0) || (i =? num_iters a)).
  2:{ intros [= <- <-]. by destruct (checkpoint_path l). }
  destruct (checkpoint_path l) as [cp|]; [|by intros [= <- <-]].
  unfold write_file, note, modify, call, mbind, eff_bind, mret, eff_ret.
  simpl. destruct (plots l); simpl.
  - destruct (plot_progress _ _ _ _ _ _ _) as [r0 w]. by intros [= <- <-].
  - by intros [= <- <-].
Qed.

(** An iteration that adopts a new state. *)
Lemma fit_iteration_adopts a l i m s m' s' :
  fit_iteration a l i m s = (Ret (Some m'), s') ->
  match checkpoint_path l with
  | Some cp =>
      files s' = if checkpoint_due a i
                 then save_hdf5 cp (snapshot_at (pretty i) m') (files s)
                 else files s
  | None => files s' = files s
  end.
Proof.
  unfold fit_iteration, or_break. rewrite eff_bind_unfold.
  rewrite wrapped_resample_unfold. simpl.
  destruct (resample_model _ _ _ _) as [[m1|e] w]; simpl.
  - destruct (check_for_nans m1).1; simpl; [done|].
    rewrite eff_bind_unfold.
    destruct (fit_checkpoint a l i m1 _) as [[[]|e] s2] eqn:Hcp; [|done].
    intros [= <- <-]. apply fit_checkpoint_effect in Hcp as (_ & Hfiles & _).
    exact Hfiles.
  - destruct e; done.
Qed.


(** An iteration in which the user interrupts the resampling. *)
Lemma fit_iteration_interrupted a l i m s w :
  resample_model (fit_data a) m (fit_options a l) (world s)
  = (Raise KeyboardInterrupt, w) ->
  fit_iteration a l i m s
  = (Ret None,
     {| world := w; files := files s;
        stream := stream s ++ [Print Interrupted];
        journal := journal s
                   ++ [CallResample (fit_data a) m (fit_options a l)] |}).
Proof.
  intros Hres. unfold fit_iteration, or_break. rewrite eff_bind_unfold.
  rewrite wrapped_resample_unfold. simpl. by rewrite Hres.
Qed.

(** *** The snapshots of a checkpoint file *)

Lemma snapshots_at_save_snapshot cp key m (fs : gmap string h5file) :
  snapshots_at cp (save_hdf5 cp (snapshot_at key m) fs)
  = <[key := m]> (snapshots_at cp fs).
Proof.
  unfold snapshots_at, save_hdf5. rewrite lookup_insert_eq. simpl.
  by rewrite insert_union_singleton_l.
Qed.






(** *** The lines before the loop *)

Lemma say_all (out : list output) s :
  for_each out say s
  = (Ret tt, {| world := world s; files := files s;
                stream := stream s ++ out; journal := journal s |}).
Proof.
  revert s. induction out as [|o out IH]; intros s; simpl.
  - rewrite app_nil_r. by destruct s.
  - rewrite eff_bind_unfold. simpl. rewrite IH. simpl.
    by rewrite <- app_assoc.
Qed.

Lemma set_parallel_flag_effect (p : pmp_flag) s :
  set_parallel_flag p s
  = (Ret (_set_parallel_flag default_backend p).1,
     {| world := world s; files := files s;
        stream := stream s ++ (_set_parallel_flag default_backend p).2;
        journal := journal s |}).
Proof.
  unfold set_parallel_flag.
  destruct (_set_parallel_flag default_backend p) as [p' out].
  rewrite eff_bind_unfold, say_all. done.
Qed.

(** What the lines before the loop leave behind when they return: the
    name, the model on the device, and the checkpoint file, which is
    created with the initial model under [start_iter] when saving is on
    and the file does not exist. *)
Lemma fit_prepare_returns a s l s1 :
  fit_prepare a s = (Ret l, s1) ->
  world s1 = world s
  ∧ run_name l = run_name_of a s
  ∧ on_device l = device_put_as_scalar (fit_model_arg a)
  ∧ if 0 <? save_every_n_iters a
    then exists cp,
        checkpoint_path_of a s = Some cp
        ∧ checkpoint_path l = Some cp
        ∧ files s1 = match files s !! cp with
                     | Some _ => files s
                     | None =>
                         save_hdf5 cp
                           (checkpoint_dict (pretty (start_iter a))
                              (fit_model_arg a) (fit_metadata a) (fit_data a))
                           (files s)
                     end
    else checkpoint_path l = None ∧ files s1 = files s.
Proof.
  unfold fit_prepare, checkpoint_path_of, run_name_of.
  rewrite eff_bind_unfold.
  set (first := if generate_progress_plots a && (save_every_n_iters a =? 0)
                then _ else _).
  assert (exists pl out,
            first s = (Ret pl, {| world := world s; files := files s;
                                  stream := stream s ++ out;
                                  journal := journal s |})) as (pl & out & ->).
  { unfold first.
    destruct (generate_progress_plots a && (save_every_n_iters a =? 0)).
    - by exists false, [Warn NoProgressPlots].
    - exists (generate_progress_plots a), []. simpl. rewrite app_nil_r.
      by destruct s. }
  rewrite eff_bind_unfold. simpl. rewrite eff_bind_unfold.
  destruct (0 <? save_every_n_iters a) eqn:Hsave.
  - rewrite eff_bind_unfold. unfold join_project.
    destruct (project_dir a) as [d|]; simpl; [|done].
    rewrite !eff_bind_unfold. simpl. rewrite !eff_bind_unfold. simpl.
    set (cp := os_path_join _ "checkpoint.h5").
    destruct (files s !! cp) as [f|] eqn:Hfile.
    + rewrite bool_decide_true by done. simpl.
      rewrite eff_bind_unfold, set_parallel_flag_effect. simpl.
      intros [= <- <-]. simpl. split; [done|split; [done|split; [done|]]].
      exists cp. by rewrite Hfile.
    + rewrite bool_decide_false by (by intros [? ?]).
      unfold write_file, note, modify. rewrite !eff_bind_unfold. simpl.
      rewrite eff_bind_unfold, set_parallel_flag_effect. simpl.
      intros [= <- <-]. simpl. split; [done|split; [done|split; [done|]]].
      exists cp. by rewrite Hfile.
  - simpl. rewrite eff_bind_unfold, set_parallel_flag_effect. simpl.
    intros [= <- <-]. simpl. done.
Qed.

Lemma checkpoint_due_spec a i :
  checkpoint_due a i = true
  <-> 0 < save_every_n_iters a ∧ start_iter a < i
      ∧ (i mod save_every_n_iters a = 0 ∨ i = num_iters a).
Proof.
  unfold checkpoint_due.
  rewrite !andb_true_iff, orb_true_iff, !Z.ltb_lt, !Z.eqb_eq. tauto.
Qed.



(** A run that reaches iteration [k] and leaves the loop there. *)
Lemma fit_model_leaves_at a s k l s1 m s2 s' :
  fit_reaches a s k = Some (l, s1, m, s2) ->
  start_iter a <= k <= num_iters a ->
  fit_iteration a l k m s2 = (Ret None, s') ->
  fit_model a s = (Ret (m, run_name_of a s), s')
  ∧ (k = start_iter a -> m = device_put_as_scalar (fit_model_arg a)).
Proof.
  unfold fit_reaches. intros Hreach Hk Hstop.
  destruct (fit_prepare a s) as [[l0|e] s0] eqn:Hprep; [|done].
  destruct (adopt_all _ _ _ _) as [[m0 s3]|] eqn:Hloop; [|done].
  injection Hreach as -> -> -> ->.
  destruct (fit_prepare_returns _ _ _ _ Hprep) as (_ & Hname & Hdev & _).
  split.
  - unfold fit_model. rewrite eff_bind_unfold, Hprep, eff_bind_unfold.
    rewrite (range_split (start_iter a) k) by lia.
    rewrite (for_break_adopted _ _ _ _ _ _ _ Hloop). simpl.
    rewrite eff_bind_unfold, Hstop. simpl. by rewrite Hname.
  - intros ->. unfold range in Hloop. rewrite seqZ_nil in Hloop by lia.
    simpl in Hloop. congruence.
Qed.



(** C4. When every iteration before [k] adopts a state and the user
    interrupts the resampling call of iteration [k], [fit_model] returns
    the state adopted last together with the name of the run: no exception
    escapes. The files are those at the head of iteration [k], and after
    the interrupted resampling call no other call is made, so nothing is
    written for iteration [k]. *)
Theorem fit_model_interrupted a s k l s1 m_prev s_prev w :
  fit_reaches a s k = Some (l, s1, m_prev, s_prev) ->
  start_iter a <= k <= num_iters a ->
  resample_model (fit_data a) m_prev (fit_options a l) (world s_prev)
  = (Raise KeyboardInterrupt, w) ->
  fit_model a s
  = (Ret (m_prev, run_name_of a s),
     {| world := w; files := files s_prev;
        stream := stream s_prev ++ [Print Interrupted];
        journal := journal s_prev
                   ++ [CallResample (fit_data a) m_prev (fit_options a l)] |})
  ∧ (k = start_iter a -> m_prev = device_put_as_scalar (fit_model_arg a)).
Proof.
  intros Hreach Hk Hres.
  pose proof (fit_iteration_interrupted a l k _ _ _ Hres) as Hstop.
  exact (fit_model_leaves_at _ _ _ _ _ _ _ _ Hreach Hk Hstop).
Qed.

End FitFacts.

(** ** [extract_results] and [apply_model] *)

Section ResultsFacts.
Context `{Collaborators}.
Implicit Types (a : apply_args) (s : host) (m : model).

Lemma slice_length {A} (lo hi : Z) (row : list A) :
  0 <= lo <= hi -> hi <= Z.of_nat (length row) ->
  Z.of_nat (length (slice lo hi row)) = hi - lo.
Proof.
  intros Hlo Hhi. unfold slice, slice_bound.
  destruct (Z.ltb_spec lo 0); [lia|]. destruct (Z.ltb_spec hi 0); [lia|].
  rewrite length_take, length_drop. lia.
Qed.

(** The labels of one recording, as line 237 pads them: as many as the
    trimmed labels, the first [nlags] of them equal to the first label
    that is kept. *)
Lemma pad_syllables_length (nlags : Z) (zs : list Z) :
  0 <= nlags < Z.of_nat (length zs) ->
  exists padded first,
    pad_syllables nlags zs = Ret padded
    ∧ length padded = length zs
    ∧ zs !! Z.to_nat nlags = Some first
    ∧ take (Z.to_nat nlags) padded = replicate (Z.to_nat nlags) first.
Proof.
  intros Hn. unfold pad_syllables, np_pad_edge_left, slice_from, slice_bound.
  destruct (Z.ltb_spec nlags 0); [lia|].
  rewrite Z.min_l by lia.
  destruct (drop (Z.to_nat nlags) zs) as [|first rest] eqn:Hdrop.
  { apply (f_equal length) in Hdrop. rewrite length_drop in Hdrop.
    simpl in Hdrop. lia. }
  exists (replicate (Z.to_nat nlags) first ++ first :: rest), first.
  split; [done|]. split; [|split].
  - rewrite length_app, length_replicate, <- Hdrop, length_drop. lia.
  - rewrite <- (Nat.add_0_r (Z.to_nat nlags)), <- lookup_drop, Hdrop. done.
  - rewrite take_app_length'; [done|]. by rewrite length_replicate.
Qed.

(** The syllables of a recording with bounds [(start, end)] whose shifted
    bounds lie in its row of labels are [nlags] more than [end - start],
    the number of its latent states. *)
Lemma syllables_of_recording (nlags start stop : Z) (zrow : list Z) :
  0 <= start < stop -> 0 <= nlags ->
  stop + nlags <= Z.of_nat (length zrow) ->
  exists padded,
    pad_syllables nlags (slice (start + 0) (stop + nlags) zrow) = Ret padded
    ∧ Z.of_nat (length padded) = stop - start + nlags.
Proof.
  intros Hb Hn Hfit.
  destruct (pad_syllables_length nlags (slice (start + 0) (stop + nlags) zrow))
    as (padded & first & Hpad & Hlen & _).
  { rewrite slice_length by lia. lia. }
  exists padded. split; [done|]. rewrite Hlen, slice_length by lia. lia.
Qed.

(** *** The calls and the files of [apply_model] *)

Lemma inference_only_refl a s : inference_only a s s.
Proof. split; [|done]. exists []. by rewrite app_nil_r. Qed.

Lemma inference_only_trans a s1 s2 s3 :
  inference_only a s1 s2 -> inference_only a s2 s3 -> inference_only a s1 s3.
Proof.
  intros [(n1 & Hj1 & Hn1) Hf1] [(n2 & Hj2 & Hn2) Hf2]. split.
  - exists (n1 ++ n2). rewrite Hj2, Hj1, app_assoc. split; [done|].
    by apply Forall_app.
  - intros path. by rewrite Hf2, Hf1.
Qed.

Lemma apply_iteration_inference a p i m s r s' :
  apply_iteration a p i m s = (r, s') -> inference_only a s s'.
Proof.
  unfold apply_iteration, or_break. rewrite wrapped_resample_unfold. simpl.
  assert (forall w out,
            inference_only a s
              {| world := w; files := files s; stream := out;
                 journal := journal s
                   ++ [CallResample (apply_data a) m (apply_options a p)] |})
    as Hstep.
  { intros w out. split; [|done]. eexists. split; [done|].
    apply Forall_singleton. done. }
  destruct (resample_model _ _ _ _) as [[m'|e] w].
  - destruct (check_for_nans m').1; intros [= <- <-]; apply Hstep.
  - destruct e; intros [= <- <-]; apply Hstep.
Qed.

Lemma apply_loop_inference a p xs m s r s' :
  for_break xs (apply_iteration a p) m s = (r, s') -> inference_only a s s'.
Proof.
  revert m s. induction xs as [|i xs IH]; intros m s; simpl.
  - intros [= <- <-]. apply inference_only_refl.
  - rewrite eff_bind_unfold.
    destruct (apply_iteration a p i m s) as [[[m1|]|e] s1] eqn:Hstep;
      apply apply_iteration_inference in Hstep.
    + intros Hrest. apply IH in Hrest.
      by apply inference_only_trans with s1.
    + by intros [= <- <-].
    + by intros [= <- <-].
Qed.

Lemma say_all_inference a (out : list output) s :
  inference_only a s {| world := world s; files := files s;
                        stream := stream s ++ out; journal := journal s |}.
Proof. split; [|done]. exists []. simpl. by rewrite app_nil_r. Qed.

(** The lines before the loop: when they return, the model is the one
    that [init_model] makes of the data and of the parameters and
    hyperparameters of the given model. *)
Lemma apply_prepare_effect a s r s1 :
  apply_prepare a s = (r, s1) ->
  inference_only a s s1
  ∧ forall p dest m0, r = Ret (p, dest, m0) ->
      exists pr hp,
        params (apply_model_arg a) = Some pr
        ∧ hypparams (apply_model_arg a) = Some hp
        ∧ init_model (apply_data a) pr hp (apply_verbose a) (world s)
          = (Ret m0, world s1).
Proof.
  unfold apply_prepare. rewrite eff_bind_unfold, set_parallel_flag_effect.
  simpl. rewrite eff_bind_unfold.
  set (s0 := {| world := world s; files := files s;
                stream := stream s ++ _; journal := journal s |}).
  assert (inference_only a s s0) as Hs0 by apply say_all_inference.
  set (dest := if apply_save_results a then _ else _).
  assert ((exists d, dest s0 = (Ret d, s0)) ∨ (exists e, dest s0 = (Raise e, s0)))
    as [[d ->]|[e ->]].
  { unfold dest. destruct (apply_save_results a); [|left; by eexists].
    destruct (results_path a); [left; by eexists|].
    destruct (apply_project_dir a), (apply_name a);
      (left; by eexists) || (right; by eexists). }
  2:{ by intros [= <- <-]. }
  rewrite eff_bind_unfold. unfold lift_res at 1.
  destruct (params (apply_model_arg a)) as [pr|] eqn:Hpr;
    [|by intros [= <- <-]].
  rewrite eff_bind_unfold. unfold lift_res at 1.
  destruct (hypparams (apply_model_arg a)) as [hp|] eqn:Hhp;
    [|by intros [= <- <-]].
  rewrite eff_bind_unfold. unfold note, modify, call. simpl.
  rewrite eff_bind_unfold. simpl.
  assert (forall w,
            inference_only a s
              {| world := w; files := files s; stream := stream s0;
                 journal := journal s
                   ++ [CallInit (apply_data a) pr hp (apply_verbose a)] |})
    as Hinit.
  { intros w. split; [|done]. eexists. split; [done|].
    apply Forall_singleton. done. }
  destruct (init_model _ _ _ _ _) as [[m0|e] w] eqn:Hm; intros [= <- <-].
  - split; [apply Hinit|]. intros p' dest' m0' [= <- <- <-].
    by exists pr, hp.
  - split; [apply Hinit|done].
Qed.

Lemma extract_results_inference a m md dir nm save_results dest s r s' :
  extract_results m md dir nm save_results dest s = (r, s') ->
  inference_only a s s'.
Proof.
  unfold extract_results. rewrite eff_bind_unfold.
  set (path := if save_results then _ else _).
  assert ((exists d, path s = (Ret d, s)) ∨ (exists e, path s = (Raise e, s)))
    as [[d ->]|[e ->]].
  { unfold path. destruct save_results; [|left; by eexists].
    rewrite eff_bind_unfold. unfold lift_res.
    destruct (_get_path dest dir nm "results.h5"); [left|right]; by eexists. }
  2:{ intros [= <- <-]. apply inference_only_refl. }
  rewrite eff_bind_unfold. unfold lift_res at 1.
  destruct (states m) as [st|];
    [|intros [= <- <-]; apply inference_only_refl].
  rewrite eff_bind_unfold. unfold lift_res at 1.
  destruct (results_of st md) as [results|e];
    [|intros [= <- <-]; apply inference_only_refl].
  rewrite eff_bind_unfold.
  destruct save_results; [|intros [= <- <-]; apply inference_only_refl].
  destruct d as [p|]; [|intros [= <- <-]; apply inference_only_refl].
  unfold write_file, note, say, modify. rewrite !eff_bind_unfold. simpl.
  intros [= <- <-]. split; simpl.
  - eexists. split; [done|]. apply Forall_singleton. done.
  - intros path'. unfold snapshots_at, save_hdf5.
    destruct (decide (p = path')) as [->|Hne].
    + rewrite lookup_insert_eq. simpl. by rewrite (left_id_L ∅ (∪)).
    + by rewrite lookup_insert_ne.
Qed.

(** The lines before the loop, when the model dictionary has its
    parameters and hyperparameters, the destination is in order and
    [init_model] returns. *)
Lemma apply_prepare_returns a s pr hp dest m0 w0 :
  params (apply_model_arg a) = Some pr ->
  hypparams (apply_model_arg a) = Some hp ->
  apply_destination a = Ret dest ->
  init_model (apply_data a) pr hp (apply_verbose a) (world s) = (Ret m0, w0) ->
  apply_prepare a s
  = (Ret ((_set_parallel_flag default_backend
             (apply_parallel_message_passing a)).1, dest, m0),
     {| world := w0; files := files s;
        stream := stream s
                  ++ (_set_parallel_flag default_backend
                        (apply_parallel_message_passing a)).2;
        journal := journal s
                   ++ [CallInit (apply_data a) pr hp (apply_verbose a)] |}).
Proof.
  intros Hpr Hhp Hdest Hinit. unfold apply_prepare.
  rewrite eff_bind_unfold, set_parallel_flag_effect. simpl.
  rewrite eff_bind_unfold.
  set (s0 := {| world := world s; files := files s;
                stream := stream s ++ _; journal := journal s |}).
  set (dst := if apply_save_results a then _ else _).
  assert (dst s0 = (Ret dest, s0)) as ->.
  { unfold dst. unfold apply_destination in Hdest.
    destruct (apply_save_results a); [|by injection Hdest as <-].
    destruct (results_path a); [by injection Hdest as <-|].
    destruct (apply_project_dir a), (apply_name a); try done.
    by injection Hdest as <-. }
  rewrite eff_bind_unfold. unfold lift_res at 1. rewrite Hpr.
  rewrite eff_bind_unfold. unfold lift_res at 1. rewrite Hhp.
  rewrite eff_bind_unfold. unfold note, modify, call. simpl.
  rewrite eff_bind_unfold. simpl. by rewrite Hinit.
Qed.

(** The loop of [apply_model] against the reference run. *)
Lemma apply_loop_run a (p : pmp_flag) (xs : list Z) m s :
  for_break xs (apply_iteration a p) m s
  = (match run_failure (spec_inference_run (apply_data a) (apply_options a p)
                          (length xs) m (world s)) with
     | Some e => Raise e
     | None => Ret (run_state (spec_inference_run (apply_data a)
                                 (apply_options a p) (length xs) m (world s)))
     end,
     {| world := run_world (spec_inference_run (apply_data a)
                              (apply_options a p) (length xs) m (world s));
        files := files s;
        stream := stream s
                  ++ run_stream (spec_inference_run (apply_data a)
                                   (apply_options a p) (length xs) m (world s));
        journal := journal s
                   ++ run_calls (spec_inference_run (apply_data a)
                                   (apply_options a p) (length xs) m
                                   (world s)) |}).
Proof.
  revert m s. induction xs as [|i xs IH]; intros m s.
  - simpl. destruct s. simpl. by rewrite !app_nil_r.
  - cbn [for_break length spec_inference_run]. rewrite eff_bind_unfold.
    unfold apply_iteration at 1, or_break.
    rewrite wrapped_resample_unfold. cbv zeta.
    destruct (resample_model _ _ _ _) as [[m'|e] w].
    + destruct (check_for_nans m').1; [done|].
      rewrite IH. simpl. by rewrite <- !app_assoc.
    + destruct e; simpl; by rewrite ?app_nil_r.
Qed.

(** C6. Every call that [apply_model] makes is the initialisation, a
    resampling with [states_only=True], or the write of the results, and
    the snapshots of every file stay as they are. Moreover, when the
    model dictionary has its parameters and hyperparameters, the
    destination is in order and [init_model] returns the fresh state
    [m0], [apply_model] is the reference run: [init_model] is called
    once, on the data and the parameters and hyperparameters given;
    [resample_model] is called with [states_only=True] on [m0] and then
    on each state that the call before returned, as often as there are
    iterations or until one stops early; no file is written before the
    results are extracted; and what is returned, on completion and on an
    early stop, is [extract_results] of the state adopted last. An
    exception of a resampling call that does not stop the loop escapes. *)
Theorem apply_model_inference a s :
  inference_only a s (apply_model a s).2
  ∧ forall pr hp dest m0 w0,
      params (apply_model_arg a) = Some pr ->
      hypparams (apply_model_arg a) = Some hp ->
      apply_destination a = Ret dest ->
      init_model (apply_data a) pr hp (apply_verbose a) (world s)
      = (Ret m0, w0) ->
      let resolved := _set_parallel_flag default_backend
                        (apply_parallel_message_passing a) in
      let run := spec_inference_run (apply_data a)
                   {| ar_only := apply_ar_only a; states_only := Some true;
                      verbose := apply_verbose a;
                      parallel_message_passing := resolved.1 |}
                   (Z.to_nat (apply_num_iters a)) m0 w0 in
      let s2 := {| world := run_world run; files := files s;
                   stream := stream s ++ resolved.2 ++ run_stream run;
                   journal := journal s
                              ++ CallInit (apply_data a) pr hp (apply_verbose a)
                                 :: run_calls run |} in
      apply_model a s
      = match run_failure run with
        | Some e => (Raise e, s2)
        | None =>
            extract_results (run_state run) (apply_metadata a)
              (apply_project_dir a) (apply_name a) (apply_save_results a)
              dest s2
        end.
Proof.
  split.
  - unfold apply_model. rewrite eff_bind_unfold.
    destruct (apply_prepare a s) as [[[[p dest] m0]|e] s1] eqn:Hprep;
      apply apply_prepare_effect in Hprep as [H1' _]; [|done].
    rewrite eff_bind_unfold.
    destruct (for_break _ _ m0 s1) as [[m|e] s2] eqn:Hloop;
      apply apply_loop_inference in Hloop;
      [|by apply inference_only_trans with s1].
    destruct (extract_results _ _ _ _ _ _ s2) as [r s3] eqn:Hext.
    apply (extract_results_inference a) in Hext. simpl.
    apply inference_only_trans with s2; [|done].
    by apply inference_only_trans with s1.
  - intros pr hp dest m0 w0 Hpr Hhp Hdest Hinit. cbv zeta.
    unfold apply_model.
    rewrite eff_bind_unfold,
      (apply_prepare_returns a s pr hp dest m0 w0 Hpr Hhp Hdest Hinit).
    rewrite eff_bind_unfold, apply_loop_run. simpl.
    unfold range. rewrite length_seqZ, Z.sub_0_r. unfold apply_options.
    rewrite <- !app_assoc. simpl.
    by destruct (run_failure _).
Qed.

End ResultsFacts.

(** ** The properties on given inputs *)

Section Runs.
Import Scalars Examples.

#[local] Existing Instance Scalars.objects.
#[local] Existing Instance Script.payloads.

(** *** Hyperparameters *)

(** [kappa=5] over the float [10.0]: the entry becomes the float [5.0]
    and the cast is announced. *)
Lemma update_hypparams_casts_witness :
  update_hypparams (model_with (Some hp_two_groups)) [("kappa", VInt 5)]
  = (Ret (model_with (Some (dict_set "trans_hypparams"
                              [("kappa", VFloat five); ("num_states", VInt 100)]
                              hp_two_groups))),
     model_with (Some (dict_set "trans_hypparams"
                         [("kappa", VFloat five); ("num_states", VInt 100)]
                         hp_two_groups)),
     [Warn (WillBeCast (VInt 5) "kappa" TInt TFloat)]).
Proof.
  refine (proj1 (update_hypparams_casts
                   (model_with (Some hp_two_groups)) hp_two_groups
                   "trans_hypparams"
                   [("kappa", VFloat ten); ("num_states", VInt 100)]
                   "kappa" (VFloat ten) (VInt 5) (VFloat five)
                   eq_refl _ eq_refl eq_refl eq_refl eq_refl _)).
  - apply (bool_decide_unpack _). vm_compute. exact I.
  - intros group' g' Hne. simpl.
    destruct (String.eqb_spec group' "trans_hypparams"); [done|].
    destruct (String.eqb_spec group' "ar_hypparams"); [|done].
    by intros [= <-].
Defined.

(** [nlags=True] over the integer [3]: the types differ, the entry
    becomes the integer [1], and nothing is announced. *)
Lemma update_hypparams_bool_for_int :
  ~ (warnings_of
       (update_hypparams (model_with (Some hp_two_groups))
                         [("nlags", VBool true)]).2 ≠ []
     <-> type_of (VBool true) ≠ type_of (VInt 3)).
Proof. intros [_ Hwarn]. by apply Hwarn. Qed.

Example bool_given_for_int_run :
  update_hypparams (model_with (Some hp_two_groups)) [("nlags", VBool true)]
  = (Ret (model_with (Some (dict_set "ar_hypparams"
                              [("nlags", VInt 1); ("S_0", VList [1; 1])]
                              hp_two_groups))),
     model_with (Some (dict_set "ar_hypparams"
                         [("nlags", VInt 1); ("S_0", VList [1; 1])]
                         hp_two_groups)),
     []).
Proof. reflexivity. Qed.

Lemma update_hypparams_unmatched_witness :
  update_hypparams (model_with (Some hp_two_groups)) [("foobar", VInt 1)]
  = (Ret (model_with (Some hp_two_groups)), model_with (Some hp_two_groups),
     [Warn (NotFound ["foobar"])]).
Proof.
  refine (update_hypparams_unmatched
            (model_with (Some hp_two_groups)) hp_two_groups
            [("foobar", VInt 1)] eq_refl _ _); [done|].
  intros group g k Hg Hk. apply list_elem_of_singleton in Hk as ->.
  simpl in Hg.
  destruct (String.eqb_spec group "trans_hypparams");
    [by injection Hg as <-|].
  destruct (String.eqb_spec group "ar_hypparams"); [by injection Hg as <-|].
  done.
Defined.

Lemma update_hypparams_missing_container_witness :
  update_hypparams (model_with None) [("kappa", VInt 5)]
  = (Raise AssertionError, model_with None, []).
Proof.
  exact (update_hypparams_missing_container
           (model_with None) [("kappa", VInt 5)] eq_refl).
Defined.

Lemma update_hypparams_two_groups_witness :
  exists e,
    (update_hypparams (model_with (Some hp_kappa_twice))
                      [("kappa", VInt 5)]).1.1 = Raise e.
Proof.
  refine (update_hypparams_two_groups
            (model_with (Some hp_kappa_twice)) [("kappa", VInt 5)]
            "trans_hypparams" "obs_hypparams" "kappa" (VFloat ten)
            (VFloat five) _ _ _ eq_refl eq_refl eq_refl eq_refl).
  - apply (bool_decide_unpack _). vm_compute. exact I.
  - apply list_elem_of_here.
  - done.
Defined.

(** With [kappa] in two groups, both entries are overwritten and
    announced before the second removal raises [ValueError]. *)
Example kappa_in_two_groups_run :
  update_hypparams (model_with (Some hp_kappa_twice)) [("kappa", VInt 5)]
  = (Raise ValueError,
     model_with (Some [("trans_hypparams", [("kappa", VFloat five)]);
                       ("obs_hypparams", [("kappa", VFloat five)])]),
     [Warn (WillBeCast (VInt 5) "kappa" TInt TFloat);
      Warn (WillBeCast (VInt 5) "kappa" TInt TFloat)]).
Proof. reflexivity. Qed.

(** *** The flag *)

Lemma set_parallel_flag_resolution_witness :
  @_set_parallel_flag objects "gpu" PmpNone = (PmpBool true, [])
  ∧ @_set_parallel_flag objects "cpu" PmpNone = (PmpBool false, []).
Proof.
  destruct (@set_parallel_flag_resolution objects "gpu")
    as (_ & (b & Hgpu & Hb) & _).
  destruct (@set_parallel_flag_resolution objects "cpu")
    as (_ & (c & Hcpu & Hc) & _).
  split.
  - rewrite Hgpu. by rewrite (proj2 Hb).
  - rewrite Hcpu. destruct c; [|done]. by destruct (proj1 Hc).
Defined.

(** *** [fit_model] *)


Example checkpoints_of_20_by_5 :
  dom (snapshots_at "proj/run/checkpoint.h5"
         (files (@fit_model _ _ (script None None) fit_20_by_5
                   (empty_host None None)).2))
  = {[ "0"; "5"; "10"; "15"; "20" ]}.
Proof. apply (bool_decide_unpack _). by vm_compute. Qed.



(** An interruption during the resampling of iteration 7: the state after
    iteration 6 is returned, and the file holds the snapshots of the
    iterations 0 and 5. *)
Lemma fit_model_interrupted_witness :
  (@fit_model _ _ (script (Some 7) None) fit_20_by_5
     (empty_host (Some 7) None)).1
  = Ret (resampled 7, "run")
  ∧ dom (snapshots_at "proj/run/checkpoint.h5"
           (files (@fit_model _ _ (script (Some 7) None) fit_20_by_5
                     (empty_host (Some 7) None)).2))
    = {[ "0"; "5" ]}.
Proof.
  let r := eval vm_compute in
      (@fit_reaches _ _ (script (Some 7) None) fit_20_by_5
         (empty_host (Some 7) None) 7) in
  match r with
  | Some (?l, ?s1, ?m, ?s2) =>
      destruct (@fit_model_interrupted _ _ (script (Some 7) None)
                  fit_20_by_5 (empty_host (Some 7) None) 7 l s1 m s2 8)
        as [Hrun _]; [reflexivity|simpl; lia|reflexivity|]
  end.
  rewrite Hrun. split; [reflexivity|].
  apply (bool_decide_unpack _). by vm_compute.
Defined.

(** *** [extract_results] and [apply_model] *)

(** C3. For the bounds [(10, 50)] and [nlags = 5], the latent states, the
    centroids and the headings of the recording are 40 each, and its
    syllables are 45: the first five equal the first label kept, which is
    the label at 15 of the row, and the 40 labels from there follow. *)
Theorem extract_results_syllables_longer :
  exists r,
    (@extract_results _ _ (script None None) model_65_60 one_recording
       None None false None (empty_host None None)).1
    = Ret [("rec", r)]
    ∧ length (latent_state r) = 40%nat
    ∧ length (centroid r) = 40%nat
    ∧ length (heading r) = 40%nat
    ∧ length (syllable r) = 45%nat
    ∧ take 5 (syllable r) = replicate 5 115
    ∧ drop 5 (syllable r) = seqZ 115 40.
Proof. eexists. split; [reflexivity|]. repeat split. Qed.

(** [apply_model] with five iterations, the fourth of which diverges:
    the results are those of the state after three resampling steps, and
    four resampling calls were made, each for the states only. *)
Lemma apply_model_inference_witness :
  (@apply_model _ _ (Evolving.collaborators None (Some 3))
     Evolving.apply_5_recording (Evolving.start None (Some 3))).1
  = Ret (Evolving.results_after 3)
  ∧ journal (@apply_model _ _ (Evolving.collaborators None (Some 3))
               Evolving.apply_5_recording (Evolving.start None (Some 3))).2
    = CallInit tt tt hp_two_groups false
      :: map (fun n =>
                CallResample tt
                  {| states := Some (Nat.iter n Evolving.advance states_65_60);
                     params := Some tt; hypparams := Some hp_two_groups;
                     extra := (Z.of_nat n, false) |}
                  {| ar_only := false; states_only := Some true;
                     verbose := false;
                     parallel_message_passing := PmpBool false |})
             [0; 1; 2; 3]%nat.
Proof.
  destruct (@apply_model_inference _ _ (Evolving.collaborators None (Some 3))
              Evolving.apply_5_recording (Evolving.start None (Some 3)))
    as [_ Hrun].
  rewrite (Hrun tt hp_two_groups None
             {| states := Some states_65_60; params := Some tt;
                hypparams := Some hp_two_groups; extra := (0, false) |} 0
             eq_refl eq_refl eq_refl eq_refl).
  split; reflexivity.
Defined.

(** The same with no early stop: five resampling steps. *)
Example apply_5_recording_completes :
  (@apply_model _ _ (Evolving.collaborators None None)
     Evolving.apply_5_recording (Evolving.start None None)).1
  = Ret (Evolving.results_after 5).
Proof. reflexivity. Qed.

End Runs.

(** * Further properties *)

(** ** [update_hypparams]: what a call leaves alone *)

Section HypparamsFrame.
Context `{ObjectModel} `{Payloads}.
Implicit Types (s : ustate) (kwargs : dict PyObj) (hp : hypparams_t).

Lemma dict_keys_set {V} (k : string) (x : V) (d : dict V) :
  k ∈ dict_keys d -> dict_keys (dict_set k x d) = dict_keys d.
Proof.
  induction d as [|[k' x'] d IH]; simpl.
  - intros Hin. by apply elem_of_nil in Hin.
  - intros Hin. destruct (String.eqb_spec k k') as [->|Hne]; [done|].
    simpl. f_equal. apply IH. apply elem_of_cons in Hin as [?|?]; done.
Qed.

Lemma hypparams_shape_set group k (new : PyObj) g hp :
  dict_get group hp = Some g -> k ∈ dict_keys g ->
  hypparams_shape (dict_set group (dict_set k new g) hp) = hypparams_shape hp.
Proof.
  intros Hg Hk. induction hp as [|[G d] hp IH]; simpl in *; [done|].
  destruct (String.eqb_spec group G) as [->|Hne]; simpl.
  - injection Hg as ->. by rewrite dict_keys_set.
  - f_equal. by apply IH.
Qed.

(** What one pass of the inner loop body keeps of the model dictionary:
    everything but the values of the hyperparameters. *)
Lemma update_in_group_keeps group k val s r s' :
  update_in_group group (k, val) s = (r, s') ->
  same_but_hypparams (model_dict s) (model_dict s')
  ∧ hypparams_shape <$> hypparams (model_dict s')
    = hypparams_shape <$> hypparams (model_dict s).
Proof.
  destruct (hypparams (model_dict s)) as [hp|] eqn:Hhp;
    [destruct (dict_get group hp) as [g|] eqn:Hg|].
  - rewrite (update_in_group_unfold _ _ _ _ hp g) by done.
    destruct (dict_get k g) as [old|] eqn:Hk;
      [|intros [= <- <-]; by rewrite Hhp].
    destruct (np_isscalar old); [|intros [= <- <-]; simpl; by rewrite Hhp].
    destruct (construct (type_of old) val) as [new|e]; simpl;
      [|intros [= <- <-]; simpl; by rewrite Hhp].
    assert (hypparams_shape (dict_set group (dict_set k new g) hp)
            = hypparams_shape hp) as Hshape.
    { apply hypparams_shape_set; [done|]. by apply dict_get_Some_keys in Hk. }
    destruct (list_remove k (not_updated s));
      intros [= <- <-]; simpl; by rewrite Hshape.
  - unfold update_in_group, load_group, mbind, eff_bind. rewrite Hhp, Hg.
    intros [= <- <-]. by rewrite Hhp.
  - unfold update_in_group, load_group, mbind, eff_bind. rewrite Hhp.
    intros [= <- <-]. by rewrite Hhp.
Qed.

(** An invariant of one pass is an invariant of both loops. *)
Lemma update_groups_invariant (P : ustate -> ustate -> Prop) groups kwargs :
  (forall s, P s s) ->
  (forall s1 s2 s3, P s1 s2 -> P s2 s3 -> P s1 s3) ->
  (forall group kv s r s',
     kv ∈ kwargs -> update_in_group group kv s = (r, s') -> P s s') ->
  forall s r s', update_groups groups kwargs s = (r, s') -> P s s'.
Proof.
  intros Hrefl Htrans Hstep.
  assert (forall group kvs s r s',
            kvs ⊆ kwargs ->
            for_each kvs (update_in_group group) s = (r, s') -> P s s')
    as Hinner.
  { intros group kvs. induction kvs as [|kv kvs IH]; intros s r s' Hsub; simpl.
    - by intros [= <- <-].
    - rewrite eff_bind_unfold.
      destruct (update_in_group group kv s) as [[[]|e] s1] eqn:Hkv.
      + intros Hrest. apply (Htrans _ s1).
        * apply (Hstep group kv _ _ _ (Hsub _ (list_elem_of_here _ _)) Hkv).
        * apply (IH s1 r s'); [|done]. intros y Hy. apply Hsub.
          by apply list_elem_of_further.
      + intros [= <- <-].
        apply (Hstep group kv _ _ _ (Hsub _ (list_elem_of_here _ _)) Hkv). }
  unfold update_groups. induction groups as [|g groups IH];
    intros s r s'; simpl.
  - by intros [= <- <-].
  - rewrite eff_bind_unfold.
    destruct (for_each kwargs (update_in_group g) s) as [[[]|e] s1] eqn:Hg.
    + intros Hrest. apply (Htrans _ s1); [|by apply (IH s1 r s')].
      by apply (Hinner g kwargs s (Ret tt) s1).
    + intros [= <- <-]. by apply (Hinner g kwargs s (Raise e) s1).
Qed.

(** What holds of the model dictionary before and after the loops holds
    of it before and after the call. *)
Lemma update_hypparams_invariant (P : model -> model -> Prop) md kwargs :
  (forall m, P m m) ->
  (forall s r s',
     update_groups (default [] (dict_keys <$> hypparams md)) kwargs s = (r, s') ->
     model_dict s = md -> not_updated s = dict_keys kwargs ->
     P md (model_dict s')) ->
  P md (update_hypparams md kwargs).1.2.
Proof.
  intros Hrefl Hloop. unfold update_hypparams, update_hypparams_body.
  rewrite eff_bind_unfold. simpl.
  destruct (hypparams md) as [hp|] eqn:Hhp; simpl; [|apply Hrefl].
  rewrite eff_bind_unfold. simpl.
  set (s1 := {| model_dict := md; not_updated := dict_keys kwargs;
                emitted := [] |}).
  rewrite eff_bind_unfold.
  destruct (update_groups (dict_keys hp) kwargs s1) as [[[]|e] s2] eqn:Hrun;
    pose proof (Hloop s1 _ s2 Hrun eq_refl eq_refl) as HP; simpl; [|done].
  rewrite eff_bind_unfold. simpl.
  destruct (bool_decide (0 < length (not_updated s2))%nat); simpl; done.
Qed.

(** X1. Whatever the call does, returning or raising, the states, the
    parameters and the other entries of the model dictionary are as they
    were: only ['hypparams'] is edited. *)
Theorem update_hypparams_keeps_the_rest (md : model) kwargs :
  same_but_hypparams md (update_hypparams md kwargs).1.2.
Proof.
  apply (update_hypparams_invariant same_but_hypparams); [done|].
  intros s r s' Hrun <- _.
  apply (update_groups_invariant
           (fun s s' => same_but_hypparams (model_dict s) (model_dict s'))
           _ kwargs) in Hrun; [done|done| |].
  - intros s1 s2 s3 (? & ? & ?) (? & ? & ?). repeat split; congruence.
  - intros group [k val] s1 r1 s1' _ Hstep.
    by apply update_in_group_keeps in Hstep as [? _].
Qed.

(** X2. Whatever the call does, no group and no hyperparameter is added
    or removed: the names of the groups and of their entries, in order,
    are as they were. *)
Theorem update_hypparams_keeps_the_shape (md : model) kwargs :
  hypparams_shape <$> hypparams (update_hypparams md kwargs).1.2
  = hypparams_shape <$> hypparams md.
Proof.
  apply (update_hypparams_invariant
           (fun m m' => hypparams_shape <$> hypparams m'
                        = hypparams_shape <$> hypparams m)); [done|].
  intros s r s' Hrun <- _.
  apply (update_groups_invariant
           (fun s s' => hypparams_shape <$> hypparams (model_dict s')
                        = hypparams_shape <$> hypparams (model_dict s))
           _ kwargs) in Hrun; [done|done| |].
  - intros s1 s2 s3 H12 H23. congruence.
  - intros group [k val] s1 r1 s1' _ Hstep.
    by apply update_in_group_keeps in Hstep as [_ ?].
Qed.

(** X3. Whatever the call does, a hyperparameter whose name is not among
    the requested keys keeps its value, in every group. *)
Theorem update_hypparams_only_requested (md : model) kwargs G K :
  K ∉ dict_keys kwargs ->
  hypparam_at G K (update_hypparams md kwargs).1.2 = hypparam_at G K md.
Proof.
  intros HK.
  apply (update_hypparams_invariant
           (fun m m' => hypparam_at G K m' = hypparam_at G K m)); [done|].
  intros s r s' Hrun <- _.
  apply (update_groups_invariant
           (fun s s' => hypparam_at G K (model_dict s')
                        = hypparam_at G K (model_dict s))
           _ kwargs) in Hrun; [done|done| |].
  - intros s1 s2 s3 H12 H23. congruence.
  - intros group [k val] s1 r1 s1' Hin Hstep.
    apply update_in_group_frame in Hstep as (Hf & _). apply Hf. right.
    intros ->. apply HK. apply list_elem_of_fmap. by exists (k, val).
Qed.

(** X4. A requested key that is not a scalar wherever it occurs is not
    updated: the call returns the model dictionary as it was, prints the
    notice of line 378 once for every group that holds the key, and then
    also lists the key in the warning of the hyperparameters that were not
    found. *)
Theorem update_hypparams_not_a_scalar (md : model) hp k val :
  hypparams md = Some hp ->
  (forall G old, hypparam_at G k md = Some old -> np_isscalar old = false) ->
  update_hypparams md [(k, val)]
  = (Ret md, md,
     not_a_scalar_notices k md (dict_keys hp) ++ [Warn (NotFound [k])]).
Proof.
  intros Hhp Hnot. unfold update_hypparams, update_hypparams_body.
  rewrite eff_bind_unfold. simpl. rewrite Hhp.
  rewrite eff_bind_unfold. simpl.
  assert (forall gs out,
            gs ⊆ dict_keys hp ->
            update_groups gs [(k, val)]
              {| model_dict := md; not_updated := [k]; emitted := out |}
            = (Ret tt, {| model_dict := md; not_updated := [k];
                          emitted := out ++ not_a_scalar_notices k md gs |}))
    as Hloop.
  { unfold update_groups. induction gs as [|G gs IH]; intros out Hsub; simpl.
    - by rewrite app_nil_r.
    - rewrite !eff_bind_unfold.
      destruct (dict_keys_get G hp (Hsub _ (list_elem_of_here _ _)))
        as [g Hg].
      rewrite (update_in_group_unfold _ _ _ _ hp g) by done.
      assert (hypparam_at G k md = dict_get k g) as Hat.
      { unfold hypparam_at. rewrite Hhp. simpl. by rewrite Hg. }
      rewrite Hat. destruct (dict_get k g) as [old|] eqn:Hk.
      + rewrite (Hnot G old) by congruence. simpl.
        rewrite IH, <- app_assoc; [done|].
        intros y Hy. apply Hsub. by apply list_elem_of_further.
      + simpl. rewrite IH; [done|].
        intros y Hy. apply Hsub. by apply list_elem_of_further. }
  rewrite eff_bind_unfold, Hloop by done. reflexivity.
Qed.

(** X5. When the type of the current value refuses the new value, the
    exception of the cast escapes the call: the entry keeps its value,
    the key is in no other group, and the advisory of the cast, if due,
    has been emitted before. *)
Theorem update_hypparams_cast_fails (md : model) hp group g k old val e :
  hypparams md = Some hp ->
  NoDup (dict_keys hp) ->
  dict_get group hp = Some g ->
  dict_get k g = Some old ->
  np_isscalar old = true ->
  construct (type_of old) val = Raise e ->
  (forall group' g',
     group' ≠ group -> dict_get group' hp = Some g' -> dict_get k g' = None) ->
  update_hypparams md [(k, val)] = (Raise e, md, cast_advisory k val old).
Proof.
  intros Hhp Hnd Hg Hk Hscalar Hcast Hothers.
  pose proof (dict_get_Some_keys _ _ _ Hg) as Hin.
  apply list_elem_of_split in Hin as (l1 & l2 & Hsplit).
  assert (group ∉ l1) as Hl1.
  { rewrite Hsplit in Hnd. apply NoDup_app in Hnd as (_ & Hdisj & _).
    intros Hin. apply (Hdisj _ Hin), list_elem_of_here. }
  unfold update_hypparams, update_hypparams_body.
  rewrite eff_bind_unfold. simpl. rewrite Hhp.
  rewrite eff_bind_unfold. simpl.
  set (s1 := {| model_dict := md; not_updated := [k]; emitted := [] |}).
  assert (update_groups l1 [(k, val)] s1 = (Ret tt, s1)) as Hpass.
  { apply for_each_fixed. intros G HG.
    assert (G ≠ group) as Hne by (intros ->; done).
    assert (G ∈ dict_keys hp) as HGin.
    { rewrite Hsplit. apply elem_of_app. by left. }
    destruct (dict_keys_get G hp HGin) as [g' Hg'].
    apply (pass_over_group _ _ _ hp g'); [done|done|].
    intros k' Hk'. apply list_elem_of_singleton in Hk' as ->.
    by apply (Hothers G). }
  rewrite eff_bind_unfold. unfold update_groups.
  rewrite Hsplit, for_each_app. fold (update_groups l1 [(k, val)]).
  rewrite Hpass. simpl. rewrite !eff_bind_unfold.
  rewrite (update_in_group_unfold _ _ _ _ hp g) by done.
  rewrite Hk, Hscalar, Hcast. reflexivity.
Qed.

(** *** Several keys at once *)

Lemma list_remove_Some x l : x ∈ l -> exists l', list_remove x l = Some l'.
Proof.
  intros Hin. destruct (list_remove x l) as [l'|] eqn:Hrm; [by exists l'|].
  by apply list_remove_None in Hrm.
Qed.

Lemma list_remove_elem_iff x l l' :
  NoDup l -> list_remove x l = Some l' ->
  forall y, y ∈ l' <-> y ∈ l ∧ y ≠ x.
Proof.
  intros Hnd Hrm y. split.
  - intros Hy. split; [by apply (list_remove_elem x l l')|].
    intros ->. by apply (list_remove_NoDup x l l') in Hnd as [_ ?].
  - intros [Hy Hne]. revert l' Hrm.
    induction l as [|z l IH]; simpl; intros l'; [done|].
    apply NoDup_cons in Hnd as [_ Hnd].
    destruct (String.eqb_spec x z) as [->|Hxz].
    + intros [= <-]. apply elem_of_cons in Hy as [?|?]; done.
    + destruct (list_remove x l) as [r|]; [|done]. intros [= <-].
      apply elem_of_cons in Hy as [->|Hy]; [apply list_elem_of_here|].
      apply list_elem_of_further. by apply IH.
Qed.

Lemma hypparams_shape_names hp : (hypparams_shape hp).*1 = dict_keys hp.
Proof. induction hp as [|[G d] hp IH]; simpl; [done|]. by f_equal. Qed.

Lemma has_group_shape G (m m' : model) :
  hypparams_shape <$> hypparams m' = hypparams_shape <$> hypparams m ->
  has_group G m -> has_group G m'.
Proof.
  intros Hshape (hp & Hhp & HG). rewrite Hhp in Hshape.
  destruct (hypparams m') as [hp'|] eqn:Hhp'; [|done].
  injection Hshape as Hshape. exists hp'. split; [done|].
  by rewrite <- hypparams_shape_names, Hshape, hypparams_shape_names.
Qed.

(** A pass at the entry that is to be updated. *)
Lemma update_in_group_updates G k val s old new :
  hypparam_at G k (model_dict s) = Some old ->
  np_isscalar old = true ->
  construct (type_of old) val = Ret new ->
  k ∈ not_updated s ->
  exists s',
    update_in_group G (k, val) s = (Ret tt, s')
    ∧ hypparam_at G k (model_dict s') = Some new
    ∧ list_remove k (not_updated s) = Some (not_updated s')
    ∧ emitted s' = emitted s ++ cast_advisory k val old.
Proof.
  unfold hypparam_at. intros Hat Hscalar Hnew Hin.
  destruct (hypparams (model_dict s)) as [hp|] eqn:Hhp; [|done].
  simpl in Hat. destruct (dict_get G hp) as [g|] eqn:Hg; [|done].
  simpl in Hat. destruct (list_remove_Some _ _ Hin) as [l Hl].
  rewrite (update_in_group_unfold _ _ _ _ hp g) by done.
  rewrite Hat, Hscalar, Hnew. simpl. rewrite Hl.
  eexists. split; [done|]. simpl. split; [|done].
  rewrite dict_get_set_eq. simpl. apply dict_get_set_eq.
Qed.

(** A pass at a group that exists and lacks the key. *)
Lemma update_in_group_passes G k val s :
  has_group G (model_dict s) ->
  hypparam_at G k (model_dict s) = None ->
  update_in_group G (k, val) s = (Ret tt, s).
Proof.
  intros (hp & Hhp & HG) Hat. destruct (dict_keys_get G hp HG) as [g Hg].
  rewrite (update_in_group_unfold _ _ _ _ hp g) by done.
  unfold hypparam_at in Hat. rewrite Hhp in Hat. simpl in Hat.
  rewrite Hg in Hat. simpl in Hat. by rewrite Hat.
Qed.

Section SeveralKeys.
Variables (home : string -> string) (cast : string -> PyObj).

(** The inner loop leaves alone the other groups, and in its own group
    the entries that are not requested. *)
Lemma inner_frame_keys G kvs s r s' :
  for_each kvs (update_in_group G) s = (r, s') ->
  forall G' K, G' ≠ G ∨ K ∉ dict_keys kvs ->
    hypparam_at G' K (model_dict s') = hypparam_at G' K (model_dict s).
Proof.
  revert s. induction kvs as [|[k val] kvs IH]; intros s; simpl.
  - by intros [= <- <-].
  - rewrite eff_bind_unfold.
    destruct (update_in_group G (k, val) s) as [[[]|e] s1] eqn:Hstep;
      apply update_in_group_frame in Hstep as (Hf & _).
    + intros Hrest G' K HK. rewrite (IH _ Hrest).
      * apply Hf. destruct HK as [?|HK]; [by left|right].
        intros ->. apply HK, list_elem_of_here.
      * destruct HK as [?|HK]; [by left|right].
        intros Hin. by apply HK, list_elem_of_further.
    + intros [= <- <-] G' K HK. apply Hf.
      destruct HK as [?|HK]; [by left|right].
      intros ->. apply HK, list_elem_of_here.
Qed.

Lemma inner_updates G kvs s :
  NoDup (dict_keys kvs) ->
  NoDup (not_updated s) ->
  has_group G (model_dict s) ->
  (forall k val, (k, val) ∈ kvs ->
     (home k = G ∧ ready home cast k val s)
     ∨ (home k ≠ G ∧ hypparam_at G k (model_dict s) = None)) ->
  exists s' adv,
    for_each kvs (update_in_group G) s = (Ret tt, s')
    ∧ (forall k, k ∈ dict_keys kvs -> home k = G -> updated home cast k s')
    ∧ (forall y, y ∈ not_updated s'
         <-> y ∈ not_updated s ∧ ~ (y ∈ dict_keys kvs ∧ home y = G))
    ∧ emitted s' = emitted s ++ adv ∧ Forall is_cast_advisory adv.
Proof.
  revert s. induction kvs as [|[k val] kvs IH]; intros s Hkeys Hnu HG Hall.
  - exists s, []. simpl. split; [done|]. split.
    { intros k Hk. by apply elem_of_nil in Hk. }
    split; [|by rewrite app_nil_r]. intros y. split; [|tauto].
    intros Hy. split; [done|]. intros [Hk _]. by apply elem_of_nil in Hk.
  - simpl in Hkeys. apply NoDup_cons in Hkeys as [Hk Hkeys].
    assert (exists s1 adv1,
              update_in_group G (k, val) s = (Ret tt, s1)
              ∧ (home k = G -> updated home cast k s1)
              ∧ (forall y, y ∈ not_updated s1
                   <-> y ∈ not_updated s ∧ ~ (y = k ∧ home y = G))
              ∧ emitted s1 = emitted s ++ adv1 ∧ Forall is_cast_advisory adv1)
      as (s1 & adv1 & Hstep & Hdone & Hnu1 & Hout1 & Hadv1).
    { destruct (Hall k val (list_elem_of_here _ _))
        as [[Hhome (old & Hat & Hsc & Hnew & Hin)]|[Hhome Hat]].
      - rewrite <- Hhome.
        destruct (update_in_group_updates (home k) k val s old (cast k))
          as (s1 & Hstep & Hat1 & Hrm & Hout); [done..|].
        exists s1, (cast_advisory k val old). split; [done|].
        pose proof (list_remove_NoDup _ _ _ Hnu Hrm) as [_ Hgone].
        split; [done|]. split; [|split; [done|]].
        + intros y. rewrite (list_remove_elem_iff _ _ _ Hnu Hrm). split.
          * intros [? ?]. split; [done|]. intros [? _]. done.
          * intros [? Hn]. split; [done|]. intros ->. by apply Hn.
        + unfold cast_advisory. destruct (isinstance _ _); [done|].
          by apply Forall_singleton.
      - rewrite update_in_group_passes by done. exists s, [].
        split; [done|]. split; [done|]. split; [|by rewrite app_nil_r].
        intros y. split; [|tauto]. intros Hy. split; [done|].
        intros [-> ?]. done. }
    pose proof (update_in_group_frame _ _ _ _ _ _ Hstep) as (Hf & _ & Hnd1).
    pose proof (update_in_group_keeps _ _ _ _ _ _ Hstep) as [_ Hshape].
    destruct (IH s1) as (s' & adv & Hrest & Hupd & Hnu' & Hout & Hadv);
      [done|by apply Hnd1|by apply (has_group_shape _ _ _ Hshape)| |].
    { intros k' val' Hin'.
      assert (k' ≠ k) as Hne.
      { intros ->. apply Hk. apply list_elem_of_fmap. by exists (k, val'). }
      destruct (Hall k' val' (list_elem_of_further _ _ _ Hin'))
        as [[Hhome (old & Hat & Hsc & Hnew & Hin)]|[Hhome Hat]].
      - left. split; [done|]. exists old. rewrite Hf by (by right).
        split; [done|]. split; [done|]. split; [done|].
        apply Hnu1. split; [done|]. intros [? _]. done.
      - right. split; [done|]. rewrite Hf by (by right). done. }
    exists s', (adv1 ++ adv). simpl. rewrite eff_bind_unfold, Hstep.
    split; [done|]. split; [|split; [|split]].
    + intros k' Hk' Hhome. apply elem_of_cons in Hk' as [->|Hk'].
      * destruct (Hdone Hhome) as [Hat Hgone]. split.
        -- rewrite (inner_frame_keys G kvs s1 (Ret tt) s' Hrest (home k) k);
             [done|]. by right.
        -- intros Hy. apply Hnu' in Hy as [Hy _]. done.
      * by apply Hupd.
    + intros y. rewrite Hnu', Hnu1. simpl. rewrite elem_of_cons. split.
      * intros [[? Hn1] Hn2]. split; [done|]. intros [[->|?] ?]; tauto.
      * intros [? Hn]. split; [split; [done|]|].
        -- intros [-> ?]. apply Hn. split; [by left|done].
        -- intros [? ?]. apply Hn. split; [by right|done].
    + by rewrite Hout, Hout1, app_assoc.
    + by apply Forall_app.
Qed.

Lemma outer_updates gs kwargs s :
  NoDup gs ->
  NoDup (dict_keys kwargs) ->
  NoDup (not_updated s) ->
  (forall G, G ∈ gs -> has_group G (model_dict s)) ->
  (forall k val, (k, val) ∈ kwargs ->
     (home k ∈ gs -> ready home cast k val s)
     ∧ (forall G, G ∈ gs -> G ≠ home k ->
          hypparam_at G k (model_dict s) = None)) ->
  exists s' adv,
    update_groups gs kwargs s = (Ret tt, s')
    ∧ (forall k, k ∈ dict_keys kwargs -> home k ∈ gs -> updated home cast k s')
    ∧ (forall G K, G ∉ gs ->
         hypparam_at G K (model_dict s') = hypparam_at G K (model_dict s))
    ∧ (forall y, y ∈ not_updated s'
         <-> y ∈ not_updated s ∧ ~ (y ∈ dict_keys kwargs ∧ home y ∈ gs))
    ∧ emitted s' = emitted s ++ adv ∧ Forall is_cast_advisory adv.
Proof.
  revert s. induction gs as [|G gs IH]; intros s Hgs Hkeys Hnu Hgroups Hall.
  - exists s, []. split; [done|]. split.
    { intros k _ Hk. by apply elem_of_nil in Hk. }
    split; [done|]. split; [|by rewrite app_nil_r].
    intros y. split; [|tauto]. intros Hy. split; [done|].
    intros [_ Hk]. by apply elem_of_nil in Hk.
  - apply NoDup_cons in Hgs as [HG Hgs].
    destruct (inner_updates G kwargs s)
      as (s1 & adv1 & Hinner & Hupd1 & Hnu1 & Hout1 & Hadv1);
      [done|done|apply Hgroups, list_elem_of_here| |].
    { intros k val Hin. destruct (Hall k val Hin) as [Hready Hnone].
      destruct (decide (home k = G)) as [Hhome|Hhome].
      - left. split; [done|]. apply Hready. rewrite Hhome.
        apply list_elem_of_here.
      - right. split; [done|]. apply Hnone; [apply list_elem_of_here|done]. }
    pose proof (inner_frame _ _ _ _ _ Hinner) as (_ & _ & Hnd1).
    pose proof (inner_frame_keys _ _ _ _ _ Hinner) as Hf1.
    assert (hypparams_shape <$> hypparams (model_dict s1)
            = hypparams_shape <$> hypparams (model_dict s)) as Hshape.
    { apply (update_groups_invariant
               (fun s s' => hypparams_shape <$> hypparams (model_dict s')
                            = hypparams_shape <$> hypparams (model_dict s))
               [G] kwargs) with (r := Ret tt); [done| | |].
      - intros ? ? ? ? ?. congruence.
      - intros group [k val] s0 r0 s0' _ Hstep.
        by apply update_in_group_keeps in Hstep as [_ ?].
      - unfold update_groups. simpl. by rewrite eff_bind_unfold, Hinner. }
    assert (forall G', G' ∈ gs -> G' ≠ G) as Hne.
    { intros G' HG' ->. done. }
    destruct (IH s1) as (s' & adv & Hrest & Hupd & Hf & Hnu' & Hout & Hadv);
      [done|done|by apply Hnd1| | |].
    { intros G' HG'. apply (has_group_shape _ _ _ Hshape).
      by apply Hgroups, list_elem_of_further. }
    { intros k val Hin. destruct (Hall k val Hin) as [Hready Hnone]. split.
      - intros Hhome. destruct Hready as (old & Hat & Hsc & Hnew & Hk);
          [by apply list_elem_of_further|].
        exists old. rewrite Hf1 by (left; by apply Hne).
        split; [done|]. split; [done|]. split; [done|].
        apply Hnu1. split; [done|]. intros [_ HhG].
        by apply (Hne (home k)).
      - intros G' HG' Hhome. rewrite Hf1 by (left; by apply Hne).
        apply Hnone; [by apply list_elem_of_further|done]. }
    exists s', (adv1 ++ adv). split.
    { unfold update_groups in *. simpl. by rewrite eff_bind_unfold, Hinner. }
    split; [|split; [|split; [|split]]].
    + intros k Hk Hhome. apply elem_of_cons in Hhome as [Hhome|Hhome];
        [|by apply Hupd].
      destruct (Hupd1 k Hk Hhome) as [Hat Hgone]. split.
      * rewrite Hf; [done|]. by rewrite Hhome.
      * intros Hy. apply Hnu' in Hy as [Hy _]. done.
    + intros G' K HG'. apply not_elem_of_cons in HG' as [? ?].
      rewrite Hf by done. apply Hf1. by left.
    + intros y. rewrite Hnu', Hnu1, elem_of_cons. split.
      * intros [[? Hn1] Hn2]. split; [done|]. intros [? [?|?]]; tauto.
      * intros [? Hn]. split; [split; [done|]|]; intros [? ?]; apply Hn;
          (split; [done|tauto]).
    + by rewrite Hout, Hout1, app_assoc.
    + by apply Forall_app.
Qed.

(** X6. A call with several keys, each of them a scalar entry of its own
    group [home k] and in no other group, and each with a new value that
    the type of the current value accepts, returns: every requested entry
    then holds its cast value [cast k], and the only warnings are
    advisories of casts, so that no key is reported as not found. *)
Theorem update_hypparams_several (md : model) hp kwargs :
  hypparams md = Some hp ->
  NoDup (dict_keys hp) ->
  NoDup (dict_keys kwargs) ->
  (forall k val, (k, val) ∈ kwargs ->
     exists old,
       hypparam_at (home k) k md = Some old
       ∧ np_isscalar old = true
       ∧ construct (type_of old) val = Ret (cast k)) ->
  (forall k G, k ∈ dict_keys kwargs -> G ≠ home k ->
     hypparam_at G k md = None) ->
  exists final adv,
    update_hypparams md kwargs = (Ret final, final, adv)
    ∧ (forall k, k ∈ dict_keys kwargs ->
         hypparam_at (home k) k final = Some (cast k))
    ∧ Forall is_cast_advisory adv.
Proof.
  intros Hhp Hgs Hkeys Hhome Hothers.
  assert (forall k val, (k, val) ∈ kwargs -> home k ∈ dict_keys hp) as Hin.
  { intros k val Hkv. destruct (Hhome k val Hkv) as (old & Hat & _).
    unfold hypparam_at in Hat. rewrite Hhp in Hat. simpl in Hat.
    destruct (dict_get (home k) hp) as [g|] eqn:Hg; [|done].
    by apply dict_get_Some_keys in Hg. }
  set (s1 := {| model_dict := md; not_updated := dict_keys kwargs;
                emitted := [] |}).
  destruct (outer_updates (dict_keys hp) kwargs s1)
    as (s' & adv & Hrun & Hupd & _ & Hnu & Hout & Hadv);
    [done|done|done| | |].
  { intros G HG. by exists hp. }
  { intros k val Hkv. split.
    - intros _. destruct (Hhome k val Hkv) as (old & ? & ? & ?).
      exists old. repeat split; try done. simpl.
      apply list_elem_of_fmap. by exists (k, val).
    - intros G _ HG. apply Hothers; [|done].
      apply list_elem_of_fmap. by exists (k, val). }
  assert (not_updated s' = []) as Hnone.
  { destruct (not_updated s') as [|y l] eqn:Hl; [done|]. exfalso.
    destruct (proj1 (Hnu y) (list_elem_of_here _ _)) as [Hy Hn].
    apply Hn. split; [done|].
    simpl in Hy. apply list_elem_of_fmap in Hy as ([k val] & -> & Hkv).
    by apply (Hin k val). }
  exists (model_dict s'), adv.
  split; [|split; [|done]].
  - unfold update_hypparams, update_hypparams_body.
    rewrite eff_bind_unfold. simpl. rewrite Hhp.
    rewrite eff_bind_unfold. simpl. fold s1.
    rewrite eff_bind_unfold, Hrun. rewrite eff_bind_unfold. simpl.
    rewrite Hnone. simpl. by rewrite Hout.
  - intros k Hk. apply list_elem_of_fmap in Hk as ([k' val] & -> & Hkv).
    apply Hupd.
    + apply list_elem_of_fmap. by exists (k', val).
    + by apply (Hin k' val).
Qed.

End SeveralKeys.

End HypparamsFrame.

(** ** [fit_model]: the other ways a run can go *)

Section FitMore.
Context `{Collaborators}.
Implicit Types (a : fit_args) (l : fit_locals) (s : host) (m : model).

(** Lines 170 to 174, case by case. *)
Lemma fit_checkpoint_unfold a l i m s :
  fit_checkpoint a l i m s =
  if checkpoint_due a i then
    match checkpoint_path l with
    | None => (Raise (Fault "UnboundLocalError"), s)
    | Some cp =>
        let saved := save_hdf5 cp (snapshot_at (pretty i) m) (files s) in
        let j := journal s ++ [CallSave cp (snapshot_at (pretty i) m)] in
        if plots l then
          let '(r, w) := plot_progress m (fit_data a) cp i (project_dir a)
                                       (run_name l) (world s) in
          (r, {| world := w; files := saved; stream := stream s;
                 journal := j ++ [CallPlot m i] |})
        else (Ret tt, {| world := world s; files := saved;
                         stream := stream s; journal := j |})
    end
  else (Ret tt, s).
Proof.
  unfold fit_checkpoint, checkpoint_due.
  destruct ((0 <? save_every_n_iters a) && (start_iter a <? i)); [|done].
  simpl.
  destruct ((i mod save_every_n_iters a =? 0) || (i =? num_iters a)); [|done].
  destruct (checkpoint_path l) as [cp|]; [|done].
  unfold write_file, note, modify, call, mbind, eff_bind, mret, eff_ret.
  simpl. destruct (plots l); [|done]. simpl.
  by destruct (plot_progress _ _ _ _ _ _ _).
Qed.

(** The body of the loop, case by case. *)
Lemma fit_iteration_unfold a l i m s :
  fit_iteration a l i m s =
  let j := journal s ++ [CallResample (fit_data a) m (fit_options a l)] in
  match resample_model (fit_data a) m (fit_options a l) (world s) with
  | (Ret m', w) =>
      if (check_for_nans m').1
      then (Ret None,
            {| world := w; files := files s;
               stream := stream s
                         ++ [Warn (NaNsEncountered (check_for_nans m').2)];
               journal := j |})
      else
        match fit_checkpoint a l i m'
                {| world := w; files := files s; stream := stream s;
                   journal := j |} with
        | (Ret _, s2) => (Ret (Some m'), s2)
        | (Raise e, s2) => (Raise e, s2)
        end
  | (Raise KeyboardInterrupt, w) =>
      (Ret None, {| world := w; files := files s;
                    stream := stream s ++ [Print Interrupted];
                    journal := j |})
  | (Raise StopResampling, w) =>
      (Ret None, {| world := w; files := files s; stream := stream s;
                    journal := j |})
  | (Raise e, w) =>
      (Raise e, {| world := w; files := files s; stream := stream s;
                   journal := j |})
  end.
Proof.
  unfold fit_iteration, or_break. rewrite eff_bind_unfold.
  rewrite wrapped_resample_unfold. simpl.
  destruct (resample_model _ _ _ _) as [[m'|e] w]; simpl.
  - destruct (check_for_nans m').1; [done|]. rewrite eff_bind_unfold.
    by destruct (fit_checkpoint _ _ _ _ _) as [[[]|e] s2].
  - by destruct e.
Qed.

(** An invariant of the body is an invariant of the loop. *)
Lemma for_break_invariant {A M} (P : host -> host -> Prop) (xs : list A)
    (body : A -> M -> Eff host (option M)) :
  (forall s, P s s) ->
  (forall s1 s2 s3, P s1 s2 -> P s2 s3 -> P s1 s3) ->
  (forall i st0 s r s', i ∈ xs -> body i st0 s = (r, s') -> P s s') ->
  forall st0 s r s', for_break xs body st0 s = (r, s') -> P s s'.
Proof.
  intros Hrefl Htrans. induction xs as [|i xs IH]; intros Hstep st0 s r s'.
  - simpl. by intros [= <- <-].
  - simpl. rewrite eff_bind_unfold.
    destruct (body i st0 s) as [[[st1|]|e] s1] eqn:Hbody;
      pose proof (Hstep i st0 s _ s1 (list_elem_of_here _ _) Hbody) as Hs1.
    + intros Hrest. apply (Htrans _ s1); [done|].
      apply (IH (fun j st2 s2 r2 s2' Hj => Hstep j st2 s2 r2 s2'
                   (list_elem_of_further _ _ _ Hj)) st1 s1 r s' Hrest).
    + by intros [= <- <-].
    + by intros [= <- <-].
Qed.

(** What the loop returns is what it was given, or a state that the body
    has adopted. *)
Lemma for_break_returns {A M} (Q : M -> Prop) (xs : list A)
    (body : A -> M -> Eff host (option M)) :
  (forall i st0 s st1 s', body i st0 s = (Ret (Some st1), s') -> Q st1) ->
  forall st0 s st1 s', for_break xs body st0 s = (Ret st1, s') -> Q st0 -> Q st1.
Proof.
  intros Hstep. induction xs as [|i xs IH]; intros st0 s st1 s'; simpl.
  - by intros [= <- <-].
  - rewrite eff_bind_unfold.
    destruct (body i st0 s) as [[[st2|]|e] s2] eqn:Hbody; [| |done].
    + intros Hrest _. apply (IH _ _ _ _ Hrest). by apply (Hstep i st0 s st2 s2).
    + by intros [= <- <-].
Qed.

(** *** The lines before the loop, case by case *)

Lemma fit_prepare_no_dir a s :
  0 < save_every_n_iters a -> project_dir a = None ->
  fit_prepare a s = (Raise TypeError, s).
Proof.
  intros Hn Hdir. unfold fit_prepare. rewrite eff_bind_unfold.
  replace (save_every_n_iters a =? 0) with false
    by (symmetry; apply Z.eqb_neq; lia).
  rewrite andb_false_r. simpl. rewrite eff_bind_unfold. simpl.
  rewrite eff_bind_unfold.
  apply Z.ltb_lt in Hn. rewrite Hn, eff_bind_unfold, Hdir. done.
Qed.

Lemma fit_prepare_saving a s d :
  0 < save_every_n_iters a -> project_dir a = Some d ->
  let savedir := os_path_join d (run_name_of a s) in
  let cp := os_path_join savedir "checkpoint.h5" in
  let resolved := _set_parallel_flag default_backend
                    (fit_parallel_message_passing a) in
  let initial := checkpoint_dict (pretty (start_iter a)) (fit_model_arg a)
                   (fit_metadata a) (fit_data a) in
  fit_prepare a s
  = (Ret {| run_name := run_name_of a s; checkpoint_path := Some cp;
            plots := generate_progress_plots a; flag := resolved.1;
            on_device := device_put_as_scalar (fit_model_arg a) |},
     {| world := world s;
        files := match files s !! cp with
                 | Some _ => files s
                 | None => save_hdf5 cp initial (files s)
                 end;
        stream := (stream s ++ [Print (OutputsSavedTo savedir)]) ++ resolved.2;
        journal := journal s ++ match files s !! cp with
                                | Some _ => []
                                | None => [CallSave cp initial]
                                end |}).
Proof.
  intros Hn Hdir. simpl. unfold fit_prepare, run_name_of.
  rewrite eff_bind_unfold.
  replace (save_every_n_iters a =? 0) with false
    by (symmetry; apply Z.eqb_neq; lia).
  rewrite andb_false_r. simpl. rewrite eff_bind_unfold. simpl.
  rewrite eff_bind_unfold.
  apply Z.ltb_lt in Hn. rewrite Hn, eff_bind_unfold, Hdir. simpl.
  rewrite !eff_bind_unfold. simpl. rewrite !eff_bind_unfold. simpl.
  set (cp := os_path_join _ "checkpoint.h5").
  destruct (files s !! cp) as [f|] eqn:Hfile.
  - rewrite bool_decide_true by done. simpl.
    rewrite eff_bind_unfold, set_parallel_flag_effect. simpl.
    by rewrite app_nil_r.
  - rewrite bool_decide_false by (by intros [? ?]).
    unfold write_file, note, modify. rewrite !eff_bind_unfold. simpl.
    rewrite eff_bind_unfold, set_parallel_flag_effect. done.
Qed.

Lemma fit_prepare_not_saving a s :
  save_every_n_iters a <= 0 ->
  let downgraded := generate_progress_plots a && (save_every_n_iters a =? 0) in
  let resolved := _set_parallel_flag default_backend
                    (fit_parallel_message_passing a) in
  fit_prepare a s
  = (Ret {| run_name := run_name_of a s; checkpoint_path := None;
            plots := if downgraded then false else generate_progress_plots a;
            flag := resolved.1;
            on_device := device_put_as_scalar (fit_model_arg a) |},
     {| world := world s; files := files s;
        stream := (stream s ++ if downgraded then [Warn NoProgressPlots] else [])
                  ++ resolved.2;
        journal := journal s |}).
Proof.
  intros Hn. simpl. unfold fit_prepare, run_name_of.
  rewrite eff_bind_unfold.
  replace (0 <? save_every_n_iters a) with false
    by (symmetry; apply Z.ltb_ge; lia).
  destruct (generate_progress_plots a && (save_every_n_iters a =? 0)); simpl.
  - repeat (rewrite eff_bind_unfold; simpl).
    rewrite set_parallel_flag_effect. done.
  - repeat (rewrite eff_bind_unfold; simpl).
    rewrite set_parallel_flag_effect. simpl. by rewrite app_nil_r.
Qed.

(** *** What an iteration does to the files and to the journal *)

Lemma fit_iteration_files a l i m s r s' :
  fit_iteration a l i m s = (r, s') ->
  files s' = files s
  ∨ (checkpoint_due a i = true
     ∧ exists cp m',
         checkpoint_path l = Some cp
         ∧ files s' = save_hdf5 cp (snapshot_at (pretty i) m') (files s)).
Proof.
  rewrite fit_iteration_unfold. simpl.
  destruct (resample_model _ _ _ _) as [[m'|e] w].
  - destruct (check_for_nans m').1; [intros [= <- <-]; by left|].
    rewrite fit_checkpoint_unfold.
    destruct (checkpoint_due a i); [|intros [= <- <-]; by left].
    destruct (checkpoint_path l) as [cp|]; [|intros [= <- <-]; by left].
    simpl. destruct (plots l).
    + destruct (plot_progress _ _ _ _ _ _ _) as [[[]|e] w'];
        intros [= <- <-]; right; (split; [done|]); by exists cp, m'.
    + intros [= <- <-]. right. split; [done|]. by exists cp, m'.
  - destruct e; intros [= <- <-]; by left.
Qed.

Lemma saves_of_app (j1 j2 : list event) :
  saves_of (j1 ++ j2) = saves_of j1 ++ saves_of j2.
Proof. apply omap_app. Qed.

Lemma plots_of_app (j1 j2 : list event) :
  plots_of (j1 ++ j2) = plots_of j1 ++ plots_of j2.
Proof. apply omap_app. Qed.

Lemma resample_options_of_app (j1 j2 : list event) :
  resample_options_of (j1 ++ j2)
  = resample_options_of j1 ++ resample_options_of j2.
Proof. apply omap_app. Qed.

Lemma checkpoint_never_due a i :
  save_every_n_iters a <= 0 -> checkpoint_due a i = false.
Proof.
  intros Hn. unfold checkpoint_due.
  replace (0 <? save_every_n_iters a) with false
    by (symmetry; apply Z.ltb_ge; lia).
  done.
Qed.

(** X7. With [save_every_n_iters <= 0] nothing is saved and nothing is
    plotted, however the run goes: the files are as they were, and the
    journal gains no write and no plot. *)
Theorem fit_model_saving_off a s :
  save_every_n_iters a <= 0 ->
  files (fit_model a s).2 = files s
  ∧ saves_of (journal (fit_model a s).2) = saves_of (journal s)
  ∧ plots_of (journal (fit_model a s).2) = plots_of (journal s).
Proof.
  intros Hn. unfold fit_model.
  rewrite eff_bind_unfold, fit_prepare_not_saving by done. cbv zeta.
  set (l := {| run_name := _ |}). set (s1 := {| world := _ |}).
  rewrite eff_bind_unfold.
  destruct (for_break (range (start_iter a) (num_iters a + 1))
              (fit_iteration a l) (on_device l) s1) as [r s'] eqn:Hloop.
  assert (files s' = files s1 ∧ saves_of (journal s') = saves_of (journal s1)
          ∧ plots_of (journal s') = plots_of (journal s1)) as Hinv.
  { revert Hloop.
    apply (for_break_invariant
             (fun s s' => files s' = files s
                          ∧ saves_of (journal s') = saves_of (journal s)
                          ∧ plots_of (journal s') = plots_of (journal s))).
    - done.
    - intros s2 s3 s4 (? & ? & ?) (? & ? & ?). repeat split; congruence.
    - intros i m0 s2 r2 s2' _. rewrite fit_iteration_unfold. simpl.
      assert (saves_of (journal s2 ++ [CallResample (fit_data a) m0
                                         (fit_options a l)])
              = saves_of (journal s2)) as Hs.
      { rewrite saves_of_app. simpl. by rewrite app_nil_r. }
      assert (plots_of (journal s2 ++ [CallResample (fit_data a) m0
                                         (fit_options a l)])
              = plots_of (journal s2)) as Hp.
      { rewrite plots_of_app. simpl. by rewrite app_nil_r. }
      destruct (resample_model _ _ _ _) as [[m'|e] w].
      + destruct (check_for_nans m').1; [by intros [= <- <-]|].
        rewrite fit_checkpoint_unfold, checkpoint_never_due by done.
        by intros [= <- <-].
      + destruct e; by intros [= <- <-]. }
  destruct r as [m|e]; simpl; exact Hinv.
Qed.

(** X8. With [save_every_n_iters > 0] and no project directory the call
    raises at once, the [TypeError] of [os.path.join]: nothing is
    resampled, written or said. *)
Theorem fit_model_needs_project_dir a s :
  0 < save_every_n_iters a -> project_dir a = None ->
  fit_model a s = (Raise TypeError, s).
Proof.
  intros Hn Hdir. unfold fit_model.
  by rewrite eff_bind_unfold, fit_prepare_no_dir.
Qed.

(** A run that reaches iteration [k] and raises there. *)
Lemma fit_model_raises_at a s k l s1 m s2 e s' :
  fit_reaches a s k = Some (l, s1, m, s2) ->
  start_iter a <= k <= num_iters a ->
  fit_iteration a l k m s2 = (Raise e, s') ->
  fit_model a s = (Raise e, s').
Proof.
  unfold fit_reaches. intros Hreach Hk Hstop.
  destruct (fit_prepare a s) as [[l0|e0] s0] eqn:Hprep; [|done].
  destruct (adopt_all _ _ _ _) as [[m0 s3]|] eqn:Hloop; [|done].
  injection Hreach as -> -> -> ->.
  unfold fit_model. rewrite eff_bind_unfold, Hprep, eff_bind_unfold.
  rewrite (range_split (start_iter a) k) by lia.
  rewrite (for_break_adopted _ _ _ _ _ _ _ Hloop). simpl.
  by rewrite eff_bind_unfold, Hstop.
Qed.

(** X9. An exception of the resampling call other than the interruption
    of the user is not caught: it escapes [fit_model], with the files as
    they were at the head of the iteration. *)
Theorem fit_model_fault_escapes a s k l s1 m_prev s_prev e w :
  fit_reaches a s k = Some (l, s1, m_prev, s_prev) ->
  start_iter a <= k <= num_iters a ->
  resample_model (fit_data a) m_prev (fit_options a l) (world s_prev)
  = (Raise e, w) ->
  e ≠ KeyboardInterrupt -> e ≠ StopResampling ->
  fit_model a s
  = (Raise e,
     {| world := w; files := files s_prev; stream := stream s_prev;
        journal := journal s_prev
                   ++ [CallResample (fit_data a) m_prev (fit_options a l)] |}).
Proof.
  intros Hreach Hk Hres Hki Hstop.
  apply (fit_model_raises_at _ _ _ _ _ _ _ _ _ Hreach Hk).
  rewrite fit_iteration_unfold. simpl. rewrite Hres. by destruct e.
Qed.

(** X10. The plot of an iteration comes after its checkpoint and is not
    guarded: when [plot_progress] raises, the exception escapes
    [fit_model], and the snapshot of that iteration is in the file. *)
Theorem fit_model_plot_fault_escapes a s k l s1 m_prev s_prev m' w cp e w' :
  fit_reaches a s k = Some (l, s1, m_prev, s_prev) ->
  start_iter a <= k <= num_iters a ->
  resample_model (fit_data a) m_prev (fit_options a l) (world s_prev)
  = (Ret m', w) ->
  (check_for_nans m').1 = false ->
  checkpoint_due a k = true -> checkpoint_path l = Some cp ->
  plots l = true ->
  plot_progress m' (fit_data a) cp k (project_dir a) (run_name l) w
  = (Raise e, w') ->
  exists s',
    fit_model a s = (Raise e, s')
    ∧ snapshots_at cp (files s') !! pretty k = Some m'.
Proof.
  intros Hreach Hk Hres Hclean Hdue Hcp Hplots Hplot.
  eexists. split.
  - apply (fit_model_raises_at _ _ _ _ _ _ _ _ _ Hreach Hk).
    rewrite fit_iteration_unfold. simpl. rewrite Hres, Hclean.
    rewrite fit_checkpoint_unfold, Hdue, Hcp, Hplots. simpl.
    by rewrite Hplot.
  - simpl. rewrite snapshots_at_save_snapshot. apply lookup_insert_eq.
Qed.

(** *** The resampling calls of a run *)

Lemma fit_iteration_adopts_journal a l i m s m' s' :
  fit_iteration a l i m s = (Ret (Some m'), s') ->
  resample_options_of (journal s')
  = resample_options_of (journal s) ++ [fit_options a l].
Proof.
  rewrite fit_iteration_unfold. simpl.
  destruct (resample_model _ _ _ _) as [[m1|e] w]; [|by destruct e].
  destruct (check_for_nans m1).1; [done|].
  rewrite fit_checkpoint_unfold.
  destruct (checkpoint_due a i).
  - destruct (checkpoint_path l) as [cp|]; [|done]. simpl.
    destruct (plots l).
    + destruct (plot_progress _ _ _ _ _ _ _) as [[[]|e] w']; [|done].
      intros [= <- <-]. simpl. rewrite !resample_options_of_app. simpl.
      by rewrite !app_nil_r.
    + intros [= <- <-]. simpl. rewrite !resample_options_of_app. simpl.
      by rewrite !app_nil_r.
  - intros [= <- <-]. simpl. by rewrite resample_options_of_app.
Qed.

Lemma adopt_all_resamples a l xs m s m' s' :
  adopt_all xs (fit_iteration a l) m s = Some (m', s') ->
  resample_options_of (journal s')
  = resample_options_of (journal s) ++ replicate (length xs) (fit_options a l).
Proof.
  revert m s. induction xs as [|i xs IH]; intros m s; simpl.
  - intros [= -> ->]. by rewrite app_nil_r.
  - destruct (fit_iteration a l i m s) as [[[m1|]|e] s1] eqn:Hstep; [|done..].
    intros Hrest. rewrite (IH _ _ Hrest).
    rewrite (fit_iteration_adopts_journal _ _ _ _ _ _ _ Hstep).
    by rewrite <- app_assoc.
Qed.

(** X11. A run that is not stopped early resamples once for every
    iteration from [start_iter] to [num_iters], both included, which is
    [num_iters - start_iter + 1] times. Every call gets the [ar_only] and
    [verbose] of the caller and the resolved flag, and no [states_only]. *)
Theorem fit_model_resamples a s :
  fit_completes a s = true ->
  resample_options_of (journal (fit_model a s).2)
  = resample_options_of (journal s)
    ++ replicate (Z.to_nat (num_iters a - start_iter a + 1))
         {| ar_only := fit_ar_only a; states_only := None;
            verbose := fit_verbose a;
            parallel_message_passing :=
              (_set_parallel_flag default_backend
                 (fit_parallel_message_passing a)).1 |}.
Proof.
  intros Hdone. unfold fit_completes in Hdone.
  destruct (fit_prepare a s) as [[l|e] s1] eqn:Hprep; [|done].
  apply bool_decide_eq_true in Hdone as [[m s2] Hloop].
  assert (flag l = (_set_parallel_flag default_backend
                      (fit_parallel_message_passing a)).1
          ∧ resample_options_of (journal s1) = resample_options_of (journal s))
    as [Hflag Hj].
  { destruct (Z.lt_ge_cases 0 (save_every_n_iters a)) as [Hn|Hn].
    - destruct (project_dir a) as [d|] eqn:Hdir.
      + rewrite (fit_prepare_saving a s d) in Hprep by done.
        cbv zeta in Hprep. injection Hprep as <- <-. simpl. split; [done|].
        rewrite resample_options_of_app.
        destruct (files s !! _); simpl; by rewrite app_nil_r.
      + rewrite fit_prepare_no_dir in Hprep by done. done.
    - rewrite fit_prepare_not_saving in Hprep by done.
      cbv zeta in Hprep. by injection Hprep as <- <-. }
  unfold fit_model. rewrite eff_bind_unfold, Hprep, eff_bind_unfold.
  rewrite <- (app_nil_r (range _ _)).
  rewrite (for_break_adopted _ [] _ _ _ _ _ Hloop). simpl.
  rewrite (adopt_all_resamples _ _ _ _ _ _ _ Hloop), Hj.
  unfold range. rewrite length_seqZ. unfold fit_options. rewrite Hflag.
  do 3 f_equal. lia.
Qed.

(** *** What the snapshots are *)

Lemma adopt_all_keeps_key a l cp xs m s m' s' key :
  checkpoint_path l = Some cp ->
  adopt_all xs (fit_iteration a l) m s = Some (m', s') ->
  (forall j, j ∈ xs -> key ≠ pretty j) ->
  snapshots_at cp (files s') !! key = snapshots_at cp (files s) !! key.
Proof.
  intros Hcp. revert m s. induction xs as [|i xs IH]; intros m s; simpl.
  - by intros [= -> ->].
  - destruct (fit_iteration a l i m s) as [[[m1|]|e] s1] eqn:Hstep; [|done..].
    intros Hrest Hkey. rewrite (IH _ _ Hrest).
    2:{ intros j Hj. by apply Hkey, list_elem_of_further. }
    apply fit_iteration_adopts in Hstep. rewrite Hcp in Hstep. rewrite Hstep.
    destruct (checkpoint_due a i); [|done].
    rewrite snapshots_at_save_snapshot, lookup_insert_ne; [done|].
    intros Heq. by apply (Hkey i (list_elem_of_here _ _)).
Qed.

(** X12. The snapshot that a run leaves under the key of an iteration
    [i] after which a checkpoint is due is the state adopted at that
    iteration, and the later iterations leave it there. *)
Theorem fit_model_snapshot_is_adopted a s i k l s1 m_i s_i m_k s_k cp :
  fit_reaches a s (i + 1) = Some (l, s1, m_i, s_i) ->
  fit_reaches a s k = Some (l, s1, m_k, s_k) ->
  start_iter a <= i < k ->
  checkpoint_due a i = true ->
  checkpoint_path l = Some cp ->
  snapshots_at cp (files s_k) !! pretty i = Some m_i.
Proof.
  unfold fit_reaches. intros Hi Hk Hik Hdue Hcp.
  destruct (fit_prepare a s) as [[l0|e0] s0] eqn:Hprep; [|done].
  destruct (adopt_all (range (start_iter a) (i + 1)) _ _ _)
    as [[m1 s2]|] eqn:Hloop_i; [|done].
  destruct (adopt_all (range (start_iter a) k) _ _ _)
    as [[m2 s3]|] eqn:Hloop_k; [|done].
  injection Hi as -> -> -> ->. injection Hk as -> ->.
  assert (range (start_iter a) k
          = range (start_iter a) (i + 1) ++ range (i + 1) k) as Hsplit.
  { unfold range. replace (k - start_iter a)
      with ((i + 1 - start_iter a) + (k - (i + 1))) by lia.
    rewrite seqZ_app by lia. do 2 f_equal; lia. }
  rewrite Hsplit, adopt_all_app, Hloop_i in Hloop_k.
  rewrite (adopt_all_keeps_key _ _ _ _ _ _ _ _ (pretty i) Hcp Hloop_k).
  2:{ intros j Hj Heq. apply (inj pretty) in Heq as <-.
      apply elem_of_range in Hj. lia. }
  assert (range (start_iter a) (i + 1) = range (start_iter a) i ++ [i])
    as Hlast.
  { rewrite (range_split (start_iter a) i (i + 1)) by lia. do 2 f_equal.
    unfold range. apply seqZ_nil. lia. }
  rewrite Hlast, adopt_all_app in Hloop_i.
  destruct (adopt_all (range (start_iter a) i) _ _ _) as [[m0 s4]|]; [|done].
  simpl in Hloop_i.
  destruct (fit_iteration a l i m0 s4) as [[[m5|]|e] s5] eqn:Hstep; [|done..].
  injection Hloop_i as -> ->.
  apply fit_iteration_adopts in Hstep. rewrite Hcp, Hdue in Hstep.
  rewrite Hstep, snapshots_at_save_snapshot. apply lookup_insert_eq.
Qed.

(** X13. The model that [fit_model] returns is the given model as placed
    on the device, or a resampled state in which [check_for_nans] found
    nothing: a state with a non-finite value is never returned. *)
Theorem fit_model_returns_clean a s m nm s' :
  fit_model a s = (Ret (m, nm), s') ->
  m = device_put_as_scalar (fit_model_arg a) ∨ (check_for_nans m).1 = false.
Proof.
  unfold fit_model. rewrite eff_bind_unfold.
  destruct (fit_prepare a s) as [[l|e] s1] eqn:Hprep; [|done].
  destruct (fit_prepare_returns _ _ _ _ Hprep) as (_ & _ & Hdev & _).
  rewrite eff_bind_unfold.
  destruct (for_break _ _ (on_device l) s1) as [[m1|e] s2] eqn:Hloop; [|done].
  intros [= <- <- <-].
  refine (for_break_returns
            (fun m => m = device_put_as_scalar (fit_model_arg a)
                      ∨ (check_for_nans m).1 = false)
            _ _ _ _ _ _ _ Hloop _); [|by left].
  intros i m0 s0 m2 s3. rewrite fit_iteration_unfold. simpl.
  destruct (resample_model _ _ _ _) as [[m'|e] w]; [|by destruct e].
  destruct (check_for_nans m').1 eqn:Hclean; [done|].
  destruct (fit_checkpoint _ _ _ _ _) as [[[]|e] s4]; [|done].
  intros [= <- <-]. by right.
Qed.

(** *** The files that a run leaves alone *)

Lemma fit_iteration_saves a l i m s r s' :
  fit_iteration a l i m s = (r, s') ->
  saves_of (journal s') = saves_of (journal s)
  ∨ exists cp m',
      checkpoint_path l = Some cp
      ∧ saves_of (journal s')
        = saves_of (journal s) ++ [(cp, snapshot_at (pretty i) m')].
Proof.
  rewrite fit_iteration_unfold. simpl.
  assert (saves_of (journal s ++ [CallResample (fit_data a) m (fit_options a l)])
          = saves_of (journal s)) as Hs.
  { rewrite saves_of_app. simpl. by rewrite app_nil_r. }
  destruct (resample_model _ _ _ _) as [[m'|e] w].
  - destruct (check_for_nans m').1; [intros [= <- <-]; by left|].
    rewrite fit_checkpoint_unfold.
    destruct (checkpoint_due a i); [|intros [= <- <-]; by left].
    destruct (checkpoint_path l) as [cp|]; [|intros [= <- <-]; by left].
    simpl. destruct (plots l).
    + destruct (plot_progress _ _ _ _ _ _ _) as [[[]|e] w'];
        intros [= <- <-]; right; exists cp, m'; (split; [done|]); simpl;
        rewrite !saves_of_app; simpl; by rewrite !app_nil_r.
    + intros [= <- <-]. right. exists cp, m'. split; [done|]. simpl.
      rewrite !saves_of_app. simpl. by rewrite !app_nil_r.
  - destruct e; intros [= <- <-]; by left.
Qed.

(** X14. Every call of [save_hdf5] that a run makes, however it goes, is
    to the checkpoint file of the run. What [plot_progress] saves itself
    is in the hands of that collaborator and is not a call of
    [save_hdf5]. *)
Theorem fit_model_saves_to_checkpoint a s :
  exists new,
    saves_of (journal (fit_model a s).2) = saves_of (journal s) ++ new
    ∧ Forall (fun save => checkpoint_path_of a s = Some save.1) new.
Proof.
  set (P := fun s1 s2 : host =>
              exists new,
                saves_of (journal s2) = saves_of (journal s1) ++ new
                ∧ Forall (fun save => checkpoint_path_of a s = Some save.1) new).
  assert (forall s1, P s1 s1) as Hrefl.
  { intros s1. exists []. by rewrite app_nil_r. }
  assert (forall s1 s2 s3, P s1 s2 -> P s2 s3 -> P s1 s3) as Htrans.
  { intros s1 s2 s3 (n1 & E1 & F1) (n2 & E2 & F2). exists (n1 ++ n2).
    split; [by rewrite E2, E1, app_assoc|by apply Forall_app]. }
  fold (P s (fit_model a s).2).
  unfold fit_model. rewrite eff_bind_unfold.
  destruct (fit_prepare a s) as [[l|e] s1] eqn:Hprep.
  - assert (P s s1 ∧ (forall cp, checkpoint_path l = Some cp ->
                                 checkpoint_path_of a s = Some cp))
      as [Hs1 Hl].
    { destruct (Z.lt_ge_cases 0 (save_every_n_iters a)) as [Hn|Hn].
      - destruct (project_dir a) as [d|] eqn:Hdir.
        + rewrite (fit_prepare_saving a s d) in Hprep by done.
          cbv zeta in Hprep. injection Hprep as <- <-. simpl.
          assert (checkpoint_path_of a s
                  = Some (os_path_join (os_path_join d (run_name_of a s))
                            "checkpoint.h5")) as Hcp.
          { unfold checkpoint_path_of. by rewrite Hdir. }
          split; [|by intros cp [= <-]].
          unfold P. destruct (files s !! _); simpl.
          * exists []. by rewrite !app_nil_r.
          * eexists. rewrite saves_of_app. simpl. split; [done|].
            apply Forall_singleton. exact Hcp.
        + rewrite fit_prepare_no_dir in Hprep by done. done.
      - rewrite fit_prepare_not_saving in Hprep by done.
        cbv zeta in Hprep. injection Hprep as <- <-. simpl.
        split; [|done]. exists []. by rewrite app_nil_r. }
    rewrite eff_bind_unfold.
    destruct (for_break (range (start_iter a) (num_iters a + 1))
                (fit_iteration a l) (on_device l) s1) as [r s'] eqn:Hloop.
    assert (P s1 s') as Hs'.
    { revert Hloop. apply (for_break_invariant P); [done|done|].
      intros i st0 s2 r2 s2' _ Hstep.
      apply fit_iteration_saves in Hstep as [Heq|(cp & m' & Hcp & Heq)].
      - exists []. by rewrite app_nil_r.
      - eexists. split; [exact Heq|]. apply Forall_singleton. simpl.
        by apply Hl. }
    destruct r; simpl; by apply (Htrans s s1 s').
  - simpl. destruct (Z.lt_ge_cases 0 (save_every_n_iters a)) as [Hn|Hn].
    + destruct (project_dir a) as [d|] eqn:Hdir.
      * by rewrite (fit_prepare_saving a s d) in Hprep.
      * rewrite fit_prepare_no_dir in Hprep by done.
        injection Hprep as _ <-. apply Hrefl.
    + by rewrite fit_prepare_not_saving in Hprep.
Qed.

(** X15. When the checkpoint file exists before the run, as when a fit
    is continued, the run keeps what it holds: [metadata] and [data] stay,
    and so does every snapshot whose key is not that of an iteration
    after [start_iter] of this run; the snapshot under [start_iter] is
    among those. This holds however the run goes. *)
Theorem fit_model_keeps_old_snapshots a s cp f :
  checkpoint_path_of a s = Some cp ->
  files s !! cp = Some f ->
  (exists f', files (fit_model a s).2 !! cp = Some f'
              ∧ metadata f' = metadata f ∧ data f' = data f)
  ∧ forall key,
      (forall i, start_iter a < i <= num_iters a -> key ≠ pretty i) ->
      snapshots_at cp (files (fit_model a s).2) !! key
      = model_snapshots f !! key.
Proof.
  intros Hpath Hf.
  set (kept := fun s' : host =>
         (exists f', files s' !! cp = Some f'
                     ∧ metadata f' = metadata f ∧ data f' = data f)
         ∧ forall key,
             (forall i, start_iter a < i <= num_iters a -> key ≠ pretty i) ->
             snapshots_at cp (files s') !! key = model_snapshots f !! key).
  assert (kept s) as Hs.
  { split; [by exists f|]. intros key _. unfold snapshots_at. by rewrite Hf. }
  assert (forall s1 s2, kept s1 -> files s2 = files s1 -> kept s2) as Hsame.
  { intros s1 s2 Hk Heq. unfold kept. by rewrite Heq. }
  change (kept (fit_model a s).2).
  unfold fit_model. rewrite eff_bind_unfold.
  destruct (fit_prepare a s) as [[l|e] s1] eqn:Hprep.
  - assert (files s1 = files s
            ∧ (checkpoint_path l = Some cp ∨ checkpoint_path l = None))
      as [Hs1 Hl].
    { destruct (Z.lt_ge_cases 0 (save_every_n_iters a)) as [Hn|Hn].
      - unfold checkpoint_path_of in Hpath.
        destruct (project_dir a) as [d|] eqn:Hdir; [|done].
        injection Hpath as Hpath.
        rewrite (fit_prepare_saving a s d) in Hprep by done.
        cbv zeta in Hprep. injection Hprep as <- <-. simpl.
        unfold run_name_of in *. rewrite Hpath, Hf. split; [done|by left].
      - rewrite fit_prepare_not_saving in Hprep by done.
        cbv zeta in Hprep. injection Hprep as <- <-. split; [done|by right]. }
    rewrite eff_bind_unfold.
    destruct (for_break (range (start_iter a) (num_iters a + 1))
                (fit_iteration a l) (on_device l) s1) as [r s'] eqn:Hloop.
    assert (kept s1 -> kept s') as Hs'.
    { revert Hloop.
      apply (for_break_invariant (fun s s' => kept s -> kept s')).
      - done.
      - intros ? ? ? H12 H23 ?. by apply H23, H12.
      - intros i m0 s2 r2 s2' Hi Hstep. apply elem_of_range in Hi.
        apply fit_iteration_files in Hstep
          as [Heq|(Hdue & cp' & m' & Hcp & Heq)];
          [intros Hk; by apply (Hsame s2)|].
        destruct Hl as [Hl|Hl]; [|congruence].
        rewrite Hl in Hcp. injection Hcp as <-.
        apply checkpoint_due_spec in Hdue as (_ & Hlt & _).
        intros [(f2 & Hf2 & Hmd & Hd) Hkeys]. split.
        + rewrite Heq. unfold save_hdf5. rewrite lookup_insert_eq, Hf2.
          eexists. split; [done|]. simpl. done.
        + intros key Hkey. rewrite Heq, snapshots_at_save_snapshot.
          rewrite lookup_insert_ne; [by apply Hkeys|].
          intros Heq'. apply (Hkey i); [lia|done]. }
    destruct r; simpl; by apply Hs', (Hsame s).
  - simpl. destruct (Z.lt_ge_cases 0 (save_every_n_iters a)) as [Hn|Hn].
    + destruct (project_dir a) as [d|] eqn:Hdir.
      * by rewrite (fit_prepare_saving a s d) in Hprep.
      * rewrite fit_prepare_no_dir in Hprep by done. by injection Hprep as _ <-.
    + by rewrite fit_prepare_not_saving in Hprep.
Qed.


(** *** [_wrapped_resample] and [_set_parallel_flag] *)

(** X16. [_wrapped_resample] calls [resample_model] once, on what it was
    given. A state that it returns is the one that this call returned,
    and [check_for_nans] found nothing in it. It raises [StopResampling]
    in three cases and no other: the call was interrupted by the user,
    the call returned a state with NaNs, or the call raised
    [StopResampling] itself. *)
Theorem wrapped_resample_contract (d : Data) m (opts : resample_options) s :
  journal (_wrapped_resample d m opts s).2
  = journal s ++ [CallResample d m opts]
  ∧ (forall m', (_wrapped_resample d m opts s).1 = Ret m' ->
       (resample_model d m opts (world s)).1 = Ret m'
       ∧ (check_for_nans m').1 = false)
  ∧ ((_wrapped_resample d m opts s).1 = Raise StopResampling
     <-> (resample_model d m opts (world s)).1 = Raise KeyboardInterrupt
         ∨ (exists m', (resample_model d m opts (world s)).1 = Ret m'
                       ∧ (check_for_nans m').1 = true)
         ∨ (resample_model d m opts (world s)).1 = Raise StopResampling).
Proof.
  rewrite wrapped_resample_unfold. simpl.
  destruct (resample_model d m opts (world s)) as [[m1|e] w]; simpl.
  - destruct (check_for_nans m1).1 eqn:Hnan; simpl.
    + split; [done|]. split; [done|]. split; [|done].
      intros _. right. left. by exists m1.
    + split; [done|]. split; [by intros m' [= <-]|].
      split; [done|]. intros [?|[(m' & [= <-] & ?)|?]]; congruence.
  - split; [by destruct e|]. split; [by destruct e|].
    split.
    + destruct e; try done; intros _; [by left|by right; right].
    + intros [[= ->]|[(m' & ? & _)|[= ->]]]; done.
Qed.

(** X17. The resolved flag is never [None] and never ['force']; a request
    that is neither is returned as it is, so that [False] stays [False]
    without advisory and a string other than ['force'] stays a string;
    and resolving a resolved flag changes nothing. *)
Theorem set_parallel_flag_resolved (backend : string) (p : pmp_flag) :
  pmp_is_none (_set_parallel_flag backend p).1 = false
  ∧ pmp_is_force (_set_parallel_flag backend p).1 = false
  ∧ (pmp_is_force p = false -> pmp_is_none p = false ->
     (_set_parallel_flag backend p).1 = p)
  ∧ _set_parallel_flag backend (PmpBool false) = (PmpBool false, [])
  ∧ (_set_parallel_flag backend (_set_parallel_flag backend p).1).1
    = (_set_parallel_flag backend p).1.
Proof.
  assert (forall q, pmp_is_force q = false -> pmp_is_none q = false ->
                    (_set_parallel_flag backend q).1 = q) as Hkeep.
  { intros q Hf Hn. unfold _set_parallel_flag. rewrite Hf, Hn.
    by destruct (pmp_truthy q && String.eqb backend "cpu"). }
  assert (pmp_is_none (_set_parallel_flag backend p).1 = false
          ∧ pmp_is_force (_set_parallel_flag backend p).1 = false)
    as [Hnone Hforce].
  { unfold _set_parallel_flag.
    destruct (pmp_is_force p) eqn:Hf; [done|].
    destruct (pmp_is_none p) eqn:Hn; [done|].
    by destruct (pmp_truthy p && String.eqb backend "cpu"). }
  split; [done|]. split; [done|]. split; [apply Hkeep|].
  split; [reflexivity|]. by apply Hkeep.
Qed.

End FitMore.

(** ** [extract_results] and [apply_model]: edges *)

Section ResultsMore.
Context `{Collaborators}.
Implicit Types (a : apply_args) (s : host) (m : model).

(** X18. [extract_results] writes last: with [save_results=False], and
    whenever the call raises, the host is as it was. Nothing is written
    before all the results are there. *)
Theorem extract_results_writes_last m md dir nm save_results path s r s' :
  extract_results m md dir nm save_results path s = (r, s') ->
  save_results = false ∨ (exists e, r = Raise e) ->
  s' = s.
Proof.
  unfold extract_results. rewrite eff_bind_unfold.
  set (dest := if save_results then _ else _).
  assert ((exists d, dest s = (Ret d, s) ∧ (save_results = true -> is_Some d))
          ∨ (exists e, dest s = (Raise e, s))) as [(d & -> & Hd)|[e ->]].
  { unfold dest. destruct save_results; [|left; by eexists].
    rewrite eff_bind_unfold. unfold lift_res.
    destruct (_get_path path dir nm "results.h5"); [left|right]; by eexists. }
  2:{ by intros [= <- <-]. }
  rewrite eff_bind_unfold. unfold lift_res at 1.
  destruct (states m) as [st|]; [|by intros [= <- <-]].
  rewrite eff_bind_unfold. unfold lift_res at 1.
  destruct (results_of st md) as [results|e]; [|by intros [= <- <-]].
  rewrite eff_bind_unfold.
  destruct save_results; [|by intros [= <- <-]].
  destruct (Hd eq_refl) as [p ->].
  unfold write_file, note, say, modify. rewrite !eff_bind_unfold. simpl.
  intros [= <- <-] [?|[e ?]]; done.
Qed.

(** X19. [apply_model] asked to save without [results_path] and without
    both [project_dir] and [name] fails on the assertion of line 321
    before anything is computed: no collaborator is called and no file is
    touched. *)
Theorem apply_model_needs_destination a s :
  apply_save_results a = true ->
  results_path a = None ->
  apply_project_dir a = None ∨ apply_name a = None ->
  (apply_model a s).1 = Raise AssertionError
  ∧ journal (apply_model a s).2 = journal s
  ∧ files (apply_model a s).2 = files s
  ∧ world (apply_model a s).2 = world s.
Proof.
  intros Hsave Hpath Hdest. unfold apply_model, apply_prepare.
  rewrite !eff_bind_unfold, set_parallel_flag_effect. simpl.
  rewrite eff_bind_unfold, Hsave, Hpath.
  destruct Hdest as [->| ->]; [done|].
  by destruct (apply_project_dir a).
Qed.

(** X20. A model dictionary without ['params'] or without ['hypparams']
    makes [apply_model] raise [KeyError] before [init_model] is called,
    when the destination of the results is in order. *)
Theorem apply_model_needs_params a s :
  (apply_save_results a = false ∨ is_Some (results_path a)
   ∨ (is_Some (apply_project_dir a) ∧ is_Some (apply_name a))) ->
  params (apply_model_arg a) = None ∨ hypparams (apply_model_arg a) = None ->
  (apply_model a s).1 = Raise KeyError
  ∧ journal (apply_model a s).2 = journal s
  ∧ files (apply_model a s).2 = files s
  ∧ world (apply_model a s).2 = world s.
Proof.
  intros Hdest Hmissing. unfold apply_model, apply_prepare.
  rewrite !eff_bind_unfold, set_parallel_flag_effect. simpl.
  rewrite eff_bind_unfold.
  set (s0 := {| world := world s |}).
  set (dest := if apply_save_results a then _ else _).
  assert (exists d, dest s0 = (Ret d, s0)) as [d ->].
  { unfold dest. destruct (apply_save_results a); [|by eexists].
    destruct (results_path a); [by eexists|].
    destruct Hdest as [?|[[? ?]|[[? ->] [? ->]]]]; [done|done|by eexists]. }
  rewrite eff_bind_unfold. unfold lift_res at 1.
  destruct (params (apply_model_arg a)) as [pr|]; [|done].
  rewrite eff_bind_unfold. unfold lift_res at 1.
  destruct Hmissing as [?| ->]; done.
Qed.

(** *** The entries of the results *)

Lemma dict_get_zip_with {A B} (f : B -> A) (keys : list string) (ys : list B)
    (r : nat) k y :
  NoDup keys -> keys !! r = Some k -> ys !! r = Some y ->
  dict_get k (zip_with (fun key y => (key, f y)) keys ys) = Some (f y).
Proof.
  revert ys r. induction keys as [|k0 keys IH]; intros ys r Hnd Hk Hy.
  - done.
  - destruct ys as [|y0 ys]; [by destruct r|].
    apply NoDup_cons in Hnd as [Hk0 Hnd]. simpl.
    destruct r as [|r]; simpl in *.
    + injection Hk as ->. injection Hy as ->. by rewrite String.eqb_refl.
    + destruct (String.eqb_spec k k0) as [->|Hne].
      * exfalso. apply Hk0. by apply list_elem_of_lookup_2 in Hk.
      * by apply (IH ys r).
Qed.

Lemma dict_get_unbatch {A} (batched : list (list A)) keys bounds
    (r : nat) key row lo hi :
  NoDup keys -> keys !! r = Some key -> batched !! r = Some row ->
  bounds !! r = Some (lo, hi) ->
  dict_get key (unbatch batched keys bounds) = Some (slice lo hi row).
Proof.
  intros Hnd Hk Hrow Hb. unfold unbatch.
  apply (dict_get_zip_with
           (fun rb : list A * (Z * Z) => slice rb.2.1 rb.2.2 rb.1)
           keys (zip batched bounds) r key (row, (lo, hi))); [done|done|].
  apply lookup_zip_with_Some. by exists row, (lo, hi).
Qed.

Lemma dict_map_res_get {A B} (f : A -> res B) (d : dict A) (d' : dict B) k
    (x0 : A) :
  dict_map_res f d = Ret d' -> dict_get k d = Some x0 ->
  exists b, f x0 = Ret b ∧ dict_get k d' = Some b.
Proof.
  revert d'. induction d as [|[k0 a0] d IH]; intros d'; simpl; [done|].
  destruct (f a0) as [b0|e] eqn:Hf0; [|done].
  destruct (dict_map_res f d) as [rest|e]; [|done].
  intros [= <-]. simpl. destruct (String.eqb k k0).
  - intros [= <-]. by exists b0.
  - by apply IH.
Qed.

Lemma dict_get_self {A} (d : dict A) k (x0 : A) :
  dict_get k d = Some x0 ->
  dict_get k (map (fun kv => (kv.1, kv.1)) d) = Some k.
Proof.
  induction d as [|[k0 a0] d IH]; simpl; [done|].
  destruct (String.eqb_spec k k0) as [->|Hne]; [done|apply IH].
Qed.

(** X21. What the results hold for a recording, whenever there are
    results: the latent states, the centroids and the headings are the
    rows of the recording cut at its bounds, and the syllables are the
    labels of its row cut at the bounds shifted by [(0, nlags)], then
    padded as line 237 does. *)
Theorem results_of_recording (st : states_t) keys bounds results (r : nat)
    key lo hi xrow zrow vrow hrow :
  NoDup keys ->
  results_of st (keys, bounds) = Ret results ->
  keys !! r = Some key -> bounds !! r = Some (lo, hi) ->
  x st !! r = Some xrow -> z st !! r = Some zrow ->
  v st !! r = Some vrow -> h st !! r = Some hrow ->
  exists rec,
    dict_get key results = Some rec
    ∧ latent_state rec = slice lo hi xrow
    ∧ centroid rec = slice lo hi vrow
    ∧ heading rec = slice lo hi hrow
    ∧ pad_syllables (shape1 (x st) - shape1 (z st))
        (slice (lo + 0) (hi + (shape1 (x st) - shape1 (z st))) zrow)
      = Ret (syllable rec).
Proof.
  intros Hnd Hres Hk Hb Hx Hz Hv Hh. unfold results_of in Hres.
  set (nlags := shape1 (x st) - shape1 (z st)) in *.
  destruct (dict_map_res (pad_syllables nlags) _) as [syl|e] eqn:Hsyl; [|done].
  assert (shift_bounds bounds nlags !! r = Some (lo + 0, hi + nlags)) as Hsb.
  { unfold shift_bounds. by rewrite list_lookup_fmap, Hb. }
  pose proof (dict_get_unbatch _ _ _ _ _ _ _ _ Hnd Hk Hz Hsb) as Hzs.
  destruct (dict_map_res_get _ _ _ _ _ Hsyl Hzs) as (padded & Hpad & Hsylk).
  pose proof (dict_get_self _ _ _ Hsylk) as Hself.
  destruct (dict_map_res_get _ _ _ _ _ Hres Hself) as (rec & Hrec & Hget).
  exists rec. split; [done|].
  unfold dict_item in Hrec. rewrite Hsylk in Hrec.
  rewrite (dict_get_unbatch _ _ _ _ _ _ _ _ Hnd Hk Hx Hb) in Hrec.
  rewrite (dict_get_unbatch _ _ _ _ _ _ _ _ Hnd Hk Hv Hb) in Hrec.
  rewrite (dict_get_unbatch _ _ _ _ _ _ _ _ Hnd Hk Hh Hb) in Hrec.
  by injection Hrec as <-.
Qed.

Lemma dict_map_res_raises {A B} (f : A -> res B) (d : dict A) k (x0 : A) e :
  (k, x0) ∈ d -> f x0 = Raise e ->
  (forall y e', f y = Raise e' -> e' = e) ->
  dict_map_res f d = Raise e.
Proof.
  intros Hin Hx Honly. induction d as [|[k0 y0] d IH]; simpl.
  - by apply elem_of_nil in Hin.
  - destruct (f y0) as [b0|e0] eqn:Hf0.
    + apply elem_of_cons in Hin as [Heq|Hin]; [congruence|].
      by rewrite (IH Hin).
    + by rewrite (Honly _ _ Hf0).
Qed.

Lemma pad_syllables_raises (nlags : Z) (zs : list Z) e :
  pad_syllables nlags zs = Raise e -> e = ValueError.
Proof.
  unfold pad_syllables, np_pad_edge_left.
  destruct (nlags <? 0); [congruence|].
  destruct (slice_from nlags zs); [|done].
  destruct (nlags =? 0); [done|congruence].
Qed.

Lemma slice_length_le {A} (lo hi : Z) (row : list A) :
  0 <= lo <= hi -> Z.of_nat (length (slice lo hi row)) <= hi - lo.
Proof.
  intros Hlo. unfold slice, slice_bound.
  destruct (Z.ltb_spec lo 0); [lia|]. destruct (Z.ltb_spec hi 0); [lia|].
  rewrite length_take, length_drop. lia.
Qed.

(** X22. A recording with the bounds [(0, 0)] cannot be extracted from a
    model with lags: when [nlags] is positive, the labels cut for it are
    [nlags], line 237 keeps none of them, [np.pad] has no edge to repeat,
    and [extract_results] raises [ValueError] before anything is written
    or printed. *)
Theorem extract_results_empty_recording m (st : states_t) keys bounds
    dir nm save_results path s (r : nat) key zrow :
  states m = Some st ->
  save_results = false ∨ is_Some path ->
  NoDup keys ->
  0 < shape1 (x st) - shape1 (z st) ->
  keys !! r = Some key -> bounds !! r = Some (0, 0) ->
  z st !! r = Some zrow ->
  extract_results m (keys, bounds) dir nm save_results path s
  = (Raise ValueError, s).
Proof.
  intros Hst Hdest _ Hlags Hk Hb Hz.
  set (nlags := shape1 (x st) - shape1 (z st)) in *.
  assert (results_of st (keys, bounds) = Raise ValueError) as Hres.
  { unfold results_of. fold nlags.
    rewrite (dict_map_res_raises (pad_syllables nlags) _ key
               (slice (0 + 0) (0 + nlags) zrow) ValueError); [done|..].
    - unfold unbatch. apply list_elem_of_lookup. exists r.
      apply lookup_zip_with_Some.
      exists key, (zrow, (0 + 0, 0 + nlags)).
      split; [done|]. split; [done|].
      apply lookup_zip_with_Some. exists zrow, (0 + 0, 0 + nlags).
      split; [done|]. split; [done|].
      unfold shift_bounds. by rewrite list_lookup_fmap, Hb.
    - unfold pad_syllables, np_pad_edge_left, slice_from, slice_bound.
      destruct (Z.ltb_spec nlags 0); [lia|].
      pose proof (slice_length_le (0 + 0) (0 + nlags) zrow) as Hlen.
      rewrite Z.min_r by lia. rewrite Nat2Z.id, drop_all.
      destruct (Z.eqb_spec nlags 0); [lia|done].
    - apply pad_syllables_raises. }
  unfold extract_results. rewrite eff_bind_unfold.
  assert (exists path',
            (if save_results
             then p ← lift_res (_get_path path dir nm "results.h5"); mret (Some p)
             else mret path) s = (Ret path', s)) as [path' ->].
  { destruct save_results; [|by eexists].
    destruct Hdest as [?|[p ->]]; [done|]. by eexists. }
  rewrite eff_bind_unfold. unfold lift_res at 1. rewrite Hst.
  rewrite eff_bind_unfold. unfold lift_res at 1. by rewrite Hres.
Qed.

(** *** The resampling calls of [apply_model] *)

Lemma apply_prepare_journal a s p dest m0 s1 :
  apply_prepare a s = (Ret (p, dest, m0), s1) ->
  p = (_set_parallel_flag default_backend
         (apply_parallel_message_passing a)).1
  ∧ resample_options_of (journal s1) = resample_options_of (journal s).
Proof.
  unfold apply_prepare. rewrite eff_bind_unfold, set_parallel_flag_effect.
  simpl. rewrite eff_bind_unfold.
  set (s0 := {| world := world s; files := files s;
                stream := stream s ++ _; journal := journal s |}).
  set (dst := if apply_save_results a then _ else _).
  assert ((exists d, dst s0 = (Ret d, s0)) ∨ (exists e, dst s0 = (Raise e, s0)))
    as [[d ->]|[e ->]].
  { unfold dst. destruct (apply_save_results a); [|left; by eexists].
    destruct (results_path a); [left; by eexists|].
    destruct (apply_project_dir a), (apply_name a);
      (left; by eexists) || (right; by eexists). }
  2:{ done. }
  rewrite eff_bind_unfold. unfold lift_res at 1.
  destruct (params (apply_model_arg a)) as [pr|]; [|done].
  rewrite eff_bind_unfold. unfold lift_res at 1.
  destruct (hypparams (apply_model_arg a)) as [hp|]; [|done].
  rewrite eff_bind_unfold. unfold note, modify, call. simpl.
  rewrite eff_bind_unfold. simpl.
  destruct (init_model _ _ _ _ _) as [[m1|e] w]; [|done].
  intros [= <- <- <- <-]. split; [done|]. simpl.
  rewrite resample_options_of_app. simpl. by rewrite app_nil_r.
Qed.

Lemma apply_iteration_adopts_journal a p i m s m' s' :
  apply_iteration a p i m s = (Ret (Some m'), s') ->
  resample_options_of (journal s')
  = resample_options_of (journal s) ++ [apply_options a p].
Proof.
  unfold apply_iteration, or_break. rewrite wrapped_resample_unfold. simpl.
  destruct (resample_model _ _ _ _) as [[m1|e] w]; [|by destruct e].
  destruct (check_for_nans m1).1; [done|].
  intros [= <- <-]. simpl. by rewrite resample_options_of_app.
Qed.

Lemma adopt_all_apply_resamples a p xs m s m' s' :
  adopt_all xs (apply_iteration a p) m s = Some (m', s') ->
  resample_options_of (journal s')
  = resample_options_of (journal s) ++ replicate (length xs) (apply_options a p).
Proof.
  revert m s. induction xs as [|i xs IH]; intros m s; simpl.
  - intros [= -> ->]. by rewrite app_nil_r.
  - destruct (apply_iteration a p i m s) as [[[m1|]|e] s1] eqn:Hstep; [|done..].
    intros Hrest. rewrite (IH _ _ Hrest).
    rewrite (apply_iteration_adopts_journal _ _ _ _ _ _ _ Hstep).
    by rewrite <- app_assoc.
Qed.

Lemma extract_results_resamples m md dir nm save_results path s :
  resample_options_of
    (journal (extract_results m md dir nm save_results path s).2)
  = resample_options_of (journal s).
Proof.
  unfold extract_results. rewrite eff_bind_unfold.
  assert ((exists path',
            (if save_results
             then p ← lift_res (_get_path path dir nm "results.h5"); mret (Some p)
             else mret path) s = (Ret path', s))
          ∨ (exists e,
            (if save_results
             then p ← lift_res (_get_path path dir nm "results.h5"); mret (Some p)
             else mret path) s = (Raise e, s))) as [[path' ->]|[e ->]].
  { destruct save_results; [|left; by eexists].
    rewrite eff_bind_unfold. unfold lift_res.
    destruct (_get_path path dir nm "results.h5");
      [left; by eexists|right; by eexists]. }
  2:{ done. }
  rewrite eff_bind_unfold. unfold lift_res at 1.
  destruct (states m) as [st|]; [|done].
  rewrite eff_bind_unfold. unfold lift_res at 1.
  destruct (results_of st md) as [results|e]; [|done].
  rewrite eff_bind_unfold.
  destruct save_results; [|done].
  destruct path' as [p|]; [|done].
  repeat (rewrite eff_bind_unfold; simpl).
  rewrite resample_options_of_app. simpl. by rewrite app_nil_r.
Qed.

(** X23. [apply_model], when no resampling stops it, resamples exactly
    [num_iters] times, one fewer than a fit from iteration [0] to
    [num_iters], and every call asks for the states only, with the
    [ar_only] and [verbose] of the caller and the resolved flag. *)
Theorem apply_model_resamples a s p dest m0 s1 m s2 :
  apply_prepare a s = (Ret (p, dest, m0), s1) ->
  adopt_all (range 0 (apply_num_iters a)) (apply_iteration a p) m0 s1
  = Some (m, s2) ->
  resample_options_of (journal (apply_model a s).2)
  = resample_options_of (journal s)
    ++ replicate (Z.to_nat (apply_num_iters a))
         {| ar_only := apply_ar_only a; states_only := Some true;
            verbose := apply_verbose a;
            parallel_message_passing :=
              (_set_parallel_flag default_backend
                 (apply_parallel_message_passing a)).1 |}.
Proof.
  intros Hprep Hloop.
  destruct (apply_prepare_journal _ _ _ _ _ _ Hprep) as [Hp Hj].
  unfold apply_model. rewrite eff_bind_unfold, Hprep.
  rewrite eff_bind_unfold.
  rewrite <- (app_nil_r (range 0 (apply_num_iters a))).
  rewrite (for_break_adopted _ [] _ _ _ _ _ Hloop). simpl.
  rewrite extract_results_resamples.
  rewrite (adopt_all_apply_resamples _ _ _ _ _ _ _ Hloop), Hj.
  unfold range. rewrite length_seqZ, Z.sub_0_r. by rewrite Hp.
Qed.

End ResultsMore.

(** ** The further properties on runs *)

Section FurtherRuns.
Import Scalars Examples Cases.

#[local] Existing Instance Scalars.objects.
#[local] Existing Instance Script.payloads.

(** *** Hyperparameters *)

(** [kappa=5] leaves [nlags] at [3]. *)
Lemma update_hypparams_only_requested_witness :
  hypparam_at "ar_hypparams" "nlags"
    (update_hypparams (model_with (Some hp_two_groups))
                      [("kappa", VInt 5)]).1.2
  = Some (VInt 3).
Proof.
  rewrite (update_hypparams_only_requested
             (model_with (Some hp_two_groups)) [("kappa", VInt 5)]
             "ar_hypparams" "nlags"); [reflexivity|].
  apply (bool_decide_unpack _). vm_compute. exact I.
Defined.

(** [S_0=[2, 2]] over a list: the notice and then the warning. *)
Lemma update_hypparams_not_a_scalar_witness :
  update_hypparams (model_with (Some hp_two_groups)) [("S_0", VList [2; 2])]
  = (Ret (model_with (Some hp_two_groups)), model_with (Some hp_two_groups),
     [Print (NotAScalar "S_0"); Warn (NotFound ["S_0"])]).
Proof.
  refine (update_hypparams_not_a_scalar
            (model_with (Some hp_two_groups)) hp_two_groups
            "S_0" (VList [2; 2]) eq_refl _).
  intros G old. unfold hypparam_at. simpl.
  destruct (String.eqb_spec G "trans_hypparams"); [done|].
  destruct (String.eqb_spec G "ar_hypparams"); [|done].
  by intros [= <-].
Defined.

(** [nlags=None] over the integer [3]: [int(None)] raises. *)
Lemma update_hypparams_cast_fails_witness :
  update_hypparams (model_with (Some hp_two_groups)) [("nlags", VNone)]
  = (Raise TypeError, model_with (Some hp_two_groups),
     [Warn (WillBeCast VNone "nlags" TNoneType TInt)]).
Proof.
  refine (update_hypparams_cast_fails
            (model_with (Some hp_two_groups)) hp_two_groups
            "ar_hypparams" [("nlags", VInt 3); ("S_0", VList [1; 1])]
            "nlags" (VInt 3) VNone TypeError
            eq_refl _ eq_refl eq_refl eq_refl eq_refl _).
  - apply (bool_decide_unpack _). vm_compute. exact I.
  - intros group' g' Hne. simpl.
    destruct (String.eqb_spec group' "trans_hypparams"); [by intros [= <-]|].
    destruct (String.eqb_spec group' "ar_hypparams"); done.
Defined.

(** [kappa=5, nlags=5.0] over the float [10.0] and the integer [3]. *)
Lemma update_hypparams_several_witness :
  exists final adv,
    update_hypparams (model_with (Some hp_two_groups))
                     [("kappa", VInt 5); ("nlags", VFloat five)]
    = (Ret final, final, adv)
    ∧ hypparam_at "trans_hypparams" "kappa" final = Some (VFloat five)
    ∧ hypparam_at "ar_hypparams" "nlags" final = Some (VInt 5).
Proof.
  destruct (@update_hypparams_several objects Script.payloads home_of cast_of
              (model_with (Some hp_two_groups)) hp_two_groups
              [("kappa", VInt 5); ("nlags", VFloat five)])
    as (final & adv & Hrun & Hvals & _).
  - reflexivity.
  - apply (bool_decide_unpack _). vm_compute. exact I.
  - apply (bool_decide_unpack _). vm_compute. exact I.
  - intros k val Hin. apply elem_of_cons in Hin as [[= -> ->]|Hin].
    + by eexists.
    + apply list_elem_of_singleton in Hin as [= -> ->]. by eexists.
  - intros k G Hin Hne. unfold hypparam_at. simpl in *.
    apply elem_of_cons in Hin as [->|Hin];
      [|apply list_elem_of_singleton in Hin as ->];
      unfold home_of in Hne; simpl in Hne;
      destruct (String.eqb_spec G "trans_hypparams");
      destruct (String.eqb_spec G "ar_hypparams"); done.
  - exists final, adv. split; [exact Hrun|]. split.
    + apply (Hvals "kappa"). apply list_elem_of_here.
    + apply (Hvals "nlags"). apply list_elem_of_further, list_elem_of_here.
Defined.

(** *** [fit_model] *)

(** [save_every_n_iters=0]: twenty-one iterations and no file. *)
Lemma fit_model_saving_off_witness :
  files (@fit_model _ _ (script None None) fit_20_unsaved
           (empty_host None None)).2
  = files (empty_host None None)
  ∧ saves_of (journal (@fit_model _ _ (script None None) fit_20_unsaved
                         (empty_host None None)).2)
    = saves_of (journal (empty_host None None))
  ∧ plots_of (journal (@fit_model _ _ (script None None) fit_20_unsaved
                         (empty_host None None)).2)
    = plots_of (journal (empty_host None None)).
Proof.
  apply (@fit_model_saving_off _ _ (script None None) fit_20_unsaved
           (empty_host None None)).
  simpl. lia.
Defined.

Lemma fit_model_needs_project_dir_witness :
  @fit_model _ _ (script None None) fit_20_no_project (empty_host None None)
  = (Raise TypeError, empty_host None None).
Proof.
  apply (@fit_model_needs_project_dir _ _ (script None None)
           fit_20_no_project (empty_host None None)); [simpl; lia|reflexivity].
Defined.

(** The resampling of iteration 7 fails. *)
Lemma fit_model_fault_escapes_witness :
  (@fit_model _ _ (faulty (Some 7) None) fit_20_by_5
     (faulty_host (Some 7) None)).1
  = Raise (Fault "XlaRuntimeError").
Proof.
  let r := eval vm_compute in
      (@fit_reaches _ _ (faulty (Some 7) None) fit_20_by_5
         (faulty_host (Some 7) None) 7) in
  match r with
  | Some (?l, ?s1, ?m, ?s2) =>
      let q := eval vm_compute in
          (@resample_model _ _ (faulty (Some 7) None) tt m
             (fit_options fit_20_by_5 l) (world s2)) in
      match q with
      | (Raise ?e, ?w) =>
          rewrite (@fit_model_fault_escapes _ _ (faulty (Some 7) None)
                     fit_20_by_5 (faulty_host (Some 7) None) 7 l s1 m s2 e w);
            [reflexivity|reflexivity|simpl; lia|reflexivity
            |discriminate|discriminate]
      end
  end.
Defined.

(** The plot of iteration 10 fails: the snapshot of iteration 10 is in
    the file. *)
Lemma fit_model_plot_fault_escapes_witness :
  exists s',
    @fit_model _ _ (faulty None (Some 10)) fit_20_by_5
      (faulty_host None (Some 10))
    = (Raise (Fault "OSError"), s')
    ∧ snapshots_at "proj/run/checkpoint.h5" (files s') !! pretty 10
      = Some (resampled 11).
Proof.
  let r := eval vm_compute in
      (@fit_reaches _ _ (faulty None (Some 10)) fit_20_by_5
         (faulty_host None (Some 10)) 10) in
  match r with
  | Some (?l, ?s1, ?m, ?s2) =>
      let q := eval vm_compute in
          (@resample_model _ _ (faulty None (Some 10)) tt m
             (fit_options fit_20_by_5 l) (world s2)) in
      match q with
      | (Ret ?m', ?w) =>
          destruct (@fit_model_plot_fault_escapes _ _ (faulty None (Some 10))
                      fit_20_by_5 (faulty_host None (Some 10)) 10 l s1 m s2
                      m' w "proj/run/checkpoint.h5" (Fault "OSError") w)
            as (s' & Hrun & Hsnap);
            [reflexivity|simpl; lia|reflexivity|reflexivity|reflexivity
            |reflexivity|reflexivity|reflexivity|]
      end
  end.
  exists s'. split; [exact Hrun|exact Hsnap].
Defined.

Lemma fit_model_resamples_witness :
  resample_options_of
    (journal (@fit_model _ _ (script None None) fit_20_by_5
                (empty_host None None)).2)
  = replicate 21 {| ar_only := false; states_only := None; verbose := false;
                    parallel_message_passing := PmpBool false |}.
Proof.
  rewrite (@fit_model_resamples _ _ (script None None) fit_20_by_5
             (empty_host None None)); [reflexivity|by vm_compute].
Defined.

(** The snapshot of iteration 10 at the head of iteration 17. *)
Lemma fit_model_snapshot_is_adopted_witness :
  exists l s1 m s2,
    @fit_reaches _ _ (script None None) fit_20_by_5 (empty_host None None) 17
    = Some (l, s1, m, s2)
    ∧ snapshots_at "proj/run/checkpoint.h5" (files s2) !! pretty 10
      = Some (resampled 11).
Proof.
  let r := eval vm_compute in
      (@fit_reaches _ _ (script None None) fit_20_by_5
         (empty_host None None) 11) in
  match r with
  | Some (?l, ?s1, ?mi, ?si) =>
      let q := eval vm_compute in
          (@fit_reaches _ _ (script None None) fit_20_by_5
             (empty_host None None) 17) in
      match q with
      | Some (_, _, ?mk, ?sk) =>
          exists l, s1, mk, sk; split; [reflexivity|];
          apply (@fit_model_snapshot_is_adopted _ _ (script None None)
                   fit_20_by_5 (empty_host None None) 10 17 l s1 mi si mk sk
                   "proj/run/checkpoint.h5");
            [reflexivity|reflexivity|simpl; lia|reflexivity|reflexivity]
      end
  end.
Defined.

Lemma fit_model_returns_clean_witness :
  resampled 21
  = @device_put_as_scalar _ _ (script None None) (fit_model_arg fit_20_by_5)
  ∨ (@check_for_nans _ _ (script None None) (resampled 21)).1 = false.
Proof.
  let r := eval vm_compute in
      (@fit_model _ _ (script None None) fit_20_by_5 (empty_host None None)) in
  match r with
  | (Ret (_, ?nm), ?s') =>
      apply (@fit_model_returns_clean _ _ (script None None) fit_20_by_5
               (empty_host None None) (resampled 21) nm s'); reflexivity
  end.
Defined.

(** The run of twenty iterations saves five times, each time to its
    checkpoint file. *)
Example saves_of_20_by_5 :
  map fst (saves_of (journal (@fit_model _ _ (script None None) fit_20_by_5
                                (empty_host None None)).2))
  = replicate 5 "proj/run/checkpoint.h5".
Proof. by vm_compute. Qed.

(** A fit continued from iteration 10: the snapshot of iteration 5 is
    kept. *)
Lemma fit_model_keeps_old_snapshots_witness :
  snapshots_at "proj/run/checkpoint.h5"
    (files (@fit_model _ _ (script None None) fit_from_10 host_after_10).2)
    !! "5"
  = Some (resampled 5).
Proof.
  destruct (@fit_model_keeps_old_snapshots _ _ (script None None) fit_from_10
              host_after_10 "proj/run/checkpoint.h5" checkpoint_to_10)
    as [_ Hkeep]; [reflexivity|reflexivity|].
  rewrite Hkeep; [reflexivity|].
  intros i Hi Heq. change "5" with (pretty 5) in Heq.
  apply (inj pretty) in Heq. simpl in Hi. lia.
Defined.

(** *** [extract_results] and [apply_model] *)

Lemma extract_results_writes_last_witness :
  (@extract_results _ _ (script None None) model_65_60 one_recording
     None None false None (empty_host None None)).2
  = empty_host None None.
Proof.
  let r := eval vm_compute in
      (@extract_results _ _ (script None None) model_65_60 one_recording
         None None false None (empty_host None None)) in
  match r with
  | (?r0, ?s0) =>
      apply (@extract_results_writes_last _ _ (script None None) model_65_60
               one_recording None None false None (empty_host None None)
               r0 s0); [reflexivity|by left]
  end.
Defined.

Lemma apply_model_needs_destination_witness :
  (@apply_model _ _ (script None None) apply_5_nowhere
     (empty_host None None)).1
  = Raise AssertionError.
Proof.
  apply (@apply_model_needs_destination _ _ (script None None)
           apply_5_nowhere (empty_host None None));
    [reflexivity|reflexivity|by right].
Defined.

Lemma apply_model_needs_params_witness :
  (@apply_model _ _ (script None None) apply_5_bare
     (empty_host None None)).1
  = Raise KeyError.
Proof.
  apply (@apply_model_needs_params _ _ (script None None)
           apply_5_bare (empty_host None None)); [by left|by right].
Defined.

(** The recording with bounds [(10, 50)] and [nlags = 5]. *)
Lemma results_of_recording_witness :
  exists results rec,
    results_of states_65_60 one_recording = Ret results
    ∧ dict_get "rec" results = Some rec
    ∧ latent_state rec = seqZ 10 40
    ∧ centroid rec = seqZ 210 40
    ∧ heading rec = seqZ 310 40
    ∧ pad_syllables 5 (seqZ 110 45) = Ret (syllable rec).
Proof.
  let r := eval vm_compute in (results_of states_65_60 one_recording) in
  match r with
  | Ret ?results =>
      destruct (results_of_recording states_65_60 ["rec"] [(10, 50)] results
                  0%nat "rec" 10 50 (seqZ 0 65) (seqZ 100 60) (seqZ 200 65)
                  (seqZ 300 65))
        as (rec & Hget & Hl & Hc & Hh & Hs);
        [apply (bool_decide_unpack _); vm_compute; exact I
        |reflexivity..|];
      exists results, rec
  end.
  split; [reflexivity|]. split; [exact Hget|].
  split; [exact Hl|]. split; [exact Hc|]. split; [exact Hh|exact Hs].
Defined.

Lemma extract_results_empty_recording_witness :
  @extract_results _ _ (script None None) model_65_60 empty_recording
    None None false None (empty_host None None)
  = (Raise ValueError, empty_host None None).
Proof.
  apply (@extract_results_empty_recording _ _ (script None None) model_65_60
           states_65_60 ["rec"] [(0, 0)] None None false None
           (empty_host None None) 0%nat "rec" (seqZ 100 60));
    [reflexivity|by left|apply (bool_decide_unpack _); vm_compute; exact I
    |by vm_compute|reflexivity|reflexivity|reflexivity].
Defined.

Lemma apply_model_resamples_witness :
  resample_options_of
    (journal (@apply_model _ _ (script None None) apply_5
                (empty_host None None)).2)
  = replicate 5 {| ar_only := false; states_only := Some true;
                   verbose := false;
                   parallel_message_passing := PmpBool false |}.
Proof.
  let r := eval vm_compute in
      (@apply_prepare _ _ (script None None) apply_5
         (empty_host None None)) in
  match r with
  | (Ret (?p, ?dest, ?m0), ?s1) =>
      let q := eval vm_compute in
          (@adopt_all _ _ (script None None) _ _ (range 0 5)
             (apply_iteration apply_5 p) m0 s1) in
      match q with
      | Some (?m, ?s2) =>
          rewrite (@apply_model_resamples _ _ (script None None) apply_5
                     (empty_host None None) p dest m0 s1 m s2);
            [reflexivity|reflexivity|reflexivity]
      end
  end.
Defined.

End FurtherRuns.
